(** * GreenGiant greenhouse backend: routes, middleware and socket presence

    A shallow embedding of the Express/Socket.IO backend.  Every route
    handler is a function from the durable store (the Mongo collections)
    and the request to a new store and a JSON response; the Socket.IO
    server is an outbox of emitted events.

    Standing conventions of the model:
    - a handler runs to completion before the next one starts, except
      where a definition says otherwise: the registration is also given
      one awaited call at a time, to follow two of them overlapping;
    - the durable store itself does not fail: the only exceptions a
      handler sees from it are the schema validation and unique-index
      errors declared in the models;
    - [jwt.verify] is abstracted: a request carries the user id its token
      decodes to, or nothing when the token is missing, invalid or expired;
    - bcrypt has no collisions: a stored hash matches a candidate
      exactly when the two give the hash function the same key, which is
      all it reads of a password;
    - dates are integers (milliseconds); the [createdAt]/[updatedAt]
      stamps kept by the schema layer and the [ipAddress] of log entries
      are not modelled. *)

From Stdlib Require Import ZArith String Ascii List Bool Lia.
From stdpp Require Import base option gmap strings list.
Import ListNotations.

Local Open Scope string_scope.

(* ================================================================== *)
(** * JavaScript values and the built-ins the routes call *)
(* ================================================================== *)
Module Js.

(** Strings are sequences of bytes holding well-formed UTF-8, as the
    body parser reads them; [characters] gives the code points back. *)

(** An integer that a JSON number holds exactly and that [ToString]
    prints in plain decimal: its magnitude is below 10^21.  From 10^21
    on the number prints in exponent form, of which [parseInt] reads only
    the leading digit; such numbers, and fractional ones, are not values
    of the model. *)
Class SafeInt (z : Z) : Prop :=
  safeInt : (Z.abs z <? 10 ^ 21)%Z = true.

#[global] Hint Extern 0 (SafeInt ?z) =>
  lazymatch z with
  | Z0 => reflexivity
  | Zpos _ => vm_compute; reflexivity
  | Zneg _ => vm_compute; reflexivity
  end : typeclass_instances.

(** A JSON value found in a request body. *)
Inductive Value :=
| Null
| Bool (b : bool)
| Num (z : Z) (safe : SafeInt z)
| Str (s : string).
Arguments Num z {safe}.

(** What [parseInt] returns: an integer or [NaN]. *)
Inductive Number :=
| NaN
| Int (z : Z).

(** A byte [10xxxxxx] continues the character begun before it. *)
Definition isContinuation (c : ascii) : bool :=
  let n := nat_of_ascii c in (128 <=? n)%nat && (n <? 192)%nat.

Definition continues (s : string) : bool :=
  match s with
  | String c _ => isContinuation c
  | EmptyString => false
  end.

(** The characters of [s], each as the bytes that encode it. *)
Fixpoint characters (s : string) : list string :=
  match s with
  | EmptyString => []
  | String c r =>
      match characters r with
      | h :: t =>
          if continues h then String c h :: t
          else String c EmptyString :: h :: t
      | [] => [String c EmptyString]
      end
  end.

Fixpoint continuationBits (s : string) (acc : Z) : Z :=
  match s with
  | String c r =>
      continuationBits r (acc * 64 + (Z.of_nat (nat_of_ascii c) - 128))%Z
  | EmptyString => acc
  end.

(** The code point a character encodes. *)
Definition codePoint (ch : string) : Z :=
  match ch with
  | EmptyString => 0%Z
  | String c r =>
      let n := Z.of_nat (nat_of_ascii c) in
      if (n <? 128)%Z then n
      else if (n <? 224)%Z then continuationBits r (n - 192)%Z
      else if (n <? 240)%Z then continuationBits r (n - 224)%Z
      else continuationBits r (n - 240)%Z
  end.

(** White space and line terminators of the language: what [trim],
    [parseInt] and the [\s] of a regular expression skip. *)
Definition isWhiteSpace (ch : string) : bool :=
  let n := codePoint ch in
  ((9 <=? n)%Z && (n <=? 13)%Z) || (n =? 32)%Z || (n =? 160)%Z
  || (n =? 5760)%Z || ((8192 <=? n)%Z && (n <=? 8202)%Z)
  || (n =? 8232)%Z || (n =? 8233)%Z || (n =? 8239)%Z || (n =? 8287)%Z
  || (n =? 12288)%Z || (n =? 65279)%Z.

(** [s.length]: the number of UTF-16 units, two for a character beyond
    U+FFFF and one for any other. *)
Definition units (ch : string) : nat :=
  if (65536 <=? codePoint ch)%Z then 2 else 1.

Definition length (s : string) : nat := list_sum (map units (characters s)).

Fixpoint dropWhiteSpace (l : list string) : list string :=
  match l with
  | ch :: r => if isWhiteSpace ch then dropWhiteSpace r else l
  | [] => []
  end.

Definition join (l : list string) : string := String.concat EmptyString l.

Definition trimStart (s : string) : string :=
  join (dropWhiteSpace (characters s)).

Definition trimEnd (s : string) : string :=
  join (rev (dropWhiteSpace (rev (characters s)))).

Definition trim (s : string) : string :=
  join (rev (dropWhiteSpace (rev (dropWhiteSpace (characters s))))).

(** The simple lower-case mappings of the Unicode character database
    (version 14): [(first, last, step, shift)] maps the code points
    [first], [first + step], ..., [last] to themselves plus [shift]. *)
Definition lowerCaseRuns : list (Z * Z * Z * Z) :=
  [
    (65, 90, 1, 32); (192, 214, 1, 32); (216, 222, 1, 32);
    (256, 302, 2, 1); (306, 310, 2, 1); (313, 327, 2, 1);
    (330, 374, 2, 1); (376, 376, 1, (-121)); (377, 381, 2, 1);
    (385, 385, 1, 210); (386, 388, 2, 1); (390, 390, 1, 206);
    (391, 391, 1, 1); (393, 394, 1, 205); (395, 395, 1, 1);
    (398, 398, 1, 79); (399, 399, 1, 202); (400, 400, 1, 203);
    (401, 401, 1, 1); (403, 403, 1, 205); (404, 404, 1, 207);
    (406, 406, 1, 211); (407, 407, 1, 209); (408, 408, 1, 1);
    (412, 412, 1, 211); (413, 413, 1, 213); (415, 415, 1, 214);
    (416, 420, 2, 1); (422, 422, 1, 218); (423, 423, 1, 1);
    (425, 425, 1, 218); (428, 428, 1, 1); (430, 430, 1, 218);
    (431, 431, 1, 1); (433, 434, 1, 217); (435, 437, 2, 1);
    (439, 439, 1, 219); (440, 440, 1, 1); (444, 444, 1, 1);
    (452, 452, 1, 2); (453, 453, 1, 1); (455, 455, 1, 2);
    (456, 456, 1, 1); (458, 458, 1, 2); (459, 475, 2, 1);
    (478, 494, 2, 1); (497, 497, 1, 2); (498, 500, 2, 1);
    (502, 502, 1, (-97)); (503, 503, 1, (-56)); (504, 542, 2, 1);
    (544, 544, 1, (-130)); (546, 562, 2, 1); (570, 570, 1, 10795);
    (571, 571, 1, 1); (573, 573, 1, (-163)); (574, 574, 1, 10792);
    (577, 577, 1, 1); (579, 579, 1, (-195)); (580, 580, 1, 69);
    (581, 581, 1, 71); (582, 590, 2, 1); (880, 882, 2, 1);
    (886, 886, 1, 1); (895, 895, 1, 116); (902, 902, 1, 38);
    (904, 906, 1, 37); (908, 908, 1, 64); (910, 911, 1, 63);
    (913, 929, 1, 32); (931, 939, 1, 32); (975, 975, 1, 8);
    (984, 1006, 2, 1); (1012, 1012, 1, (-60)); (1015, 1015, 1, 1);
    (1017, 1017, 1, (-7)); (1018, 1018, 1, 1); (1021, 1023, 1, (-130));
    (1024, 1039, 1, 80); (1040, 1071, 1, 32); (1120, 1152, 2, 1);
    (1162, 1214, 2, 1); (1216, 1216, 1, 15); (1217, 1229, 2, 1);
    (1232, 1326, 2, 1); (1329, 1366, 1, 48); (4256, 4293, 1, 7264);
    (4295, 4295, 1, 7264); (4301, 4301, 1, 7264);
    (5024, 5103, 1, 38864); (5104, 5109, 1, 8);
    (7312, 7354, 1, (-3008)); (7357, 7359, 1, (-3008));
    (7680, 7828, 2, 1); (7838, 7838, 1, (-7615)); (7840, 7934, 2, 1);
    (7944, 7951, 1, (-8)); (7960, 7965, 1, (-8)); (7976, 7983, 1, (-8));
    (7992, 7999, 1, (-8)); (8008, 8013, 1, (-8)); (8025, 8031, 2, (-8));
    (8040, 8047, 1, (-8)); (8072, 8079, 1, (-8)); (8088, 8095, 1, (-8));
    (8104, 8111, 1, (-8)); (8120, 8121, 1, (-8));
    (8122, 8123, 1, (-74)); (8124, 8124, 1, (-9));
    (8136, 8139, 1, (-86)); (8140, 8140, 1, (-9));
    (8152, 8153, 1, (-8)); (8154, 8155, 1, (-100));
    (8168, 8169, 1, (-8)); (8170, 8171, 1, (-112));
    (8172, 8172, 1, (-7)); (8184, 8185, 1, (-128));
    (8186, 8187, 1, (-126)); (8188, 8188, 1, (-9));
    (8486, 8486, 1, (-7517)); (8490, 8490, 1, (-8383));
    (8491, 8491, 1, (-8262)); (8498, 8498, 1, 28); (8544, 8559, 1, 16);
    (8579, 8579, 1, 1); (9398, 9423, 1, 26); (11264, 11311, 1, 48);
    (11360, 11360, 1, 1); (11362, 11362, 1, (-10743));
    (11363, 11363, 1, (-3814)); (11364, 11364, 1, (-10727));
    (11367, 11371, 2, 1); (11373, 11373, 1, (-10780));
    (11374, 11374, 1, (-10749)); (11375, 11375, 1, (-10783));
    (11376, 11376, 1, (-10782)); (11378, 11378, 1, 1);
    (11381, 11381, 1, 1); (11390, 11391, 1, (-10815));
    (11392, 11490, 2, 1); (11499, 11501, 2, 1); (11506, 11506, 1, 1);
    (42560, 42604, 2, 1); (42624, 42650, 2, 1); (42786, 42798, 2, 1);
    (42802, 42862, 2, 1); (42873, 42875, 2, 1);
    (42877, 42877, 1, (-35332)); (42878, 42886, 2, 1);
    (42891, 42891, 1, 1); (42893, 42893, 1, (-42280));
    (42896, 42898, 2, 1); (42902, 42920, 2, 1);
    (42922, 42922, 1, (-42308)); (42923, 42923, 1, (-42319));
    (42924, 42924, 1, (-42315)); (42925, 42925, 1, (-42305));
    (42926, 42926, 1, (-42308)); (42928, 42928, 1, (-42258));
    (42929, 42929, 1, (-42282)); (42930, 42930, 1, (-42261));
    (42931, 42931, 1, 928); (42932, 42946, 2, 1);
    (42948, 42948, 1, (-48)); (42949, 42949, 1, (-42307));
    (42950, 42950, 1, (-35384)); (42951, 42953, 2, 1);
    (42960, 42960, 1, 1); (42966, 42968, 2, 1); (42997, 42997, 1, 1);
    (65313, 65338, 1, 32); (66560, 66599, 1, 40); (66736, 66771, 1, 40);
    (66928, 66938, 1, 39); (66940, 66954, 1, 39); (66956, 66962, 1, 39);
    (66964, 66965, 1, 39); (68736, 68786, 1, 64); (71840, 71871, 1, 32);
    (93760, 93791, 1, 32); (125184, 125217, 1, 34) ]%Z.

(** The characters with the property Case_Ignorable, as ranges of code
    points. *)
Definition caseIgnorableRanges : list (Z * Z) :=
  [
    (39, 39); (46, 46); (58, 58); (94, 94); (96, 96); (168, 168);
    (173, 173); (175, 175); (180, 180); (183, 184); (688, 879);
    (884, 885); (890, 890); (900, 901); (903, 903); (1155, 1161);
    (1369, 1369); (1375, 1375); (1425, 1469); (1471, 1471);
    (1473, 1474); (1476, 1477); (1479, 1479); (1524, 1524);
    (1536, 1541); (1552, 1562); (1564, 1564); (1600, 1600);
    (1611, 1631); (1648, 1648); (1750, 1757); (1759, 1768);
    (1770, 1773); (1807, 1807); (1809, 1809); (1840, 1866);
    (1958, 1968); (2027, 2037); (2042, 2042); (2045, 2045);
    (2070, 2093); (2137, 2139); (2184, 2184); (2192, 2193);
    (2200, 2207); (2249, 2306); (2362, 2362); (2364, 2364);
    (2369, 2376); (2381, 2381); (2385, 2391); (2402, 2403);
    (2417, 2417); (2433, 2433); (2492, 2492); (2497, 2500);
    (2509, 2509); (2530, 2531); (2558, 2558); (2561, 2562);
    (2620, 2620); (2625, 2626); (2631, 2632); (2635, 2637);
    (2641, 2641); (2672, 2673); (2677, 2677); (2689, 2690);
    (2748, 2748); (2753, 2757); (2759, 2760); (2765, 2765);
    (2786, 2787); (2810, 2815); (2817, 2817); (2876, 2876);
    (2879, 2879); (2881, 2884); (2893, 2893); (2901, 2902);
    (2914, 2915); (2946, 2946); (3008, 3008); (3021, 3021);
    (3072, 3072); (3076, 3076); (3132, 3132); (3134, 3136);
    (3142, 3144); (3146, 3149); (3157, 3158); (3170, 3171);
    (3201, 3201); (3260, 3260); (3263, 3263); (3270, 3270);
    (3276, 3277); (3298, 3299); (3328, 3329); (3387, 3388);
    (3393, 3396); (3405, 3405); (3426, 3427); (3457, 3457);
    (3530, 3530); (3538, 3540); (3542, 3542); (3633, 3633);
    (3636, 3642); (3654, 3662); (3761, 3761); (3764, 3772);
    (3782, 3782); (3784, 3789); (3864, 3865); (3893, 3893);
    (3895, 3895); (3897, 3897); (3953, 3966); (3968, 3972);
    (3974, 3975); (3981, 3991); (3993, 4028); (4038, 4038);
    (4141, 4144); (4146, 4151); (4153, 4154); (4157, 4158);
    (4184, 4185); (4190, 4192); (4209, 4212); (4226, 4226);
    (4229, 4230); (4237, 4237); (4253, 4253); (4348, 4348);
    (4957, 4959); (5906, 5908); (5938, 5939); (5970, 5971);
    (6002, 6003); (6068, 6069); (6071, 6077); (6086, 6086);
    (6089, 6099); (6103, 6103); (6109, 6109); (6155, 6159);
    (6211, 6211); (6277, 6278); (6313, 6313); (6432, 6434);
    (6439, 6440); (6450, 6450); (6457, 6459); (6679, 6680);
    (6683, 6683); (6742, 6742); (6744, 6750); (6752, 6752);
    (6754, 6754); (6757, 6764); (6771, 6780); (6783, 6783);
    (6823, 6823); (6832, 6862); (6912, 6915); (6964, 6964);
    (6966, 6970); (6972, 6972); (6978, 6978); (7019, 7027);
    (7040, 7041); (7074, 7077); (7080, 7081); (7083, 7085);
    (7142, 7142); (7144, 7145); (7149, 7149); (7151, 7153);
    (7212, 7219); (7222, 7223); (7288, 7293); (7376, 7378);
    (7380, 7392); (7394, 7400); (7405, 7405); (7412, 7412);
    (7416, 7417); (7468, 7530); (7544, 7544); (7579, 7679);
    (8125, 8125); (8127, 8129); (8141, 8143); (8157, 8159);
    (8173, 8175); (8189, 8190); (8203, 8207); (8216, 8217);
    (8228, 8228); (8231, 8231); (8234, 8238); (8288, 8292);
    (8294, 8303); (8305, 8305); (8319, 8319); (8336, 8348);
    (8400, 8432); (11388, 11389); (11503, 11505); (11631, 11631);
    (11647, 11647); (11744, 11775); (11823, 11823); (12293, 12293);
    (12330, 12333); (12337, 12341); (12347, 12347); (12441, 12446);
    (12540, 12542); (40981, 40981); (42232, 42237); (42508, 42508);
    (42607, 42610); (42612, 42621); (42623, 42623); (42652, 42655);
    (42736, 42737); (42752, 42785); (42864, 42864); (42888, 42890);
    (42994, 42996); (43000, 43001); (43010, 43010); (43014, 43014);
    (43019, 43019); (43045, 43046); (43052, 43052); (43204, 43205);
    (43232, 43249); (43263, 43263); (43302, 43309); (43335, 43345);
    (43392, 43394); (43443, 43443); (43446, 43449); (43452, 43453);
    (43471, 43471); (43493, 43494); (43561, 43566); (43569, 43570);
    (43573, 43574); (43587, 43587); (43596, 43596); (43632, 43632);
    (43644, 43644); (43696, 43696); (43698, 43700); (43703, 43704);
    (43710, 43711); (43713, 43713); (43741, 43741); (43756, 43757);
    (43763, 43764); (43766, 43766); (43867, 43871); (43881, 43883);
    (44005, 44005); (44008, 44008); (44013, 44013); (64286, 64286);
    (64434, 64450); (65024, 65039); (65043, 65043); (65056, 65071);
    (65106, 65106); (65109, 65109); (65279, 65279); (65287, 65287);
    (65294, 65294); (65306, 65306); (65342, 65342); (65344, 65344);
    (65392, 65392); (65438, 65439); (65507, 65507); (65529, 65531);
    (66045, 66045); (66272, 66272); (66422, 66426); (67456, 67461);
    (67463, 67504); (67506, 67514); (68097, 68099); (68101, 68102);
    (68108, 68111); (68152, 68154); (68159, 68159); (68325, 68326);
    (68900, 68903); (69291, 69292); (69446, 69456); (69506, 69509);
    (69633, 69633); (69688, 69702); (69744, 69744); (69747, 69748);
    (69759, 69761); (69811, 69814); (69817, 69818); (69821, 69821);
    (69826, 69826); (69837, 69837); (69888, 69890); (69927, 69931);
    (69933, 69940); (70003, 70003); (70016, 70017); (70070, 70078);
    (70089, 70092); (70095, 70095); (70191, 70193); (70196, 70196);
    (70198, 70199); (70206, 70206); (70367, 70367); (70371, 70378);
    (70400, 70401); (70459, 70460); (70464, 70464); (70502, 70508);
    (70512, 70516); (70712, 70719); (70722, 70724); (70726, 70726);
    (70750, 70750); (70835, 70840); (70842, 70842); (70847, 70848);
    (70850, 70851); (71090, 71093); (71100, 71101); (71103, 71104);
    (71132, 71133); (71219, 71226); (71229, 71229); (71231, 71232);
    (71339, 71339); (71341, 71341); (71344, 71349); (71351, 71351);
    (71453, 71455); (71458, 71461); (71463, 71467); (71727, 71735);
    (71737, 71738); (71995, 71996); (71998, 71998); (72003, 72003);
    (72148, 72151); (72154, 72155); (72160, 72160); (72193, 72202);
    (72243, 72248); (72251, 72254); (72263, 72263); (72273, 72278);
    (72281, 72283); (72330, 72342); (72344, 72345); (72752, 72758);
    (72760, 72765); (72767, 72767); (72850, 72871); (72874, 72880);
    (72882, 72883); (72885, 72886); (73009, 73014); (73018, 73018);
    (73020, 73021); (73023, 73029); (73031, 73031); (73104, 73105);
    (73109, 73109); (73111, 73111); (73459, 73460); (78896, 78904);
    (92912, 92916); (92976, 92982); (92992, 92995); (94031, 94031);
    (94095, 94111); (94176, 94177); (94179, 94180); (110576, 110579);
    (110581, 110587); (110589, 110590); (113821, 113822);
    (113824, 113827); (118528, 118573); (118576, 118598);
    (119143, 119145); (119155, 119170); (119173, 119179);
    (119210, 119213); (119362, 119364); (121344, 121398);
    (121403, 121452); (121461, 121461); (121476, 121476);
    (121499, 121503); (121505, 121519); (122880, 122886);
    (122888, 122904); (122907, 122913); (122915, 122916);
    (122918, 122922); (123184, 123197); (123566, 123566);
    (123628, 123631); (125136, 125142); (125252, 125259);
    (127995, 127999); (917505, 917505); (917536, 917631);
    (917760, 917999) ]%Z.

(** The characters with the property Cased that are not
    Case_Ignorable, as ranges of code points. *)
Definition casedRanges : list (Z * Z) :=
  [
    (65, 90); (97, 122); (170, 170); (181, 181); (186, 186); (192, 214);
    (216, 246); (248, 442); (444, 447); (452, 659); (661, 687);
    (880, 883); (886, 887); (891, 893); (895, 895); (902, 902);
    (904, 906); (908, 908); (910, 929); (931, 1013); (1015, 1153);
    (1162, 1327); (1329, 1366); (1376, 1416); (4256, 4293);
    (4295, 4295); (4301, 4301); (4304, 4346); (4349, 4351);
    (5024, 5109); (5112, 5117); (7296, 7304); (7312, 7354);
    (7357, 7359); (7424, 7467); (7531, 7543); (7545, 7578);
    (7680, 7957); (7960, 7965); (7968, 8005); (8008, 8013);
    (8016, 8023); (8025, 8025); (8027, 8027); (8029, 8029);
    (8031, 8061); (8064, 8116); (8118, 8124); (8126, 8126);
    (8130, 8132); (8134, 8140); (8144, 8147); (8150, 8155);
    (8160, 8172); (8178, 8180); (8182, 8188); (8450, 8450);
    (8455, 8455); (8458, 8467); (8469, 8469); (8473, 8477);
    (8484, 8484); (8486, 8486); (8488, 8488); (8490, 8493);
    (8495, 8500); (8505, 8505); (8508, 8511); (8517, 8521);
    (8526, 8526); (8544, 8575); (8579, 8580); (9398, 9449);
    (11264, 11387); (11390, 11492); (11499, 11502); (11506, 11507);
    (11520, 11557); (11559, 11559); (11565, 11565); (42560, 42605);
    (42624, 42651); (42786, 42863); (42865, 42887); (42891, 42894);
    (42896, 42954); (42960, 42961); (42963, 42963); (42965, 42969);
    (42997, 42998); (43002, 43002); (43824, 43866); (43872, 43880);
    (43888, 43967); (64256, 64262); (64275, 64279); (65313, 65338);
    (65345, 65370); (66560, 66639); (66736, 66771); (66776, 66811);
    (66928, 66938); (66940, 66954); (66956, 66962); (66964, 66965);
    (66967, 66977); (66979, 66993); (66995, 67001); (67003, 67004);
    (68736, 68786); (68800, 68850); (71840, 71903); (93760, 93823);
    (119808, 119892); (119894, 119964); (119966, 119967);
    (119970, 119970); (119973, 119974); (119977, 119980);
    (119982, 119993); (119995, 119995); (119997, 120003);
    (120005, 120069); (120071, 120074); (120077, 120084);
    (120086, 120092); (120094, 120121); (120123, 120126);
    (120128, 120132); (120134, 120134); (120138, 120144);
    (120146, 120485); (120488, 120512); (120514, 120538);
    (120540, 120570); (120572, 120596); (120598, 120628);
    (120630, 120654); (120656, 120686); (120688, 120712);
    (120714, 120744); (120746, 120770); (120772, 120779);
    (122624, 122633); (122635, 122654); (125184, 125251);
    (127280, 127305); (127312, 127337); (127344, 127369) ]%Z.

(** One byte of an encoded character. *)
Definition byte (n : Z) : ascii := ascii_of_nat (Z.to_nat n).

(** The UTF-8 encoding of a code point. *)
Definition encode (n : Z) : string :=
  if (n <? 128)%Z then String (byte n) EmptyString
  else if (n <? 2048)%Z then
    String (byte (192 + n / 64))
      (String (byte (128 + n mod 64)) EmptyString)
  else if (n <? 65536)%Z then
    String (byte (224 + n / 4096))
      (String (byte (128 + (n / 64) mod 64))
         (String (byte (128 + n mod 64)) EmptyString))
  else
    String (byte (240 + n / 262144))
      (String (byte (128 + (n / 4096) mod 64))
         (String (byte (128 + (n / 64) mod 64))
            (String (byte (128 + n mod 64)) EmptyString))).

Definition inRange (n : Z) (r : Z * Z) : bool :=
  (fst r <=? n)%Z && (n <=? snd r)%Z.

Definition isCaseIgnorable (ch : string) : bool :=
  existsb (inRange (codePoint ch)) caseIgnorableRanges.

Definition isCased (ch : string) : bool :=
  existsb (inRange (codePoint ch)) casedRanges.

(** The simple lower-case mapping of a code point, if it has one. *)
Fixpoint lowerCode (runs : list (Z * Z * Z * Z)) (n : Z) : option Z :=
  match runs with
  | (first, last, step, shift) :: r =>
      if (first <=? n)%Z && (n <=? last)%Z
         && ((n - first) mod step =? 0)%Z
      then Some (n + shift)%Z
      else lowerCode r n
  | [] => None
  end.

Fixpoint dropCaseIgnorable (l : list string) : list string :=
  match l with
  | ch :: r => if isCaseIgnorable ch then dropCaseIgnorable r else l
  | [] => []
  end.

(** Going from a character in one direction, over what is
    case-ignorable: is the first other character a cased one? *)
Definition nextIsCased (l : list string) : bool :=
  match dropCaseIgnorable l with
  | ch :: _ => isCased ch
  | [] => false
  end.

(** One character of [toLowerCase]; [before] holds the characters that
    precede it, the nearest first, and [after] those that follow.  A
    capital sigma that ends a word becomes a final sigma, a capital I
    with a dot above becomes an i and a combining dot. *)
Definition lowerCharacter (before : list string) (ch : string)
  (after : list string) : string :=
  let n := codePoint ch in
  if (n =? 931)%Z then
    if nextIsCased before && negb (nextIsCased after)
    then encode 962 else encode 963
  else if (n =? 304)%Z then (encode 105 ++ encode 775)%string
  else match lowerCode lowerCaseRuns n with
       | Some m => encode m
       | None => ch
       end.

Fixpoint lowerCharacters (before l : list string) : list string :=
  match l with
  | ch :: r => lowerCharacter before ch r :: lowerCharacters (ch :: before) r
  | [] => []
  end.

(** [s.toLowerCase()]. *)
Definition toLowerCase (s : string) : string :=
  join (lowerCharacters [] (characters s)).

Definition digitValue (c : ascii) : option Z :=
  let n := Z.of_nat (nat_of_ascii c) in
  if (48 <=? n)%Z && (n <=? 57)%Z then Some (n - 48)%Z
  else if (97 <=? n)%Z && (n <=? 122)%Z then Some (n - 87)%Z
  else if (65 <=? n)%Z && (n <=? 90)%Z then Some (n - 55)%Z
  else None.

(** Value of the longest prefix of [s] made of digits below [radix];
    [acc] is [None] until a first digit was read. *)
Fixpoint digits (radix : Z) (s : string) (acc : option Z) : option Z :=
  match s with
  | String c r =>
      match digitValue c with
      | Some d =>
          if (d <? radix)%Z
          then digits radix r (Some (radix * default 0%Z acc + d)%Z)
          else acc
      | None => acc
      end
  | EmptyString => acc
  end.

(** [parseInt(s)] with no radix argument: leading white space, a sign,
    a [0x] prefix, then the digits. *)
Definition parseIntString (s : string) : Number :=
  let s1 := trimStart s in
  let '(sign, s2) :=
    match s1 with
    | String "-" r => ((-1)%Z, r)
    | String "+" r => (1%Z, r)
    | _ => (1%Z, s1)
    end in
  let '(radix, s3) :=
    match s2 with
    | String "0" (String "x" r) => (16%Z, r)
    | String "0" (String "X" r) => (16%Z, r)
    | _ => (10%Z, s2)
    end in
  match digits radix s3 None with
  | Some n => Int (sign * n)
  | None => NaN
  end.

(** [parseInt(v)] converts [v] to a string first: a number of the model
    prints as its decimal digits, [null], [true] and [false] have no
    digits. *)
Definition parseInt (v : Value) : Number :=
  match v with
  | Num z => Int z
  | Str s => parseIntString s
  | Null | Bool _ => NaN
  end.

Definition Math_min (a b : Number) : Number :=
  match a, b with
  | Int x, Int y => Int (Z.min x y)
  | _, _ => NaN
  end.

Definition Math_max (a b : Number) : Number :=
  match a, b with
  | Int x, Int y => Int (Z.max x y)
  | _, _ => NaN
  end.

End Js.

(* ================================================================== *)
(** * The collections (models/User.js, models/index.js) *)
(* ================================================================== *)

Definition UserId := nat.
Definition Date := Z.

Inductive Role := user | admin | head_admin.
Inductive Status := active | banned | restricted.

Global Instance Role_eq_dec : EqDecision Role.
Proof. solve_decision. Defined.
Global Instance Status_eq_dec : EqDecision Status.
Proof. solve_decision. Defined.

(** A stored password: the bcrypt hash of a plain text. *)
Inductive Hashed := bcrypt (plain : string).

Record User := mkUser {
  username : string;
  email : string;
  password : Hashed;
  role : Role;
  status : Status;
  theme : string;
  lastLogin : option Date;
  isOnline : bool;
  socketId : option string;
}.

Definition isAdmin (u : User) : bool :=
  bool_decide (role u = admin) || bool_decide (role u = head_admin).

Definition isHeadAdmin (u : User) : bool := bool_decide (role u = head_admin).

(** The key schedule of bcryptjs reads its input round and round, 18
    words of four bytes: [n] bytes of [data], going on from [rest]. *)
Fixpoint keyStream (n : nat) (data rest : string) : string :=
  match n with
  | 0 => EmptyString
  | S n' =>
      match rest with
      | String c r => String c (keyStream n' data r)
      | EmptyString =>
          match data with
          | String c r => String c (keyStream n' data r)
          | EmptyString => EmptyString
          end
      end
  end.

(** All that bcrypt reads of a password: the first 72 bytes of the
    password and a closing zero byte, repeated. *)
Definition bcryptKey (s : string) : string :=
  let data := s ++ String Ascii.zero EmptyString in
  keyStream 72 data data.

Arguments bcryptKey : simpl never.

(** [bcrypt.compare]: the candidate is hashed under the salt of the
    stored hash. *)
Definition comparePassword (u : User) (candidate : string) : bool :=
  match password u with
  | bcrypt p => bool_decide (bcryptKey candidate = bcryptKey p)
  end.

(** [toSafeObject]: the user without the password. *)
Record SafeUser := mkSafe {
  safe_id : UserId;
  safe_username : string;
  safe_email : string;
  safe_role : Role;
  safe_status : Status;
  safe_theme : string;
  safe_isOnline : bool;
  safe_lastLogin : option Date;
}.

Definition toSafeObject (id : UserId) (u : User) : SafeUser :=
  mkSafe id (username u) (email u) (role u) (status u) (theme u)
         (isOnline u) (lastLogin u).

(** The Threshold singleton: nine named setpoints and two stamps. *)
Record Threshold := mkThreshold {
  setpoints : gmap string Z;
  lastUpdatedBy : option UserId;
  lastSyncedWithArduino : option Date;
}.

Definition thresholdDefaults : gmap string Z :=
  list_to_map
    [ ("soil1", 60%Z); ("soil2", 60%Z); ("temp_high", 35%Z);
      ("temp_low", 15%Z); ("hum_high", 80%Z); ("hum_low", 30%Z);
      ("npk_n", 20%Z); ("npk_p", 20%Z); ("npk_k", 20%Z) ].

Inductive Details :=
| NoDetails
| RoleDetails (r : Role)
| ChangedDetails (changed : gmap string Z)
| ManualDetails (actuator : string) (state : bool) (pwm : option Js.Value)
| ResumeAutoDetails
| UsernameDetails (oldUsername newUsername : string)
| DeletedDetails (deletedUser : string)
| BannedDetails (targetUser : string) (isBanned : bool)
| PromotedDetails (promotedUser : string)
| DemotedDetails (demotedUser : string).

Record ActivityLog := mkLog {
  log_user : UserId;
  log_username : string;
  log_action : string;
  log_details : Details;
}.

Record SystemAlert := mkAlert {
  level : string;
  alert_message : string;
  source : string;
  acknowledged : bool;
  timestamp : Date;
}.

(* ================================================================== *)
(** * Socket.IO: what the server emits *)
(* ================================================================== *)

Inductive Dest :=
| ToAll
| ToSocket (id : string).

Inductive Payload :=
| ThresholdUpdate (changed : gmap string Z) (updatedBy : string)
| ManualControl (actuator : string) (state : bool) (pwm : option Js.Value)
                (controlledBy : string) (at_ : Date)
| AutoModeResumed (resumedBy : string) (at_ : Date)
| AlertPayload (a : SystemAlert)
| PresencePayload (userId : UserId) (name : string)
| ForceDisconnect (reason : string).

Record Emission := mkEmit {
  dest : Dest;
  topic : string;
  payload : Payload;
}.

(* ================================================================== *)
(** * The store, the environment of one request, and responses *)
(* ================================================================== *)

(** The [command] object the manual route builds for the Pi. *)
Record Command := mkCommand {
  cmd_actuator : string;
  cmd_state : bool;
  cmd_pwm : option Js.Number;
}.

(** The outbound calls made to the Pi ([axios.post]), whatever their
    outcome. *)
Inductive Relay :=
| RelayThresholds (changed : gmap string Z)
| RelayManual (c : Command)
| RelayAuto.

Record World := mkWorld {
  users : gmap UserId User;
  nextId : UserId;
  thresholds : option Threshold;
  activity : list ActivityLog;
  alerts : list SystemAlert;
  outbox : list Emission;
  relayed : list Relay;
}.

(** What the outside gives one request: the clock, the answer of the
    Pi to the relayed call ([None]: time-out, network error or a status
    outside 2xx, so [axios.post] throws), and the configured API key. *)
Record Env := mkEnv {
  now : Date;
  pi : option string;
  PI_API_KEY : string;
}.

Inductive Data :=
| NoData
| ThresholdData (t : Threshold)
| UserData (u : SafeUser)
| TokenData (token : UserId) (u : SafeUser)
| ThemeData (th : string)
| SettingsData (name mail th : string) (r : Role) (s : Status)
| PiData (d : string)
| CountData (n : nat).

Record Response := mkRes {
  statusCode : nat;
  success : bool;
  error : option string;
  message : option string;
  data : Data;
}.

Definition fail (code : nat) (err : string) : Response :=
  mkRes code false (Some err) None NoData.

Definition ok (code : nat) (msg : option string) (d : Data) : Response :=
  mkRes code true None msg d.

(** A middleware either answers or calls [next()]. *)
Inductive Next (A : Type) :=
| Reply (r : Response)
| Continue (a : A).
Arguments Reply {A} r.
Arguments Continue {A} a.

(** [req.user] and [req.isRestricted] as [protect] sets them. *)
Record Req := mkReq {
  req_id : UserId;
  req_user : User;
  isRestricted : bool;
}.

(* ================================================================== *)
(** * Store operations *)
(* ================================================================== *)

Definition setUsers (w : World) (us : gmap UserId User) : World :=
  mkWorld us (nextId w) (thresholds w) (activity w) (alerts w) (outbox w)
          (relayed w).

Definition setThresholds (w : World) (t : Threshold) : World :=
  mkWorld (users w) (nextId w) (Some t) (activity w) (alerts w) (outbox w)
          (relayed w).

(** The schema option [minimize], on by default: a [details] holding
    only an empty object is not stored. *)
Definition minimize (d : Details) : Details :=
  match d with
  | ChangedDetails c => if bool_decide (c = ∅) then NoDetails else d
  | _ => d
  end.

(** [ActivityLog.create]: every action the routes log is in the schema's
    enum, so the insertion is accepted. *)
Definition logActivity (w : World) (l : ActivityLog) : World :=
  mkWorld (users w) (nextId w) (thresholds w)
          (activity w ++
           [mkLog (log_user l) (log_username l) (log_action l)
                  (minimize (log_details l))])
          (alerts w) (outbox w) (relayed w).

(** [io.emit] and [io.to(id).emit]. *)
Definition emit (w : World) (d : Dest) (t : string) (p : Payload) : World :=
  mkWorld (users w) (nextId w) (thresholds w) (activity w) (alerts w)
          (outbox w ++ [mkEmit d t p]) (relayed w).

(** [axios.post] towards the Pi: the call is recorded, its outcome is
    [pi e]. *)
Definition post (w : World) (r : Relay) : World :=
  mkWorld (users w) (nextId w) (thresholds w) (activity w) (alerts w)
          (outbox w) (relayed w ++ [r]).

Definition findUser (w : World) (P : UserId -> User -> bool) : bool :=
  existsb (fun kv => P (fst kv) (snd kv)) (map_to_list (users w)).

(** ** The User schema: setters, validators and unique indexes *)

Definition validUsername (s : string) : bool :=
  (3 <=? Js.length s)%nat && (Js.length s <=? 30)%nat.

Definition validPassword (s : string) : bool := (6 <=? Js.length s)%nat.

(** [/^\S+@\S+\.\S+$/]: no white space, an [@] after at least one
    character, then a dot with at least one character on each side. *)
Fixpoint dotInside (l : list ascii) : bool :=
  match l with
  | c :: r => (bool_decide (c = "."%char) && negb (bool_decide (r = [])))
              || dotInside r
  | [] => false
  end.

Fixpoint atInside (l : list ascii) : bool :=
  match l with
  | c :: r =>
      (bool_decide (c = "@"%char) &&
       match r with _ :: r' => dotInside r' | [] => false end)
      || atInside r
  | [] => false
  end.

Definition validEmail (s : string) : bool :=
  let l := list_ascii_of_string s in
  forallb (fun ch => negb (Js.isWhiteSpace ch)) (Js.characters s) &&
  match l with _ :: r => atInside r | [] => false end.

(** Whether a unique index rejects value [v] of field [f]: another
    document than [self] already has it. *)
Definition duplicateKey (w : World) (self : option UserId)
  (f : User -> string) (v : string) : bool :=
  findUser w (fun id u =>
    negb (bool_decide (Some id = self)) && bool_decide (f u = v)).

(** [User.create]: apply the setters, validate, insert.  [None] is the
    thrown validation or duplicate-key error. *)
Definition createUser (w : World) (name mail pass : string) (r : Role)
  : option (World * UserId * User) :=
  let name' := Js.trim name in
  let mail' := Js.toLowerCase (Js.trim mail) in
  if validUsername name' && validEmail mail' && validPassword pass
     && negb (duplicateKey w None username name')
     && negb (duplicateKey w None email mail')
  then
    let u := mkUser name' mail' (bcrypt pass) r active "light" None false None in
    let id := nextId w in
    Some (mkWorld (<[id := u]> (users w)) (S id) (thresholds w) (activity w)
                  (alerts w) (outbox w) (relayed w), id, u)
  else None.

(** [Threshold.getCurrent]: find the singleton or create it with the
    schema defaults. *)
Definition getCurrent (w : World) : World * Threshold :=
  match thresholds w with
  | Some t => (w, t)
  | None =>
      let t := mkThreshold thresholdDefaults None None in
      (setThresholds w t, t)
  end.

(* ================================================================== *)
(** * middleware/auth.js *)
(* ================================================================== *)

Definition bind {A B : Type} (m : Next A) (k : A -> Next B) : Next B :=
  match m with
  | Reply r => Reply r
  | Continue a => k a
  end.

(** Run a handler behind its middleware. *)
Definition behind {A : Type} (w : World) (m : Next A)
  (h : A -> World * Response) : World * Response :=
  match m with
  | Reply r => (w, r)
  | Continue a => h a
  end.

Definition protect (w : World) (token : option UserId) : Next Req :=
  match token with
  | None => Reply (fail 401 "Not authorized to access this route")
  | Some id =>
      match users w !! id with
      | None => Reply (fail 401 "User no longer exists")
      | Some u =>
          if bool_decide (status u = banned)
          then Reply (fail 403 "Your account has been banned")
          else Continue (mkReq id u (bool_decide (status u = restricted)))
      end
  end.

Definition adminOnly (r : Req) : Next Req :=
  if negb (isAdmin (req_user r))
  then Reply (fail 403 "Access denied. Admin privileges required.")
  else Continue r.

Definition headAdminOnly (r : Req) : Next Req :=
  if negb (isHeadAdmin (req_user r))
  then Reply (fail 403 "Access denied. Head Admin privileges required.")
  else Continue r.

Definition allowWrite (r : Req) : Next Req :=
  if isRestricted r
  then Reply (fail 403 "Your account is restricted. You can only view data.")
  else Continue r.

Definition piAuth (e : Env) (apiKey : string) : Next unit :=
  if bool_decide (apiKey = "")
  then Reply (fail 401 "API key required")
  else if negb (bool_decide (apiKey = PI_API_KEY e))
  then Reply (fail 403 "Invalid API key")
  else Continue tt.

(* ================================================================== *)
(** * routes/auth.js *)
(* ================================================================== *)

Definition sendTokenResponse (id : UserId) (u : User) (code : nat)
  (msg : string) : Response :=
  ok code (Some msg) (TokenData id (toSafeObject id u)).

(** POST /api/auth/register.  A missing body field is the empty string
    (both are falsy).  The filter of [findOne] is cast with the setters
    of the schema, as every filter is. *)
Definition register (w : World) (name mail pass : string)
  : World * Response :=
  if bool_decide (name = "") || bool_decide (mail = "")
     || bool_decide (pass = "")
  then (w, fail 400 "Please provide username, email, and password")
  else if findUser w (fun _ u =>
            bool_decide (email u = Js.toLowerCase (Js.trim mail))
            || bool_decide (username u = Js.trim name))
  then (w, fail 400 "User with this email or username already exists")
  else
    let userCount := size (users w) in
    let r := if (userCount =? 0)%nat then head_admin else user in
    match createUser w name mail pass r with
    | None => (w, fail 500 "Server error during registration")
    | Some (w1, id, u) =>
        let w2 := logActivity w1 (mkLog id (username u) "user_created"
                                        (RoleDetails r)) in
        (w2, sendTokenResponse id u 201
               ("Account created successfully. " ++
                if bool_decide (r = head_admin)
                then "You are the Head Admin!" else "Welcome!"))
    end.

(** GET /api/auth/me *)
Definition me (w : World) (r : Req) : World * Response :=
  (w, ok 200 None (UserData (toSafeObject (req_id r) (req_user r)))).

(** PUT /api/auth/change-password *)
Definition changePassword (w : World) (r : Req)
  (currentPassword newPassword : string) : World * Response :=
  if bool_decide (currentPassword = "") || bool_decide (newPassword = "")
  then (w, fail 400 "Current password and new password required")
  else
    match users w !! req_id r with
    | None => (w, fail 500 "Server error")
    | Some u =>
        if negb (comparePassword u currentPassword)
        then (w, fail 401 "Current password is incorrect")
        else if negb (validPassword newPassword)
        then (w, fail 500 "Server error")
        else
          let u' := mkUser (username u) (email u) (bcrypt newPassword)
                           (role u) (status u) (theme u) (lastLogin u)
                           (isOnline u) (socketId u) in
          let w1 := setUsers w (<[req_id r := u']> (users w)) in
          let w2 := logActivity w1 (mkLog (req_id r) (username u')
                                          "password_changed" NoDetails) in
          (w2, ok 200 (Some "Password changed successfully") NoData)
    end.

(** ** The registration, one awaited call at a time *)

(** Where the handler of POST /api/auth/register stands between two of
    its awaited calls, with the locals it holds then; [Sent] is the
    handler once it has answered. *)
Inductive Registration :=
| AwaitFindOne (name mail pass : string)
| AwaitCountDocuments (name mail pass : string)
| AwaitCreate (name mail pass : string) (r : Role)
| AwaitLog (id : UserId) (u : User) (r : Role)
| Sent (res : Response).

(** The handler up to its first awaited call. *)
Definition registerStart (name mail pass : string) : Registration :=
  if bool_decide (name = "") || bool_decide (mail = "")
     || bool_decide (pass = "")
  then Sent (fail 400 "Please provide username, email, and password")
  else AwaitFindOne name mail pass.

(** The awaited call is made on the store as it is when the handler is
    resumed, and the handler runs on to its next awaited call. *)
Definition registerResume (w : World) (k : Registration)
  : World * Registration :=
  match k with
  | AwaitFindOne name mail pass =>
      if findUser w (fun _ u =>
           bool_decide (email u = Js.toLowerCase (Js.trim mail))
           || bool_decide (username u = Js.trim name))
      then (w, Sent (fail 400
                       "User with this email or username already exists"))
      else (w, AwaitCountDocuments name mail pass)
  | AwaitCountDocuments name mail pass =>
      let userCount := size (users w) in
      let r := if (userCount =? 0)%nat then head_admin else user in
      (w, AwaitCreate name mail pass r)
  | AwaitCreate name mail pass r =>
      match createUser w name mail pass r with
      | None => (w, Sent (fail 500 "Server error during registration"))
      | Some (w1, id, u) => (w1, AwaitLog id u r)
      end
  | AwaitLog id u r =>
      (logActivity w (mkLog id (username u) "user_created" (RoleDetails r)),
       Sent (sendTokenResponse id u 201
               ("Account created successfully. " ++
                if bool_decide (r = head_admin)
                then "You are the Head Admin!" else "Welcome!")))
  | Sent res => (w, Sent res)
  end.

(** A handler resumed [n] times in a row, no other handler running in
    between. *)
Fixpoint registerRun (n : nat) (w : World) (k : Registration)
  : World * Registration :=
  match n with
  | 0 => (w, k)
  | S n' => let '(w1, k1) := registerResume w k in registerRun n' w1 k1
  end.

(** Two registrations in flight on one store: whose awaited call
    returns next. *)
Inductive Turn := First | Second.

Definition resume (s : World * Registration * Registration) (t : Turn)
  : World * Registration * Registration :=
  let '(w, a, b) := s in
  match t with
  | First => let '(w1, a1) := registerResume w a in (w1, a1, b)
  | Second => let '(w1, b1) := registerResume w b in (w1, a, b1)
  end.

Definition overlap (w : World) (a b : Registration) (turns : list Turn)
  : World * Registration * Registration :=
  foldl resume (w, a, b) turns.

(* ================================================================== *)
(** * routes/thresholds.js *)
(* ================================================================== *)

Definition validKeys : list string :=
  [ "soil1"; "soil2"; "temp_high"; "temp_low"; "hum_high"; "hum_low";
    "npk_n"; "npk_p"; "npk_k" ].

(** GET /api/thresholds *)
Definition getThresholds (w : World) (r : Req) : World * Response :=
  let '(w1, t) := getCurrent w in
  (w1, ok 200 None (ThresholdData t)).

(** One turn of the loop over [validKeys]: the pair is the document's
    setpoints and the [changed] object. *)
Definition applyKey (updates : gmap string Z)
  (acc : gmap string Z * gmap string Z) (key : string)
  : gmap string Z * gmap string Z :=
  match updates !! key with
  | Some v => (<[key := v]> (fst acc), <[key := v]> (snd acc))
  | None => acc
  end.

Definition applyUpdates (updates : gmap string Z) (sp : gmap string Z)
  : gmap string Z * gmap string Z :=
  foldl (applyKey updates) (sp, ∅) validKeys.

(** PUT /api/thresholds, for a body whose values are integers; a name
    absent from the map is [undefined] in [updates].  A value that is
    no number is cast or refused by the schema when the document is
    saved; such bodies are not modelled. *)
Definition putThresholds (e : Env) (w : World) (r : Req)
  (updates : gmap string Z) : World * Response :=
  let '(w1, t) := getCurrent w in
  let '(sp, changed) := applyUpdates updates (setpoints t) in
  let t1 := mkThreshold sp (Some (req_id r)) (lastSyncedWithArduino t) in
  let w2 := setThresholds w1 t1 in
  let w3 := post w2 (RelayThresholds changed) in
  let t2 :=
    match pi e with
    | Some _ => mkThreshold sp (Some (req_id r)) (Some (now e))
    | None => t1
    end in
  let w4 := match pi e with Some _ => setThresholds w3 t2 | None => w3 end in
  let w5 := logActivity w4 (mkLog (req_id r) (username (req_user r))
                                  "threshold_changed"
                                  (ChangedDetails changed)) in
  let w6 := emit w5 ToAll "threshold_update"
                 (ThresholdUpdate changed (username (req_user r))) in
  (w6, ok 200 (Some "Thresholds updated successfully") (ThresholdData t2)).

(* ================================================================== *)
(** * routes/manual.js *)
(* ================================================================== *)

Definition validActuators : list string :=
  [ "pump_water"; "pump_nutrient"; "fan_exhaust"; "peltier";
    "fan_peltier_hot"; "fan_peltier_cold" ].

Definition includes (l : list string) (s : string) : bool :=
  existsb (String.eqb s) l.

(** The [pwm] field of the command built for the Pi. *)
Definition commandPwm (actuator : string) (pwm : option Js.Value)
  : option Js.Number :=
  match pwm with
  | Some v =>
      if bool_decide (actuator = "fan_exhaust")
         || bool_decide (actuator = "peltier")
      then Some (Js.Math_max (Js.Int 0)
                   (Js.Math_min (Js.Int 255) (Js.parseInt v)))
      else None
  | None => None
  end.

(** POST /api/manual/control.  [state] and [pwm] are [None] when the
    body does not have them. *)
Definition control (e : Env) (w : World) (r : Req) (actuator : string)
  (state pwm : option Js.Value) : World * Response :=
  if bool_decide (actuator = "") || negb (includes validActuators actuator)
  then (w, fail 400 ("Invalid actuator. Valid options: " ++
                     String.concat ", " validActuators))
  else
    match state with
    | Some (Js.Bool b) =>
        let command := mkCommand actuator b (commandPwm actuator pwm) in
        let w1 := post w (RelayManual command) in
        match pi e with
        | Some d =>
            let w2 := logActivity w1
                        (mkLog (req_id r) (username (req_user r))
                               "manual_control"
                               (ManualDetails actuator b pwm)) in
            let w3 := emit w2 ToAll "manual_control"
                        (ManualControl actuator b pwm
                           (username (req_user r)) (now e)) in
            (w3, ok 200 (Some (actuator ++ " " ++
                               if b then "turned ON" else "turned OFF"))
                    (PiData d))
        | None =>
            (w1, fail 503 "Failed to communicate with greenhouse controller")
        end
    | _ => (w, fail 400 "State must be true or false")
    end.

(** POST /api/manual/auto *)
Definition auto_ (e : Env) (w : World) (r : Req) : World * Response :=
  let w1 := post w RelayAuto in
  match pi e with
  | Some d =>
      let w2 := logActivity w1 (mkLog (req_id r) (username (req_user r))
                                      "manual_control" ResumeAutoDetails) in
      let w3 := emit w2 ToAll "auto_mode_resumed"
                     (AutoModeResumed (username (req_user r)) (now e)) in
      (w3, ok 200 (Some "Automatic mode resumed") (PiData d))
  | None => (w1, fail 503 "Failed to communicate with greenhouse controller")
  end.

(* ================================================================== *)
(** * routes/settings.js *)
(* ================================================================== *)

(** PUT /api/settings/username *)
Definition putUsername (w : World) (r : Req) (newUsername : string)
  : World * Response :=
  if bool_decide (newUsername = "")
  then (w, fail 400 "New username required")
  else if findUser w (fun id u =>
            bool_decide (username u = Js.trim newUsername)
            && negb (bool_decide (id = req_id r)))
  then (w, fail 400 "Username already taken")
  else
    let u := req_user r in
    let oldUsername := username u in
    let name' := Js.trim newUsername in
    if negb (validUsername name'
             && negb (duplicateKey w (Some (req_id r)) username name'))
    then (w, fail 500 "Server error")
    else
      let u' := mkUser name' (email u) (password u) (role u) (status u)
                       (theme u) (lastLogin u) (isOnline u) (socketId u) in
      let w1 := setUsers w (<[req_id r := u']> (users w)) in
      let w2 := logActivity w1 (mkLog (req_id r) newUsername
                                      "password_changed"
                                      (UsernameDetails oldUsername
                                                       newUsername)) in
      (w2, ok 200 (Some "Username updated successfully")
              (UserData (toSafeObject (req_id r) u'))).

(** PUT /api/settings/theme *)
Definition putTheme (w : World) (r : Req) (th : string) : World * Response :=
  if negb (includes ["light"; "dark"; "auto"] th)
  then (w, fail 400 "Invalid theme. Choose: light, dark, or auto")
  else
    let u := req_user r in
    let u' := mkUser (username u) (email u) (password u) (role u) (status u)
                     th (lastLogin u) (isOnline u) (socketId u) in
    let w1 := setUsers w (<[req_id r := u']> (users w)) in
    (w1, ok 200 (Some "Theme updated successfully") (ThemeData th)).

(** GET /api/settings *)
Definition getSettings (w : World) (r : Req) : World * Response :=
  let u := req_user r in
  (w, ok 200 None
        (SettingsData (username u) (email u) (theme u) (role u) (status u))).

(* ================================================================== *)
(** * routes/admin.js *)
(* ================================================================== *)

Definition withStatus (u : User) (s : Status) : User :=
  mkUser (username u) (email u) (password u) (role u) s (theme u)
         (lastLogin u) (isOnline u) (socketId u).

Definition withRole (u : User) (r : Role) : User :=
  mkUser (username u) (email u) (password u) r (status u) (theme u)
         (lastLogin u) (isOnline u) (socketId u).

(** DELETE /api/admin/users/:id *)
Definition deleteUser (w : World) (r : Req) (id : UserId)
  : World * Response :=
  match users w !! id with
  | None => (w, fail 404 "User not found")
  | Some userToDelete =>
      if bool_decide (role userToDelete = head_admin)
      then (w, fail 403 "Cannot delete head admin")
      else if bool_decide (role userToDelete = admin)
              && negb (bool_decide (role (req_user r) = head_admin))
      then (w, fail 403 "Only head admin can delete other admins")
      else
        let w1 := setUsers w (delete id (users w)) in
        let w2 := logActivity w1
                    (mkLog (req_id r) (username (req_user r)) "user_deleted"
                           (DeletedDetails (username userToDelete))) in
        (w2, ok 200 (Some ("User " ++ username userToDelete
                           ++ " deleted successfully")) NoData)
  end.

(** PUT /api/admin/users/:id/ban.  [isBanned] is the truthiness of the
    body's [banned]. *)
Definition ban (w : World) (r : Req) (id : UserId) (isBanned : bool)
  : World * Response :=
  match users w !! id with
  | None => (w, fail 404 "User not found")
  | Some u =>
      if bool_decide (role u = head_admin) || bool_decide (role u = admin)
      then (w, fail 403 "Cannot ban administrators")
      else
        let u' := withStatus u (if isBanned then banned else active) in
        let w1 := setUsers w (<[id := u']> (users w)) in
        let w2 := logActivity w1
                    (mkLog (req_id r) (username (req_user r)) "user_banned"
                           (BannedDetails (username u') isBanned)) in
        let w3 :=
          if isBanned && isOnline u'
          then match socketId u' with
               | Some sid =>
                   if bool_decide (sid = "") then w2
                   else emit w2 (ToSocket sid) "force_disconnect"
                          (ForceDisconnect "Your account has been banned")
               | None => w2
               end
          else w2 in
        (w3, ok 200 (Some ("User " ++
                           (if isBanned then "banned" else "unbanned")
                           ++ " successfully"))
                (UserData (toSafeObject id u')))
  end.

(** PUT /api/admin/users/:id/restrict *)
Definition restrict (w : World) (r : Req) (id : UserId) (isRestr : bool)
  : World * Response :=
  match users w !! id with
  | None => (w, fail 404 "User not found")
  | Some u =>
      if bool_decide (role u = head_admin) || bool_decide (role u = admin)
      then (w, fail 403 "Cannot restrict administrators")
      else
        let u' := withStatus u (if isRestr then restricted else active) in
        let w1 := setUsers w (<[id := u']> (users w)) in
        (w1, ok 200 (Some ("User " ++
                           (if isRestr then "restricted" else "unrestricted")
                           ++ " successfully"))
                (UserData (toSafeObject id u')))
  end.

(** PUT /api/admin/users/:id/promote *)
Definition promote (w : World) (r : Req) (id : UserId) : World * Response :=
  match users w !! id with
  | None => (w, fail 404 "User not found")
  | Some u =>
      if bool_decide (role u = admin)
      then (w, fail 400 "User is already an admin")
      else if bool_decide (role u = head_admin)
      then (w, fail 400 "User is already head admin")
      else
        let u' := withRole u admin in
        let w1 := setUsers w (<[id := u']> (users w)) in
        let w2 := logActivity w1
                    (mkLog (req_id r) (username (req_user r)) "user_promoted"
                           (PromotedDetails (username u'))) in
        (w2, ok 200 (Some (username u' ++ " promoted to admin"))
                (UserData (toSafeObject id u')))
  end.

(** PUT /api/admin/users/:id/demote *)
Definition demote (w : World) (r : Req) (id : UserId) : World * Response :=
  match users w !! id with
  | None => (w, fail 404 "User not found")
  | Some u =>
      if bool_decide (role u = head_admin)
      then (w, fail 403 "Cannot demote head admin")
      else if bool_decide (role u = user)
      then (w, fail 400 "User is already a regular user")
      else
        let u' := withRole u user in
        let w1 := setUsers w (<[id := u']> (users w)) in
        let w2 := logActivity w1
                    (mkLog (req_id r) (username (req_user r)) "user_demoted"
                           (DemotedDetails (username u'))) in
        (w2, ok 200 (Some (username u' ++ " demoted to regular user"))
                (UserData (toSafeObject id u')))
  end.

(* ================================================================== *)
(** * routes/pi.js: alerts *)
(* ================================================================== *)

(** One element of the [alerts] array of the body.  An absent [level] or
    [message] is the empty string, which the [required] validator
    rejects like a missing value. *)
Record AlertInput := mkAlertInput {
  in_level : string;
  in_message : string;
  in_acknowledged : option bool;
  in_timestamp : option Date;
}.

Definition toAlert (e : Env) (a : AlertInput) : SystemAlert :=
  mkAlert (in_level a) (in_message a) "pi"
          (default false (in_acknowledged a))
          (match in_timestamp a with
           | Some t => if bool_decide (t = 0%Z) then now e else t
           | None => now e
           end).

(** The SystemAlert schema: [level] in its enum, [message] required. *)
Definition validAlert (a : SystemAlert) : bool :=
  includes ["INFO"; "WARNING"; "ERROR"; "CRITICAL"] (level a)
  && negb (bool_decide (alert_message a = "")).

Definition broadcastAlert (w : World) (a : SystemAlert) : World :=
  if bool_decide (level a = "CRITICAL") || bool_decide (level a = "ERROR")
  then emit w ToAll "system_alert" (AlertPayload a)
  else w.

(** POST /api/pi/alerts.  [None] is a body whose [alerts] is missing or
    not an array. *)
Definition postAlerts (e : Env) (w : World)
  (body : option (list AlertInput)) : World * Response :=
  match body with
  | None => (w, fail 400 "Alerts array required")
  | Some l =>
      let docs := map (toAlert e) l in
      if forallb validAlert docs
      then
        let inserted := docs in
        let w1 := mkWorld (users w) (nextId w) (thresholds w) (activity w)
                          (alerts w ++ inserted) (outbox w) (relayed w) in
        let w2 := foldl broadcastAlert w1 inserted in
        (w2, ok 200 None (CountData (length inserted)))
      else (w, fail 500 "Failed to save alerts")
  end.

(* ================================================================== *)
(** * server.js: Socket.IO authentication and presence *)
(* ================================================================== *)

Record Socket := mkSocket {
  sock_id : string;
  sock_userId : UserId;
  sock_username : string;
  sock_role : Role;
}.

(** [io.use]: [None] is a refused handshake. *)
Definition ioUse (w : World) (token : option UserId) (id : string)
  : option Socket :=
  match token with
  | None => None
  | Some uid =>
      match users w !! uid with
      | None => None
      | Some u =>
          if bool_decide (status u = banned) then None
          else Some (mkSocket id uid (username u) (role u))
      end
  end.

Definition setPresence (online : bool) (sid : option string) (u : User)
  : User :=
  mkUser (username u) (email u) (password u) (role u) (status u) (theme u)
         (lastLogin u) online sid.

(** [User.findByIdAndUpdate]: nothing happens when the id is unknown. *)
Definition findByIdAndUpdate (w : World) (id : UserId) (f : User -> User)
  : World :=
  setUsers w (alter f id (users w)).

(** [io.on('connection')] *)
Definition onConnection (w : World) (s : Socket) : World :=
  let w1 := findByIdAndUpdate w (sock_userId s)
              (setPresence true (Some (sock_id s))) in
  emit w1 ToAll "user_online"
       (PresencePayload (sock_userId s) (sock_username s)).

(** [socket.on('disconnect')] *)
Definition onDisconnect (w : World) (s : Socket) : World :=
  let w1 := findByIdAndUpdate w (sock_userId s) (setPresence false None) in
  emit w1 ToAll "user_offline"
       (PresencePayload (sock_userId s) (sock_username s)).

(* ================================================================== *)
(** * server.js: the mounted routers *)
(* ================================================================== *)

Inductive Route :=
| POST_auth_register (name mail pass : string)
| GET_auth_me
| PUT_auth_change_password (currentPassword newPassword : string)
| GET_thresholds
| PUT_thresholds (updates : gmap string Z)
| POST_manual_control (actuator : string) (state pwm : option Js.Value)
| POST_manual_auto
| PUT_settings_username (newUsername : string)
| PUT_settings_theme (th : string)
| GET_settings
| DELETE_admin_users (id : UserId)
| PUT_admin_users_ban (id : UserId) (isBanned : bool)
| PUT_admin_users_restrict (id : UserId) (isRestr : bool)
| PUT_admin_users_promote (id : UserId)
| PUT_admin_users_demote (id : UserId)
| POST_pi_alerts (body : option (list AlertInput)).

Record Request := mkRequest {
  token : option UserId;
  apiKey : string;
  route : Route;
}.

(** Each route behind the middleware its router mounts before it. *)
Definition handle (e : Env) (w : World) (q : Request) : World * Response :=
  let authed := protect w (token q) in
  let writer := bind authed allowWrite in
  let adm := bind authed adminOnly in
  let head := bind adm headAdminOnly in
  match route q with
  | POST_auth_register n m p => register w n m p
  | GET_auth_me => behind w authed (me w)
  | PUT_auth_change_password c n =>
      behind w writer (fun r => changePassword w r c n)
  | GET_thresholds => behind w authed (getThresholds w)
  | PUT_thresholds u => behind w writer (fun r => putThresholds e w r u)
  | POST_manual_control a s p =>
      behind w writer (fun r => control e w r a s p)
  | POST_manual_auto => behind w writer (auto_ e w)
  | PUT_settings_username n => behind w writer (fun r => putUsername w r n)
  | PUT_settings_theme th => behind w authed (fun r => putTheme w r th)
  | GET_settings => behind w authed (getSettings w)
  | DELETE_admin_users id => behind w adm (fun r => deleteUser w r id)
  | PUT_admin_users_ban id b => behind w adm (fun r => ban w r id b)
  | PUT_admin_users_restrict id b =>
      behind w adm (fun r => restrict w r id b)
  | PUT_admin_users_promote id => behind w head (fun r => promote w r id)
  | PUT_admin_users_demote id => behind w head (fun r => demote w r id)
  | POST_pi_alerts body =>
      behind w (piAuth e (apiKey q)) (fun _ => postAlerts e w body)
  end.

(** What happens to the server: a request, a socket handshake, or the
    disconnection of a socket. *)
Inductive Event :=
| Http (e : Env) (q : Request)
| Handshake (tok : option UserId) (id : string)
| Closed (s : Socket).

Definition step (w : World) (ev : Event) : World * option Response :=
  match ev with
  | Http e q => let '(w', res) := handle e w q in (w', Some res)
  | Handshake tok id =>
      match ioUse w tok id with
      | Some s => (onConnection w s, None)
      | None => (w, None)
      end
  | Closed s => (onDisconnect w s, None)
  end.

(** Whether a response is that of a registration which made its account
    head admin. *)
Definition grantsHeadAdmin (ev : Event) (res : option Response) : bool :=
  match ev, res with
  | Http _ (mkRequest _ _ (POST_auth_register _ _ _)), Some r =>
      (statusCode r =? 201)%nat &&
      match data r with
      | TokenData _ su => bool_decide (safe_role su = head_admin)
      | _ => false
      end
  | _, _ => false
  end.

(** Run the events in order; count the registrations that made a head
    admin. *)
Fixpoint run (w : World) (evs : list Event) : World * nat :=
  match evs with
  | [] => (w, 0)
  | ev :: rest =>
      let '(w1, res) := step w ev in
      let '(w2, n) := run w1 rest in
      (w2, (if grantsHeadAdmin ev res then 1 else 0) + n)
  end.

(* ================================================================== *)
(** * Vocabulary of the properties *)
(* ================================================================== *)


(** The operations the routers put behind [allowWrite]. *)
Definition gatedWrite (r : Route) : bool :=
  match r with
  | PUT_thresholds _ | POST_manual_control _ _ _ | POST_manual_auto
  | PUT_settings_username _ | PUT_auth_change_password _ _ => true
  | _ => false
  end.

Definition isRead (r : Route) : bool :=
  match r with
  | GET_auth_me | GET_thresholds | GET_settings => true
  | _ => false
  end.

(** The part of a response that tells the caller how the operation
    went: everything but the data. *)
Definition envelope (r : Response)
  : nat * bool * option string * option string :=
  (statusCode r, success r, error r, message r).


Definition severe (a : SystemAlert) : bool :=
  bool_decide (level a = "ERROR") || bool_decide (level a = "CRITICAL").

Definition alertEmission (a : SystemAlert) : Emission :=
  mkEmit ToAll "system_alert" (AlertPayload a).

(** The conditions under which a registration is accepted. *)
Definition registrable (w : World) (name mail pass : string) : bool :=
  negb (bool_decide (name = "")) && negb (bool_decide (mail = ""))
  && negb (bool_decide (pass = ""))
  && negb (findUser w (fun _ u =>
             bool_decide (email u = Js.toLowerCase (Js.trim mail))
             || bool_decide (username u = Js.trim name)))
  && validUsername (Js.trim name)
  && validEmail (Js.toLowerCase (Js.trim mail))
  && validPassword pass
  && negb (duplicateKey w None username (Js.trim name))
  && negb (duplicateKey w None email (Js.toLowerCase (Js.trim mail))).

(** Every stored account is a head admin. *)
Definition allHeadAdmins (w : World) : Prop :=
  forall id u, users w !! id = Some u -> role u = head_admin.

(** A registration past its count of the accounts, having counted
    none, or past the creation of its account, or over. *)
Definition counted (k : Registration) : Prop :=
  match k with
  | AwaitCreate _ _ _ r => r = head_admin
  | AwaitLog _ _ _ | Sent _ => True
  | AwaitFindOne _ _ _ | AwaitCountDocuments _ _ _ => False
  end.

(** Two registrations that have both counted no account, on a store
    with head admins only. *)
Definition settled (s : World * Registration * Registration) : Prop :=
  allHeadAdmins (fst (fst s)) /\ counted (snd (fst s)) /\ counted (snd s).

(** ** Concrete stores and requests used in the examples *)

Definition alice : User :=
  mkUser "alice" "alice@farm.io" (bcrypt "secret1") head_admin active
         "light" None false None.

Definition bob (s : Status) : User :=
  mkUser "bob" "bob@farm.io" (bcrypt "secret2") user s "light" None false
         None.

Definition carol : User :=
  mkUser "carol" "carol@farm.io" (bcrypt "secret3") admin active "light"
         None false None.

Definition emptyWorld : World := mkWorld ∅ 0 None [] [] [] [].

(** alice (head admin, id 0), bob (user with status [s], id 1) and carol
    (admin, id 2). *)
Definition farm (s : Status) : World :=
  mkWorld (<[0 := alice]> (<[1 := bob s]> (<[2 := carol]> ∅))) 3 None [] []
          [] [].

Definition piUp : Env := mkEnv 1000%Z (Some "ok") "key".
Definition piDown : Env := mkEnv 1000%Z None "key".

Definition as_ (id : UserId) (r : Route) : Request :=
  mkRequest (Some id) "" r.

Definition restrictedReply : Response :=
  fail 403 "Your account is restricted. You can only view data.".

(** The admin operations of the claim aimed at user [id]. *)
Definition targets (r : Route) (id : UserId) : bool :=
  match r with
  | DELETE_admin_users i | PUT_admin_users_ban i _
  | PUT_admin_users_restrict i _ | PUT_admin_users_demote i =>
      bool_decide (i = id)
  | _ => false
  end.

Definition deletesOrDemotes (r : Route) (id : UserId) : bool :=
  match r with
  | DELETE_admin_users i | PUT_admin_users_demote i => bool_decide (i = id)
  | _ => false
  end.

(** The actuators for which [control] puts a [pwm] in the command. *)
Definition pwmCapable (actuator : string) : bool :=
  bool_decide (actuator = "fan_exhaust") || bool_decide (actuator = "peltier").

Definition relayFailed : Response :=
  fail 503 "Failed to communicate with greenhouse controller".


(** What a run of a handler added to the alerts and to the outbox. *)
Definition newAlerts (w w' : World) : list SystemAlert :=
  drop (length (alerts w)) (alerts w').

Definition newEmissions (w w' : World) : list Emission :=
  drop (length (outbox w)) (outbox w').

(** alice with an open connection ["A"], then ["B"]. *)
Definition socketA : Socket := mkSocket "A" 0 "alice" head_admin.
Definition socketB : Socket := mkSocket "B" 0 "alice" head_admin.

(** The farm where bob is online on connection ["B7"]. *)
Definition farmBobOnline : World :=
  mkWorld (<[0 := alice]>
             (<[1 := setPresence true (Some "B7") (bob active)]>
                (<[2 := carol]> ∅))) 3 None [] [] [] [].

(** A batch of two alerts from the Pi. *)
Definition overheating : AlertInput :=
  mkAlertInput "CRITICAL" "peltier overheating" None (Some 900%Z).

Definition tankRefilled : AlertInput :=
  mkAlertInput "INFO" "water tank refilled" None None.

Definition alertsRequest : Request :=
  mkRequest None "key" (POST_pi_alerts (Some [overheating; tankRefilled])).

(** The role [register] gives in store [w]. *)
Definition firstUserRole (w : World) : Role :=
  if (size (users w) =? 0)%nat then head_admin else user.

Definition registeredUser (w : World) (name mail pass : string) : User :=
  mkUser (Js.trim name) (Js.toLowerCase (Js.trim mail)) (bcrypt pass)
         (firstUserRole w) active "light" None false None.

Definition registerRequest (name mail pass : string) : Request :=
  mkRequest None "" (POST_auth_register name mail pass).

(** What a handler may do to the user collection: nothing, store one
    document, or delete one while another stays. *)
Inductive usersStep (w : World) (w' : World) : Prop :=
| usersSame : users w' = users w -> usersStep w w'
| usersStored k v : users w' = <[k := v]> (users w) -> usersStep w w'
| usersDeleted k c cu :
    users w' = delete k (users w) -> c <> k -> users w !! c = Some cu ->
    usersStep w w'.

(* ================================================================== *)
(** * routes/auth.js: login and logout *)
(* ================================================================== *)

(** The filter of [User.findOne] in the login route, cast with the
    setters of the schema: [trim] for the username, [trim] and
    [lowercase] for the email. *)
Definition matchesLogin (name : string) (u : User) : bool :=
  bool_decide (username u = Js.trim name)
  || bool_decide (email u = Js.toLowerCase (Js.trim name)).

(** [found] answers [User.findOne]: the id of a stored account matching
    the filter (any of them when several match), or nothing when no
    account matches. *)
Definition findOneAnswer (w : World) (P : User -> bool)
  (found : option UserId) : Prop :=
  match found with
  | Some id => exists u, users w !! id = Some u /\ P u = true
  | None => forall id u, users w !! id = Some u -> P u = false
  end.

(** POST /api/auth/login, [found] being what [User.findOne] returned. *)
Definition login (e : Env) (w : World) (name pass : string)
  (found : option UserId) : World * Response :=
  if bool_decide (name = "") || bool_decide (pass = "")
  then (w, fail 400 "Please provide username and password")
  else
    match found with
    | None => (w, fail 401 "Invalid credentials")
    | Some id =>
        match users w !! id with
        | None => (w, fail 401 "Invalid credentials")
        | Some u =>
            if bool_decide (status u = banned)
            then (w, fail 403
                       "Your account has been banned. Contact an administrator.")
            else if negb (comparePassword u pass)
            then (w, fail 401 "Invalid credentials")
            else
              let u' := mkUser (username u) (email u) (password u) (role u)
                               (status u) (theme u) (Some (now e)) true
                               (socketId u) in
              let w1 := setUsers w (<[id := u']> (users w)) in
              let w2 := logActivity w1 (mkLog id (username u') "login"
                                              NoDetails) in
              (w2, sendTokenResponse id u' 200 "Login successful")
        end
    end.

(** POST /api/auth/logout, behind [protect]. *)
Definition logout (w : World) (r : Req) : World * Response :=
  let u' := setPresence false None (req_user r) in
  let w1 := setUsers w (<[req_id r := u']> (users w)) in
  let w2 := logActivity w1 (mkLog (req_id r) (username u') "logout"
                                  NoDetails) in
  (w2, ok 200 (Some "Logout successful") NoData).

Definition handleLogout (w : World) (tok : option UserId)
  : World * Response :=
  behind w (protect w tok) (logout w).

(* ================================================================== *)
(** * server.js: CORS origins *)
(* ================================================================== *)

(** [s.split(sep)] for a one-character separator. *)
Fixpoint split (sep : ascii) (s : string) : list string :=
  match s with
  | EmptyString => [EmptyString]
  | String c r =>
      if bool_decide (c = sep) then EmptyString :: split sep r
      else match split sep r with
           | h :: t => String c h :: t
           | [] => [String c EmptyString]
           end
  end.

(** [allowedOrigins], from [process.env.CORS_ORIGINS] ([None] when the
    variable is not set; the empty string is falsy as well). *)
Definition allowedOrigins (CORS_ORIGINS : option string) : list string :=
  match CORS_ORIGINS with
  | Some s => if bool_decide (s = "") then []
              else map Js.trim (split ","%char s)
  | None => []
  end.

(** [originFn]: [inr true] is [callback(null, true)], [inl msg] is
    [callback(new Error(msg))].  [None] is a request with no Origin
    header. *)
Definition originFn (allowed : list string) (origin : option string)
  : string + bool :=
  match origin with
  | None => inr true
  | Some o =>
      if bool_decide (o = "") then inr true
      else if includes allowed o then inr true
      else inl ("CORS: origin " ++ o ++ " not allowed")
  end.

(* ================================================================== *)
(** * Vocabulary of the further properties *)
(* ================================================================== *)

(** Of the routes of [Route], those mounted with no [protect] in
    front. *)
Definition isPublic (r : Route) : bool :=
  match r with
  | POST_auth_register _ _ _ | POST_pi_alerts _ => true
  | _ => false
  end.

(** The routes of routes/admin.js, and those behind [headAdminOnly]. *)
Definition isAdminRoute (r : Route) : bool :=
  match r with
  | DELETE_admin_users _ | PUT_admin_users_ban _ _
  | PUT_admin_users_restrict _ _ | PUT_admin_users_promote _
  | PUT_admin_users_demote _ => true
  | _ => false
  end.

Definition isHeadAdminRoute (r : Route) : bool :=
  match r with
  | PUT_admin_users_promote _ | PUT_admin_users_demote _ => true
  | _ => false
  end.

Definition unauthorized : Response :=
  fail 401 "Not authorized to access this route".
Definition userGone : Response := fail 401 "User no longer exists".
Definition accountBanned : Response :=
  fail 403 "Your account has been banned".

(** A [pwm] the Pi can be sent: none, [NaN], or an integer of 0..255. *)
Definition pwmSendable (p : option Js.Number) : Prop :=
  match p with
  | None | Some Js.NaN => True
  | Some (Js.Int z) => (0 <= z <= 255)%Z
  end.

(** A password with no zero byte. *)
Fixpoint zeroFree (s : string) : bool :=
  match s with
  | String c r => negb (bool_decide (c = Ascii.zero)) && zeroFree r
  | EmptyString => true
  end.

(** A password bcrypt reads whole: fewer than 72 bytes, none of them
    zero. *)
Definition readWhole (s : string) : bool :=
  (String.length s <? 72)%nat && zeroFree s.

(** The [changed] object of a threshold write: the entries of the body
    under the nine valid keys. *)
Definition isChanged (updates changed : gmap string Z) : Prop :=
  forall k, changed !! k =
            if bool_decide (k ∈ validKeys) then updates !! k else None.

(** Every stored id is below the next id to be given. *)
Definition freshIds (w : World) : Prop :=
  forall id u, users w !! id = Some u -> id < nextId w.

(** No two accounts share a username or an email. *)
Definition uniqueLogins (w : World) : Prop :=
  forall i j ui uj,
    users w !! i = Some ui -> users w !! j = Some uj ->
    username ui = username uj \/ email ui = email uj -> i = j.

(** How a stored account may differ from what it was: the role is kept,
    or goes from one role below head admin to another; the email is
    kept; the username is kept or becomes one no other account has. *)
Definition edited (w : World) (k : UserId) (u v : User) : Prop :=
  (role v = role u \/ (role u <> head_admin /\ role v <> head_admin))
  /\ email v = email u
  /\ (username v = username u
      \/ duplicateKey w (Some k) username (username v) = false).

(** What one event may do to the accounts. *)
Inductive accountsStep (w w' : World) : Prop :=
| accountsKept :
    users w' = users w -> nextId w' = nextId w -> accountsStep w w'
| accountEdited k u v :
    users w !! k = Some u -> edited w k u v ->
    users w' = <[k := v]> (users w) -> nextId w' = nextId w ->
    accountsStep w w'
| accountCreated v :
    users w' = <[nextId w := v]> (users w) -> nextId w' = S (nextId w) ->
    role v = firstUserRole w ->
    duplicateKey w None username (username v) = false ->
    duplicateKey w None email (email v) = false ->
    accountsStep w w'
| accountDeleted k u :
    users w !! k = Some u -> role u <> head_admin ->
    users w' = delete k (users w) -> nextId w' = nextId w ->
    accountsStep w w'.

(** The worlds a server started on an empty database can be in. *)
Definition reachable (w : World) : Prop :=
  exists evs, w = fst (run emptyWorld evs).

(** Whether character [c] occurs in [s]. *)
Fixpoint occurs (c : ascii) (s : string) : bool :=
  match s with
  | EmptyString => false
  | String d r => bool_decide (d = c) || occurs c r
  end.

(** The store of a server started on an empty database: ids are fresh,
    the next id is 0 as long as nobody registered, and only account 0
    can be head admin. *)
Definition fromEmpty (w : World) : Prop :=
  freshIds w
  /\ (users w = ∅ -> nextId w = 0)
  /\ (forall id u, users w !! id = Some u -> role u = head_admin -> id = 0).

Definition withUsername (u : User) (n : string) : User :=
  mkUser n (email u) (password u) (role u) (status u) (theme u)
         (lastLogin u) (isOnline u) (socketId u).

Definition withTheme (u : User) (th : string) : User :=
  mkUser (username u) (email u) (password u) (role u) (status u) th
         (lastLogin u) (isOnline u) (socketId u).

Definition settingsOf (u : User) : Data :=
  SettingsData (username u) (email u) (theme u) (role u) (status u).

(** ** Concrete inputs of the further examples *)

(** dave and erin register on an empty database, then dave promotes
    erin. *)
Definition threeEvents : list Event :=
  [ Http piUp (registerRequest "dave" "dave@farm.io" "hunter22");
    Http piUp (registerRequest "erin" "erin@farm.io" "hunter23");
    Http piUp (as_ 0 (PUT_admin_users_promote 1)) ].

Definition farmBobBanned : World := farm banned.


(* ================================================================== *)
(** * Properties *)
(* ================================================================== *)

(** ** The built-ins on characters outside ASCII *)

(** Lengths are counted in UTF-16 units, [trim] removes every white
    space of the language, and [toLowerCase] follows the Unicode case
    mappings. *)
Example strings_outside_ascii :
  Js.length "éé" = 2
  /\ Js.length "€€" = 2
  /\ Js.length "😀" = 2
  /\ validUsername "éé" = false
  /\ validPassword "€€€€€€" = true
  /\ Js.trim " dave　" = "dave"
  /\ Js.toLowerCase "ΟΔΟΣ@ÉTÉ.IO" = "οδος@été.io"
  /\ Js.toLowerCase "İ" = "i̇"
  /\ Js.parseInt (Js.Str " 0x1F") = Js.Int 31.
Proof. vm_compute. repeat split; reflexivity. Qed.

(** ** The command gate *)

Lemma protect_known w id u :
  users w !! id = Some u ->
  protect w (Some id) =
    if bool_decide (status u = banned)
    then Reply (fail 403 "Your account has been banned")
    else Continue (mkReq id u (bool_decide (status u = restricted))).
Proof. intros H. unfold protect. by rewrite H. Qed.

Lemma protect_restricted w id u :
  users w !! id = Some u -> status u = restricted ->
  protect w (Some id) = Continue (mkReq id u true).
Proof.
  intros H Hs. rewrite (protect_known _ _ _ H), Hs. reflexivity.
Qed.

Lemma protect_active w id u :
  users w !! id = Some u -> status u = active ->
  protect w (Some id) = Continue (mkReq id u false).
Proof.
  intros H Hs. rewrite (protect_known _ _ _ H), Hs. reflexivity.
Qed.

(** A reply of [protect] is a 401 or a 403, never a success. *)
Lemma protect_reply w tok r :
  protect w tok = Reply r ->
  success r = false /\ (statusCode r = 401 \/ statusCode r = 403).
Proof.
  unfold protect. destruct tok as [id|]; [|intros [= <-]; simpl; auto].
  destruct (users w !! id) as [u|]; [|intros [= <-]; simpl; auto].
  case_bool_decide; intros [= <-]; simpl; auto.
Qed.

(** C1 (as found in the code).  For a caller whose status is restricted:
    a threshold update, an actuator command, an auto-mode resume, a
    username change and a password change are answered 403 and leave the
    store, the outbox and the relay untouched; a theme change is not
    behind [allowWrite] and a valid one is stored and answered 200; the
    reads of the thresholds, of the settings and of the own account
    succeed. *)
Theorem restricted_caller_gate (e : Env) (w : World) (id : UserId)
  (u : User) (key : string) (r : Route) :
  users w !! id = Some u ->
  status u = restricted ->
  (gatedWrite r = true ->
   handle e w (mkRequest (Some id) key r) = (w, restrictedReply))
  /\ (forall th, r = PUT_settings_theme th ->
      includes ["light"; "dark"; "auto"] th = true ->
      exists w',
        handle e w (mkRequest (Some id) key r) =
          (w', ok 200 (Some "Theme updated successfully") (ThemeData th))
        /\ theme <$> users w' !! id = Some th)
  /\ (isRead r = true ->
      statusCode (snd (handle e w (mkRequest (Some id) key r))) = 200
      /\ success (snd (handle e w (mkRequest (Some id) key r))) = true).
Proof.
  intros Hu Hs. pose proof (protect_restricted w id u Hu Hs) as Hp.
  split; [|split].
  - intros Hg. unfold handle; simpl token; simpl route. rewrite Hp.
    destruct r; try discriminate Hg; reflexivity.
  - intros th -> Hth. unfold handle; simpl token; simpl route. rewrite Hp.
    simpl. unfold putTheme. rewrite Hth. simpl.
    eexists; split; [reflexivity|]. simpl.
    by rewrite lookup_insert_eq.
  - intros Hr. unfold handle; simpl token; simpl route. rewrite Hp.
    destruct r; try discriminate Hr; simpl; auto.
    unfold getThresholds. destruct (getCurrent w). simpl. auto.
Qed.

Lemma restricted_caller_gate_witness :
  handle piUp (farm restricted)
         (as_ 1 (POST_manual_control "pump_water" (Some (Js.Bool true))
                                     (Some (Js.Num 400))))
  = (farm restricted, restrictedReply).
Proof.
  apply (restricted_caller_gate piUp (farm restricted) 1 (bob restricted) ""
           (POST_manual_control "pump_water" (Some (Js.Bool true))
                                (Some (Js.Num 400))));
    reflexivity.
Defined.

(** C1 (as stated) fails on the theme change: bob, restricted, changes
    his theme from light to dark and is answered 200. *)
Lemma restricted_theme_change_accepted :
  status <$> users (farm restricted) !! 1 = Some restricted
  /\ theme <$> users (farm restricted) !! 1 = Some "light"
  /\ statusCode (snd (handle piUp (farm restricted)
                             (as_ 1 (PUT_settings_theme "dark")))) = 200
  /\ theme <$> users (fst (handle piUp (farm restricted)
                                  (as_ 1 (PUT_settings_theme "dark")))) !! 1
     = Some "dark".
Proof. vm_compute. repeat split; reflexivity. Qed.

(** ** Head admins and admins as targets of admin operations *)

Lemma adminOnly_reply r res :
  adminOnly r = Reply res -> statusCode res = 403 /\ success res = false.
Proof.
  unfold adminOnly. destruct (isAdmin (req_user r)); simpl; [discriminate|].
  intros [= <-]. auto.
Qed.

Lemma headAdminOnly_reply r res :
  headAdminOnly r = Reply res -> statusCode res = 403 /\ success res = false.
Proof.
  unfold headAdminOnly. destruct (isHeadAdmin (req_user r)); simpl;
    [discriminate|].
  intros [= <-]. auto.
Qed.

(** With a head admin as target, each of the four handlers answers 403
    and returns the store it was given. *)
Lemma head_admin_target_refused w r id t route_ :
  users w !! id = Some t -> role t = head_admin ->
  targets route_ id = true ->
  forall h,
    h = match route_ with
        | DELETE_admin_users i => deleteUser w r i
        | PUT_admin_users_ban i b => ban w r i b
        | PUT_admin_users_restrict i b => restrict w r i b
        | PUT_admin_users_demote i => demote w r i
        | _ => (w, fail 403 "")
        end ->
    fst h = w /\ statusCode (snd h) = 403 /\ success (snd h) = false.
Proof.
  intros Ht Hr Htg h ->.
  destruct route_; try discriminate Htg; simpl in Htg;
    apply bool_decide_eq_true in Htg; subst;
    unfold deleteUser, ban, restrict, demote; rewrite Ht, Hr; simpl; auto.
Qed.

(** C2.  Delete, ban (or unban), restrict (or unrestrict) and demote
    aimed at a head admin leave the store as it was, whoever calls, the
    head admin included; every caller whose token resolves to an account
    is answered 403.  An admin who is not head admin is answered 403, the
    store unchanged, when deleting or demoting an admin. *)
Theorem head_admin_untouchable (e : Env) (w : World) (q : Request)
  (id : UserId) (t : User) :
  users w !! id = Some t ->
  (role t = head_admin -> targets (route q) id = true ->
   fst (handle e w q) = w
   /\ (forall c cu, token q = Some c -> users w !! c = Some cu ->
       statusCode (snd (handle e w q)) = 403
       /\ success (snd (handle e w q)) = false))
  /\ (role t = admin -> deletesOrDemotes (route q) id = true ->
      forall c cu, token q = Some c -> users w !! c = Some cu ->
      role cu = admin ->
      fst (handle e w q) = w
      /\ statusCode (snd (handle e w q)) = 403
      /\ success (snd (handle e w q)) = false).
Proof.
  intros Ht. split.
  - intros Hr Htg.
    assert (Hcore : forall r,
      protect w (token q) = Continue r ->
      fst (handle e w q) = w
      /\ statusCode (snd (handle e w q)) = 403
      /\ success (snd (handle e w q)) = false).
    { intros r Hp. unfold handle. rewrite Hp. simpl bind.
      destruct (adminOnly r) as [ra|r1] eqn:Ha.
      - apply adminOnly_reply in Ha.
        destruct (route q); try discriminate Htg; simpl; tauto.
      - assert (r1 = r) as ->.
        { unfold adminOnly in Ha. destruct (negb _); congruence. }
        destruct (route q) eqn:Hq; try discriminate Htg; simpl behind.
        + eapply (head_admin_target_refused w r id t (DELETE_admin_users _));
            eauto.
        + eapply (head_admin_target_refused w r id t
                    (PUT_admin_users_ban _ _)); eauto.
        + eapply (head_admin_target_refused w r id t
                    (PUT_admin_users_restrict _ _)); eauto.
        + destruct (headAdminOnly r) as [rh|r2] eqn:Hh; simpl.
          * apply headAdminOnly_reply in Hh. tauto.
          * assert (r2 = r) as ->.
            { unfold headAdminOnly in Hh. destruct (negb _); congruence. }
            eapply (head_admin_target_refused w r id t
                      (PUT_admin_users_demote _)); eauto. }
    split.
    + destruct (protect w (token q)) as [res|r] eqn:Hp.
      * unfold handle. rewrite Hp.
        destruct (route q); try discriminate Htg; reflexivity.
      * apply (Hcore r eq_refl).
    + intros c cu Hc Hcu.
      destruct (protect w (token q)) as [res|r] eqn:Hp.
      * rewrite Hc, (protect_known _ _ _ Hcu) in Hp.
        case_bool_decide; [|discriminate]. injection Hp as <-.
        unfold handle. rewrite Hc, (protect_known _ _ _ Hcu).
        rewrite bool_decide_eq_true_2 by assumption.
        destruct (route q); try discriminate Htg; simpl; auto.
      * destruct (Hcore r eq_refl) as (_ & ? & ?). auto.
  - intros Hr Htg c cu Hc Hcu Hrole.
    unfold handle. rewrite Hc, (protect_known _ _ _ Hcu).
    case_bool_decide.
    + destruct (route q); try discriminate Htg; simpl; auto.
    + destruct (route q); try discriminate Htg; simpl in Htg;
        apply bool_decide_eq_true in Htg; subst;
        unfold bind, adminOnly, headAdminOnly, isAdmin, isHeadAdmin;
        simpl req_user; repeat (rewrite Hrole; simpl); auto.
      unfold deleteUser. rewrite Ht, Hr. simpl. rewrite Hrole. simpl. auto.
Qed.

Lemma head_admin_untouchable_witness :
  fst (handle piUp (farm active) (as_ 0 (PUT_admin_users_ban 0 true)))
  = farm active
  /\ statusCode (snd (handle piUp (farm active)
                             (as_ 0 (PUT_admin_users_ban 0 true)))) = 403.
Proof.
  destruct (head_admin_untouchable piUp (farm active)
              (as_ 0 (PUT_admin_users_ban 0 true)) 0 alice eq_refl)
    as [H _].
  destruct (H eq_refl eq_refl) as [Hw Hc].
  split; [exact Hw|].
  exact (proj1 (Hc 0 alice eq_refl eq_refl)).
Defined.

(** ** Actuator commands: what is relayed and what is broadcast *)

Lemma includes_true l s : includes l s = true <-> In s l.
Proof.
  unfold includes. rewrite existsb_exists. split.
  - intros (x & Hx & He). apply String.eqb_eq in He. by subst.
  - intros H. exists s. split; [done|]. apply String.eqb_refl.
Qed.

Lemma valid_actuator_nonempty a :
  includes validActuators a = true -> bool_decide (a = "") = false.
Proof.
  intros H. apply bool_decide_eq_false. intros ->. discriminate H.
Qed.





(** A number from 10^21 on reaches [parseInt] printed in exponent form,
    1e21 as the string below, of which only the leading digit is
    read. *)
Example exponent_form_pwm :
  commandPwm "fan_exhaust" (Some (Js.Str "1e+21")) = Some (Js.Int 1).
Proof. reflexivity. Qed.

(** The values of the specification, for an actuator with a pwm. *)
Example clamp_examples :
  commandPwm "peltier" (Some (Js.Num (-10))) = Some (Js.Int 0)
  /\ commandPwm "peltier" (Some (Js.Num 300)) = Some (Js.Int 255)
  /\ commandPwm "peltier" (Some (Js.Num 120)) = Some (Js.Int 120)
  /\ commandPwm "fan_exhaust" (Some (Js.Str " 200")) = Some (Js.Int 200)
  /\ commandPwm "fan_exhaust" (Some (Js.Str "fast")) = Some Js.NaN.
Proof. vm_compute. repeat split; reflexivity. Qed.

(** ** Threshold writes *)

Section ApplyUpdates.
Variable updates : gmap string Z.

(** The loop over any list of keys: a key of the list that the body
    names gets the body's value, every other key keeps its own. *)
Lemma foldl_applyKey_setpoints (keys : list string) :
  forall (acc : gmap string Z * gmap string Z) (k : string),
    fst (foldl (applyKey updates) acc keys) !! k =
      match updates !! k with
      | Some v => if bool_decide (k ∈ keys) then Some v else fst acc !! k
      | None => fst acc !! k
      end.
Proof.
  induction keys as [|key keys IH]; intros acc k; simpl.
  - by destruct (updates !! k).
  - rewrite IH. destruct (updates !! k) as [v|] eqn:Hk.
    + destruct (decide (k ∈ keys)) as [Hin|Hnin].
      * rewrite !bool_decide_eq_true_2; [done | rewrite elem_of_cons; tauto | done].
      * rewrite (bool_decide_eq_false_2 (k ∈ keys)) by done.
        unfold applyKey. destruct (decide (k = key)) as [->|Hne].
        -- rewrite Hk. simpl. rewrite lookup_insert_eq.
           rewrite bool_decide_eq_true_2; [done | rewrite elem_of_cons; tauto].
        -- rewrite (bool_decide_eq_false_2 (k ∈ key :: keys)).
           2:{ rewrite elem_of_cons. tauto. }
           destruct (updates !! key); simpl; [|done].
           by rewrite lookup_insert_ne.
    + unfold applyKey. destruct (updates !! key) eqn:Hkey; simpl; [|done].
      rewrite lookup_insert_ne; [done | congruence].
Qed.

Lemma applyUpdates_setpoints (sp : gmap string Z) (k : string) :
  fst (applyUpdates updates sp) !! k =
    match updates !! k with
    | Some v => if bool_decide (k ∈ validKeys) then Some v else sp !! k
    | None => sp !! k
    end.
Proof. unfold applyUpdates. by rewrite foldl_applyKey_setpoints. Qed.

End ApplyUpdates.

(** The stored document after an authorised threshold write. *)
Lemma putThresholds_stored e w r updates :
  thresholds (fst (putThresholds e w r updates)) =
    Some (mkThreshold
            (fst (applyUpdates updates (setpoints (snd (getCurrent w)))))
            (Some (req_id r))
            (match pi e with
             | Some _ => Some (now e)
             | None => lastSyncedWithArduino (snd (getCurrent w))
             end)).
Proof.
  unfold putThresholds. destruct (getCurrent w) as [w1 t]. simpl.
  destruct (applyUpdates updates (setpoints t)) as [sp changed]. simpl.
  by destruct (pi e).
Qed.

Lemma putThresholds_response e w r updates :
  envelope (snd (putThresholds e w r updates)) =
    (200, true, None, Some "Thresholds updated successfully")
  /\ data (snd (putThresholds e w r updates)) =
       ThresholdData
         (mkThreshold
            (fst (applyUpdates updates (setpoints (snd (getCurrent w)))))
            (Some (req_id r))
            (match pi e with
             | Some _ => Some (now e)
             | None => lastSyncedWithArduino (snd (getCurrent w))
             end)).
Proof.
  unfold putThresholds. destruct (getCurrent w) as [w1 t]. simpl.
  destruct (applyUpdates updates (setpoints t)) as [sp changed]. simpl.
  by destruct (pi e).
Qed.

Lemma getCurrent_stored w t :
  thresholds w = Some t -> getCurrent w = (w, t).
Proof. intros H. unfold getCurrent. by rewrite H. Qed.

(** C4 (as found in the code).  When the relay fails: a threshold write
    by an active caller is answered 200 with the very status, success
    flag and message it has when the relay succeeds, no error and no
    warning, and the document returned keeps the [lastSyncedWithArduino]
    it had; an actuator command and an auto-mode resume are answered 503
    with [success: false], nothing is logged and nothing is broadcast. *)
Theorem relay_failure_reporting (e : Env) (w : World) (id : UserId)
  (u : User) :
  users w !! id = Some u ->
  status u = active ->
  pi e = None ->
  (forall updates,
     let res := snd (handle e w (as_ id (PUT_thresholds updates))) in
     envelope res = (200, true, None, Some "Thresholds updated successfully")
     /\ (forall e', envelope
                      (snd (handle e' w (as_ id (PUT_thresholds updates))))
                    = envelope res)
     /\ exists t, data res = ThresholdData t
                  /\ lastSyncedWithArduino t =
                       lastSyncedWithArduino (snd (getCurrent w)))
  /\ (forall actuator b pwm,
        includes validActuators actuator = true ->
        let out := handle e w (as_ id (POST_manual_control actuator
                                         (Some (Js.Bool b)) pwm)) in
        snd out = relayFailed
        /\ activity (fst out) = activity w
        /\ outbox (fst out) = outbox w)
  /\ (let out := handle e w (as_ id POST_manual_auto) in
      snd out = relayFailed
      /\ activity (fst out) = activity w
      /\ outbox (fst out) = outbox w).
Proof.
  intros Hu Hs Hpi. split; [|split].
  - intros updates res.
    assert (Hh : forall e0, handle e0 w (as_ id (PUT_thresholds updates)) =
                   putThresholds e0 w (mkReq id u false) updates).
    { intros e0. unfold as_, handle. simpl token; simpl route.
      by rewrite (protect_active _ _ _ Hu Hs). }
    subst res. rewrite Hh.
    destruct (putThresholds_response e w (mkReq id u false) updates)
      as [Henv Hdata].
    split; [exact Henv|]. split.
    + intros e'. rewrite Hh, Henv.
      apply (putThresholds_response e' w (mkReq id u false) updates).
    + eexists. split; [exact Hdata|]. simpl. by rewrite Hpi.
  - intros actuator b pwm Ha out. subst out.
    unfold as_, handle. simpl token; simpl route.
    rewrite (protect_active _ _ _ Hu Hs). simpl. unfold control.
    rewrite (valid_actuator_nonempty _ Ha), Ha, Hpi. simpl. done.
  - unfold as_, handle. simpl token; simpl route.
    rewrite (protect_active _ _ _ Hu Hs). simpl. unfold auto_.
    rewrite Hpi. simpl. done.
Qed.

Lemma relay_failure_reporting_witness :
  snd (handle piDown (farm active) (as_ 1 POST_manual_auto)) = relayFailed.
Proof.
  apply (relay_failure_reporting piDown (farm active) 1 (bob active));
    reflexivity.
Defined.

(** C4 (as stated) fails on the warning: with the Pi down, the answer to
    a threshold write has the same status, success flag, error and
    message as with the Pi up. *)
Lemma threshold_relay_failure_silent :
  pi piDown = None /\ pi piUp = Some "ok"
  /\ envelope (snd (handle piDown (farm active)
                           (as_ 1 (PUT_thresholds {["soil1" := 55%Z]}))))
     = (200, true, None, Some "Thresholds updated successfully")
  /\ envelope (snd (handle piUp (farm active)
                           (as_ 1 (PUT_thresholds {["soil1" := 55%Z]}))))
     = (200, true, None, Some "Thresholds updated successfully").
Proof. vm_compute. repeat split; reflexivity. Qed.

Lemma put_thresholds_cases e w tok key updates :
  fst (handle e w (mkRequest tok key (PUT_thresholds updates))) = w
  \/ exists r,
       handle e w (mkRequest tok key (PUT_thresholds updates)) =
         putThresholds e w r updates.
Proof.
  unfold handle. simpl token; simpl route.
  destruct (protect w tok) as [res|r]; simpl; [by left|].
  unfold allowWrite. destruct (isRestricted r); simpl; [by left|].
  right. by exists r.
Qed.

Lemma get_thresholds_stored e w id u t :
  users w !! id = Some u -> status u <> banned ->
  thresholds w = Some t ->
  handle e w (as_ id GET_thresholds) = (w, ok 200 None (ThresholdData t)).
Proof.
  intros Hu Hs Ht. unfold as_, handle. simpl token; simpl route.
  rewrite (protect_known _ _ _ Hu), bool_decide_eq_false_2 by done.
  simpl. unfold getThresholds. by rewrite (getCurrent_stored _ _ Ht).
Qed.



(** C9.  Whatever the outcome of a threshold update request, a setpoint
    that the body does not name, or whose name is not one of the nine
    valid keys, reads after the request as it read before; for an active
    caller every valid setpoint the body names reads as the body's
    value. *)
Theorem threshold_update_frame (e : Env) (w : World) (tok : option UserId)
  (key : string) (updates : gmap string Z) (k : string) :
  let w' := fst (handle e w (mkRequest tok key (PUT_thresholds updates))) in
  (k ∉ validKeys \/ updates !! k = None ->
   setpoints (snd (getCurrent w')) !! k = setpoints (snd (getCurrent w)) !! k)
  /\ (forall id u v,
        tok = Some id -> users w !! id = Some u -> status u = active ->
        k ∈ validKeys -> updates !! k = Some v ->
        setpoints (snd (getCurrent w')) !! k = Some v).
Proof.
  intros w'. split.
  - intros Hk.
    destruct (put_thresholds_cases e w tok key updates) as [Hw|[r Hr]].
    + subst w'. by rewrite Hw.
    + pose proof (putThresholds_stored e w r updates) as Hst.
      rewrite <- Hr in Hst. fold w' in Hst.
      rewrite (getCurrent_stored _ _ Hst). simpl.
      rewrite applyUpdates_setpoints.
      destruct (updates !! k) as [v|] eqn:Hv; [|done].
      destruct Hk as [Hk|Hk]; [|discriminate].
      by rewrite bool_decide_eq_false_2.
  - intros id u v -> Hu Hs Hk Hv.
    assert (Hh : handle e w (mkRequest (Some id) key (PUT_thresholds updates))
                 = putThresholds e w (mkReq id u false) updates).
    { unfold handle. simpl token; simpl route.
      by rewrite (protect_active _ _ _ Hu Hs). }
    pose proof (putThresholds_stored e w (mkReq id u false) updates) as Hst.
    rewrite <- Hh in Hst. fold w' in Hst.
    rewrite (getCurrent_stored _ _ Hst). simpl.
    rewrite applyUpdates_setpoints, Hv. by rewrite bool_decide_eq_true_2.
Qed.

Lemma threshold_update_frame_witness :
  setpoints (snd (getCurrent
    (fst (handle piUp (farm active)
                 (as_ 1 (PUT_thresholds {["soil1" := 55%Z]})))))) !! "soil2"
  = setpoints (snd (getCurrent (farm active))) !! "soil2".
Proof.
  apply (threshold_update_frame piUp (farm active) (Some 1) ""
           {["soil1" := 55%Z]} "soil2").
  right. reflexivity.
Defined.

(** ** Presence *)

Lemma findByIdAndUpdate_lookup w id f u :
  users w !! id = Some u ->
  users (findByIdAndUpdate w id f) !! id = Some (f u).
Proof.
  intros H. unfold findByIdAndUpdate. simpl.
  by rewrite lookup_alter_eq, H.
Qed.

Lemma onConnection_lookup w s u :
  users w !! sock_userId s = Some u ->
  users (onConnection w s) !! sock_userId s
  = Some (setPresence true (Some (sock_id s)) u).
Proof.
  intros H. unfold onConnection. simpl.
  by rewrite lookup_alter_eq, H.
Qed.

Lemma onDisconnect_lookup w s u :
  users w !! sock_userId s = Some u ->
  users (onDisconnect w s) !! sock_userId s = Some (setPresence false None u).
Proof.
  intros H. unfold onDisconnect. simpl.
  by rewrite lookup_alter_eq, H.
Qed.

(** C6 (as found in the code).  After two connections of the same
    account the account is online and its one [socketId] is that of the
    second connection; the disconnection of the first connection then
    marks the account offline, clears its [socketId] and broadcasts
    user_offline. *)
Theorem reconnect_then_stale_disconnect (w : World) (uid : UserId)
  (u : User) (s1 s2 : Socket) :
  users w !! uid = Some u ->
  sock_userId s1 = uid ->
  sock_userId s2 = uid ->
  let w2 := onConnection (onConnection w s1) s2 in
  let w3 := onDisconnect w2 s1 in
  users w2 !! uid = Some (setPresence true (Some (sock_id s2)) u)
  /\ users w3 !! uid = Some (setPresence false None u)
  /\ outbox w3 =
       (outbox w2 ++
        [mkEmit ToAll "user_offline"
                (PresencePayload uid (sock_username s1))])%list.
Proof.
  intros Hu H1 H2 w2 w3. subst uid.
  pose proof (onConnection_lookup w s1 u Hu) as A1.
  rewrite <- H2 in A1.
  pose proof (onConnection_lookup _ s2 _ A1) as A2.
  rewrite H2 in A2. fold w2 in A2.
  pose proof (onDisconnect_lookup _ s1 _ A2) as A3. fold w3 in A3.
  split; [exact A2|]. split; [exact A3|]. reflexivity.
Qed.

Lemma reconnect_then_stale_disconnect_witness :
  users (onConnection (onConnection (farm active) socketA) socketB) !! 0
  = Some (setPresence true (Some "B") alice).
Proof.
  apply (reconnect_then_stale_disconnect (farm active) 0 alice socketA
           socketB); reflexivity.
Defined.

(** C6 (as stated) fails on the stale disconnect: alice connects as
    ["A"], then as ["B"]; when ["A"] closes she is marked offline and her
    mapping to ["B"] is gone. *)
Lemma stale_disconnect_marks_offline :
  let w2 := onConnection (onConnection (farm active) socketA) socketB in
  socketId <$> users w2 !! 0 = Some (Some "B")
  /\ isOnline <$> users w2 !! 0 = Some true
  /\ isOnline <$> users (onDisconnect w2 socketA) !! 0 = Some false
  /\ socketId <$> users (onDisconnect w2 socketA) !! 0 = Some None.
Proof. vm_compute. repeat split; reflexivity. Qed.

(** ** Ban of an online user *)

Lemma protect_admin w id u :
  users w !! id = Some u -> status u <> banned -> isAdmin u = true ->
  bind (protect w (Some id)) adminOnly =
    Continue (mkReq id u (bool_decide (status u = restricted))).
Proof.
  intros Hu Hs Ha. rewrite (protect_known _ _ _ Hu).
  rewrite bool_decide_eq_false_2 by done. simpl.
  unfold adminOnly. simpl. by rewrite Ha.
Qed.



(** ** Alerts from the Pi *)

Lemma broadcastAlert_spec w a :
  broadcastAlert w a =
    if severe a then emit w ToAll "system_alert" (AlertPayload a) else w.
Proof. unfold broadcastAlert, severe. by rewrite orb_comm. Qed.

(** The [forEach] over the inserted alerts emits the severe ones, in
    order, and touches nothing else. *)
Lemma foldl_broadcastAlert (l : list SystemAlert) :
  forall w,
    outbox (foldl broadcastAlert w l) =
      (outbox w ++ map alertEmission (List.filter severe l))%list
    /\ alerts (foldl broadcastAlert w l) = alerts w.
Proof.
  induction l as [|a l IH]; intros w; simpl.
  - by rewrite app_nil_r.
  - destruct (IH (broadcastAlert w a)) as [Ho Ha]. rewrite Ho, Ha.
    rewrite broadcastAlert_spec. destruct (severe a); simpl; [|done].
    by rewrite <- app_assoc.
Qed.

Lemma drop_length_app {A : Type} (l k : list A) : drop (length l) (l ++ k) = k.
Proof. by rewrite drop_app_length. Qed.

(** The two outcomes of the alerts route: nothing stored and nothing
    emitted, or the whole batch stored and its severe alerts emitted. *)
Lemma post_alerts_cases e w tok key body :
  let w' := fst (handle e w (mkRequest tok key (POST_pi_alerts body))) in
  (w' = w \/
   exists l, body = Some l
     /\ piAuth e key = Continue tt
     /\ forallb validAlert (map (toAlert e) l) = true
     /\ alerts w' = (alerts w ++ map (toAlert e) l)%list
     /\ outbox w' =
          (outbox w ++
           map alertEmission (List.filter severe (map (toAlert e) l)))%list).
Proof.
  unfold handle. simpl apiKey; simpl route.
  destruct (piAuth e key) as [res|[]]; simpl; [by left|].
  unfold postAlerts. destruct body as [l|]; simpl; [|by left].
  destruct (forallb validAlert (map (toAlert e) l)) eqn:Hv; simpl; [|by left].
  right. exists l. repeat split; try done.
  - by rewrite (proj2 (foldl_broadcastAlert _ _)).
  - by rewrite (proj1 (foldl_broadcastAlert _ _)).
Qed.

Lemma post_alerts_accepted e w tok key l :
  key <> "" -> key = PI_API_KEY e ->
  forallb validAlert (map (toAlert e) l) = true ->
  let w' := fst (handle e w (mkRequest tok key (POST_pi_alerts (Some l)))) in
  alerts w' = (alerts w ++ map (toAlert e) l)%list
  /\ outbox w' =
       (outbox w ++
        map alertEmission (List.filter severe (map (toAlert e) l)))%list.
Proof.
  intros Hk1 Hk2 Hv. unfold handle. simpl apiKey; simpl route.
  unfold piAuth. rewrite bool_decide_eq_false_2 by done.
  rewrite bool_decide_eq_true_2 by done. simpl.
  unfold postAlerts. rewrite Hv. simpl. split.
  - by rewrite (proj2 (foldl_broadcastAlert _ _)).
  - by rewrite (proj1 (foldl_broadcastAlert _ _)).
Qed.

Lemma alertEmission_inj a b : alertEmission a = alertEmission b -> a = b.
Proof. by intros [= ->]. Qed.

Lemma severe_levels a :
  severe a = true <-> level a = "ERROR" \/ level a = "CRITICAL".
Proof.
  unfold severe. rewrite orb_true_iff, !bool_decide_eq_true. tauto.
Qed.

Lemma elem_of_alert_emissions (l : list SystemAlert) a :
  alertEmission a ∈ map alertEmission (List.filter severe l)
  <-> a ∈ l /\ severe a = true.
Proof.
  rewrite !list_elem_of_In, in_map_iff. split.
  - intros (b & Hb & Hin). apply alertEmission_inj in Hb. subst b.
    by apply filter_In in Hin.
  - intros [Hin Hs]. exists a. split; [done|]. by apply filter_In.
Qed.

(** C8.  For every alerts request: the request emits, in the order of
    the batch, one system_alert broadcast per alert it stored whose
    level is ERROR or CRITICAL, and nothing else; so an alert it stored
    is broadcast if and only if its level is ERROR or CRITICAL, and
    never when its level is INFO or WARNING.  With the right API key and
    a batch of valid alerts, the alerts stored are those of the batch. *)
Theorem alerts_broadcast_filter (e : Env) (w : World) (tok : option UserId)
  (key : string) (body : option (list AlertInput)) :
  let w' := fst (handle e w (mkRequest tok key (POST_pi_alerts body))) in
  alerts w' = (alerts w ++ newAlerts w w')%list
  /\ outbox w' = (outbox w ++ newEmissions w w')%list
  /\ newEmissions w w' = map alertEmission (List.filter severe (newAlerts w w'))
  /\ (forall a, a ∈ newAlerts w w' ->
        (alertEmission a ∈ newEmissions w w'
         <-> level a = "ERROR" \/ level a = "CRITICAL")
        /\ (level a = "INFO" \/ level a = "WARNING" ->
            alertEmission a ∉ newEmissions w w'))
  /\ (forall l, body = Some l -> key <> "" -> key = PI_API_KEY e ->
        forallb validAlert (map (toAlert e) l) = true ->
        newAlerts w w' = map (toAlert e) l).
Proof.
  intros w'.
  assert (Hcore :
    alerts w' = (alerts w ++ newAlerts w w')%list
    /\ outbox w' = (outbox w ++ newEmissions w w')%list
    /\ newEmissions w w'
       = map alertEmission (List.filter severe (newAlerts w w'))).
  { destruct (post_alerts_cases e w tok key body)
      as [Hw|(l & _ & _ & _ & Ha & Ho)].
    - fold w' in Hw. unfold newAlerts, newEmissions. rewrite Hw.
      rewrite !drop_all. simpl. by rewrite !app_nil_r.
    - fold w' in Ha, Ho. unfold newAlerts, newEmissions. rewrite Ha, Ho.
      by rewrite !drop_length_app. }
  destruct Hcore as (Ha & Ho & Hn).
  split; [exact Ha|]. split; [exact Ho|]. split; [exact Hn|]. split.
  - intros a Hin. rewrite Hn, elem_of_alert_emissions, severe_levels.
    split; [tauto|].
    intros [Hl|Hl] [_ [Hx|Hx]]; rewrite Hl in Hx; discriminate.
  - intros l -> Hk1 Hk2 Hv.
    destruct (post_alerts_accepted e w tok key l Hk1 Hk2 Hv) as [Hal _].
    fold w' in Hal. unfold newAlerts. rewrite Hal.
    by rewrite drop_length_app.
Qed.

Lemma alerts_broadcast_filter_witness :
  newEmissions emptyWorld (fst (handle piUp emptyWorld alertsRequest))
  = [alertEmission (toAlert piUp overheating)].
Proof.
  destruct (alerts_broadcast_filter piUp emptyWorld None "key"
              (Some [overheating; tankRefilled]))
    as (_ & _ & Hn & _ & Hacc).
  unfold alertsRequest. rewrite Hn.
  rewrite (Hacc [overheating; tankRefilled] eq_refl ltac:(discriminate)
             eq_refl eq_refl).
  reflexivity.
Defined.

(** ** Registration *)

Lemma register_accepted w name mail pass :
  registrable w name mail pass = true ->
  users (fst (register w name mail pass))
  = <[nextId w := registeredUser w name mail pass]> (users w)
  /\ statusCode (snd (register w name mail pass)) = 201
  /\ data (snd (register w name mail pass))
     = TokenData (nextId w)
         (toSafeObject (nextId w) (registeredUser w name mail pass)).
Proof.
  unfold registrable, register, createUser, registeredUser, firstUserRole.
  destruct (bool_decide (name = "")), (bool_decide (mail = "")),
    (bool_decide (pass = "")); simpl; try discriminate.
  destruct (findUser w (fun _ u => _ || _)); simpl; try discriminate.
  destruct (validUsername _), (validEmail _), (validPassword _); simpl;
    try discriminate.
  destruct (duplicateKey w None username _); simpl; try discriminate.
  destruct (duplicateKey w None email _); simpl; try discriminate.
  done.
Qed.

Lemma register_rejected w name mail pass :
  registrable w name mail pass = false ->
  fst (register w name mail pass) = w
  /\ success (snd (register w name mail pass)) = false
  /\ statusCode (snd (register w name mail pass)) <> 201.
Proof.
  unfold registrable, register, createUser.
  destruct (bool_decide (name = "")), (bool_decide (mail = "")),
    (bool_decide (pass = "")); simpl; try done.
  destruct (findUser w (fun _ u => _ || _)); simpl; try done.
  destruct (validUsername _), (validEmail _), (validPassword _); simpl;
    try done.
  destruct (duplicateKey w None username _); simpl; try done.
  destruct (duplicateKey w None email _); simpl; try done.
Qed.

(** ** The user collection never becomes empty again *)

Lemma alter_non_empty (f : User -> User) (i : UserId)
  (m : gmap UserId User) : m ≠ ∅ -> alter f i m ≠ ∅.
Proof.
  intros Hm Ha. apply Hm. apply map_empty. intros k.
  assert (Hk : alter f i m !! k = None) by (rewrite Ha; apply lookup_empty).
  destruct (decide (i = k)) as [->|Hne].
  - rewrite lookup_alter_eq in Hk. by destruct (m !! k).
  - by rewrite lookup_alter_ne in Hk.
Qed.

Lemma lookup_non_empty (m : gmap UserId User) k v : m !! k = Some v -> m ≠ ∅.
Proof. intros H ->. by rewrite lookup_empty in H. Qed.

Lemma usersStep_non_empty w w' :
  usersStep w w' -> users w ≠ ∅ -> users w' ≠ ∅.
Proof.
  intros [H|k v H|k c cu H Hne Hc] Hw; rewrite H.
  - done.
  - apply insert_non_empty.
  - apply (lookup_non_empty _ c cu). by rewrite lookup_delete_ne.
Qed.

Lemma protect_continue w tok r :
  protect w tok = Continue r -> users w !! req_id r = Some (req_user r).
Proof.
  unfold protect. destruct tok as [id|]; [|discriminate].
  destruct (users w !! id) as [u|] eqn:Hu; [|discriminate].
  case_bool_decide; [discriminate|]. by intros [= <-].
Qed.

Lemma allowWrite_continue r r' : allowWrite r = Continue r' -> r' = r.
Proof. unfold allowWrite. destruct (isRestricted r); congruence. Qed.

Lemma adminOnly_continue r r' :
  adminOnly r = Continue r' -> r' = r /\ isAdmin (req_user r) = true.
Proof.
  unfold adminOnly. destruct (isAdmin (req_user r)); simpl; [|discriminate].
  by intros [= <-].
Qed.

Lemma headAdminOnly_continue r r' : headAdminOnly r = Continue r' -> r' = r.
Proof. unfold headAdminOnly. destruct (negb _); congruence. Qed.

Lemma foldl_broadcastAlert_users (l : list SystemAlert) :
  forall w, users (foldl broadcastAlert w l) = users w.
Proof.
  induction l as [|a l IH]; intros w; simpl; [done|].
  rewrite IH. unfold broadcastAlert. by destruct (_ || _).
Qed.

Lemma putThresholds_users e w r updates :
  users (fst (putThresholds e w r updates)) = users w.
Proof.
  unfold putThresholds, getCurrent.
  destruct (thresholds w); simpl;
    destruct (applyUpdates _ _); simpl; by destruct (pi e).
Qed.

Lemma deleteUser_users w r id :
  users w !! req_id r = Some (req_user r) ->
  isAdmin (req_user r) = true ->
  usersStep w (fst (deleteUser w r id)).
Proof.
  intros Hr Ha. unfold deleteUser.
  destruct (users w !! id) as [t|] eqn:Ht; [|by apply usersSame].
  destruct (bool_decide (role t = head_admin)) eqn:Hh; [by apply usersSame|].
  destruct (bool_decide (role t = admin) && _) eqn:Hx; [by apply usersSame|].
  simpl. apply (usersDeleted _ _ id (req_id r) (req_user r)); [done| |done].
  intros Heq. rewrite Heq, Ht in Hr. injection Hr as ->.
  unfold isAdmin in Ha. rewrite Hh, orb_false_r in Ha. rewrite Ha in Hx.
  apply bool_decide_eq_true in Ha. simpl in Hx.
  apply negb_false_iff, bool_decide_eq_true in Hx.
  apply bool_decide_eq_false in Hh. contradiction.
Qed.

Ltac users_step :=
  repeat (simpl;
          first [ by apply usersSame
                | by eapply usersStored
                | match goal with
                  | |- context [match ?x with _ => _ end] => destruct x
                  end ]).

Lemma register_users w name mail pass :
  usersStep w (fst (register w name mail pass)).
Proof.
  destruct (registrable w name mail pass) eqn:Hreg.
  - eapply usersStored. apply (register_accepted _ _ _ _ Hreg).
  - apply usersSame. by rewrite (proj1 (register_rejected _ _ _ _ Hreg)).
Qed.

Lemma postAlerts_users e w body : usersStep w (fst (postAlerts e w body)).
Proof.
  unfold postAlerts. destruct body as [l|]; [|by apply usersSame].
  destruct (forallb _ _); simpl; [|by apply usersSame].
  apply usersSame. by rewrite foldl_broadcastAlert_users.
Qed.

Lemma behind_users {A : Type} w (m : Next A) (h : A -> World * Response) :
  (forall a, m = Continue a -> usersStep w (fst (h a))) ->
  usersStep w (fst (behind w m h)).
Proof.
  intros H. destruct m as [res|a]; simpl; [by apply usersSame|].
  by apply H.
Qed.

Lemma bind_continue {A B : Type} (m : Next A) (k : A -> Next B) b :
  bind m k = Continue b -> exists a, m = Continue a /\ k a = Continue b.
Proof. destruct m as [res|a]; simpl; [discriminate|]. eauto. Qed.

(** Every route changes the user collection in one of the three ways. *)
Lemma handle_users e w q : usersStep w (fst (handle e w q)).
Proof.
  unfold handle. destruct (route q).
  - apply register_users.
  - apply behind_users. intros r _. by apply usersSame.
  - apply behind_users. intros r _. unfold changePassword. users_step.
  - apply behind_users. intros r _. unfold getThresholds, getCurrent.
    destruct (thresholds w); by apply usersSame.
  - apply behind_users. intros r _. apply usersSame.
    apply putThresholds_users.
  - apply behind_users. intros r _. unfold control. users_step.
  - apply behind_users. intros r _. unfold auto_. users_step.
  - apply behind_users. intros r _. unfold putUsername. users_step.
  - apply behind_users. intros r _. unfold putTheme. users_step.
  - apply behind_users. intros r _. by apply usersSame.
  - apply behind_users. intros r Hr.
    apply bind_continue in Hr as (r0 & Hp & Ha).
    apply adminOnly_continue in Ha as [-> Ha].
    apply deleteUser_users; [by apply (protect_continue _ _ _ Hp)|done].
  - apply behind_users. intros r _. unfold ban. users_step.
  - apply behind_users. intros r _. unfold restrict. users_step.
  - apply behind_users. intros r _. unfold promote. users_step.
  - apply behind_users. intros r _. unfold demote. users_step.
  - apply behind_users. intros r _. apply postAlerts_users.
Qed.

Lemma step_users w ev : users w ≠ ∅ -> users (fst (step w ev)) ≠ ∅.
Proof.
  intros Hw. destruct ev as [e q|tok id|s]; simpl.
  - pose proof (handle_users e w q) as Hs.
    destruct (handle e w q) as [w' res]. simpl in *.
    by apply (usersStep_non_empty w w').
  - destruct (ioUse w tok id); simpl; [|done]. by apply alter_non_empty.
  - by apply alter_non_empty.
Qed.

Lemma firstUserRole_empty w : users w = ∅ -> firstUserRole w = head_admin.
Proof. intros H. unfold firstUserRole. by rewrite H, map_size_empty. Qed.

Lemma firstUserRole_non_empty w : users w ≠ ∅ -> firstUserRole w = user.
Proof.
  intros H. unfold firstUserRole.
  destruct (size (users w)) eqn:Hsz; [|done].
  by apply map_size_empty_iff in Hsz.
Qed.

(** A registration that makes a head admin starts from an empty user
    collection and leaves a non-empty one. *)
Lemma grantsHeadAdmin_empty w ev :
  grantsHeadAdmin ev (snd (step w ev)) = true ->
  users w = ∅ /\ users (fst (step w ev)) ≠ ∅.
Proof.
  destruct ev as [e [tok key r]|tok id|s]; simpl.
  - destruct r; try (destruct (handle _ _ _); simpl; discriminate).
    unfold handle. simpl route.
    destruct (register w name mail pass) as [w' res] eqn:Hreg. simpl.
    intros Hg. apply andb_true_iff in Hg as [Hcode Hrole].
    apply Nat.eqb_eq in Hcode.
    destruct (registrable w name mail pass) eqn:Hok.
    + destruct (register_accepted _ _ _ _ Hok) as (Hus & _ & Hdata).
      rewrite Hreg in Hus, Hdata. simpl in Hus, Hdata.
      rewrite Hdata in Hrole. apply bool_decide_eq_true in Hrole.
      simpl in Hrole. split.
      * destruct (decide (users w = ∅)) as [|Hne]; [done|].
        rewrite (firstUserRole_non_empty _ Hne) in Hrole. discriminate.
      * rewrite Hus. apply insert_non_empty.
    + destruct (register_rejected _ _ _ _ Hok) as (_ & _ & Hn).
      rewrite Hreg in Hn. simpl in Hn. contradiction.
  - destruct (ioUse w tok id); simpl; discriminate.
  - discriminate.
Qed.

Lemma run_after_first evs : forall w, users w ≠ ∅ -> snd (run w evs) = 0.
Proof.
  induction evs as [|ev evs IH]; intros w Hw; simpl; [done|].
  pose proof (step_users w ev Hw) as Hs.
  pose proof (grantsHeadAdmin_empty w ev) as Hg.
  destruct (step w ev) as [w1 res]. simpl in *.
  specialize (IH w1 Hs). destruct (run w1 evs) as [w2 n]. simpl in *.
  destruct (grantsHeadAdmin ev res); [|lia].
  destruct (Hg eq_refl) as [He _]. contradiction.
Qed.

Lemma run_at_most_one evs : forall w, snd (run w evs) <= 1.
Proof.
  induction evs as [|ev evs IH]; intros w; simpl; [lia|].
  pose proof (grantsHeadAdmin_empty w ev) as Hg.
  destruct (step w ev) as [w1 res]. simpl in *.
  specialize (IH w1). pose proof (run_after_first evs w1) as Hz.
  destruct (run w1 evs) as [w2 n]. simpl in *.
  destruct (grantsHeadAdmin ev res); [|lia].
  destruct (Hg eq_refl) as [_ Hne]. rewrite (Hz Hne). lia.
Qed.

(** Registrations handled one at a time.  A registration is answered
    201 exactly when its input passes the checks of the route and of the
    schema; it then stores one new account, whose role is head_admin
    when no account existed and user when at least one did.  In every
    sequence of requests, handshakes and disconnections in which each
    handler ends before the next starts, from any store, at most one
    registration makes a head admin. *)
Theorem registrations_in_turn :
  (forall e w name mail pass,
     let out := handle e w (registerRequest name mail pass) in
     let u := registeredUser w name mail pass in
     (statusCode (snd out) = 201 <-> registrable w name mail pass = true)
     /\ (registrable w name mail pass = true ->
         users (fst out) = <[nextId w := u]> (users w)
         /\ users (fst out) !! nextId w = Some u
         /\ data (snd out) = TokenData (nextId w) (toSafeObject (nextId w) u)
         /\ (size (users w) = 0 -> role u = head_admin)
         /\ (size (users w) >= 1 -> role u = user)))
  /\ (forall w evs, snd (run w evs) <= 1).
Proof.
  split; [|intros w evs; apply run_at_most_one].
  intros e w name mail pass out u.
  assert (Hout : out = register w name mail pass) by reflexivity.
  rewrite Hout. split.
  - split.
    + intros Hc. destruct (registrable w name mail pass) eqn:Hok; [done|].
      by destruct (register_rejected _ _ _ _ Hok) as (_ & _ & Hn).
    + intros Hok. by destruct (register_accepted _ _ _ _ Hok) as (_ & ? & _).
  - intros Hok. destruct (register_accepted _ _ _ _ Hok) as (Hus & _ & Hd).
    fold u in Hus, Hd. split; [exact Hus|]. split.
    { rewrite Hus. apply lookup_insert_eq. }
    split; [exact Hd|]. split.
    + intros Hsz. apply firstUserRole_empty. by apply map_size_empty_iff.
    + intros Hsz. apply firstUserRole_non_empty. intros He.
      rewrite He, map_size_empty in Hsz. lia.
Qed.

Lemma registrations_in_turn_witness :
  role (registeredUser emptyWorld "dave" "dave@farm.io" "hunter22")
  = head_admin
  /\ role (registeredUser (farm active) "dave" "dave@farm.io" "hunter22")
     = user.
Proof.
  destruct registrations_in_turn as [Hreg _]. split.
  - destruct (Hreg piUp emptyWorld "dave" "dave@farm.io" "hunter22")
      as [_ H].
    destruct (H eq_refl) as (_ & _ & _ & Hhead & _).
    apply Hhead. reflexivity.
  - destruct (Hreg piUp (farm active) "dave" "dave@farm.io" "hunter22")
      as [_ H].
    destruct (H eq_refl) as (_ & _ & _ & _ & Huser).
    apply Huser. vm_compute. lia.
Defined.

(** The first two registrations on an empty store: dave becomes head
    admin, erin a user. *)
Example two_registrations :
  let w1 := fst (handle piUp emptyWorld
                        (registerRequest "dave" "dave@farm.io" "hunter22")) in
  let w2 := fst (handle piUp w1
                        (registerRequest "erin" "erin@farm.io" "hunter23")) in
  role <$> users w2 !! 0 = Some head_admin
  /\ role <$> users w2 !! 1 = Some user
  /\ snd (run emptyWorld
            [Http piUp (registerRequest "dave" "dave@farm.io" "hunter22");
             Http piUp (registerRequest "erin" "erin@farm.io" "hunter23")])
     = 1.
Proof. vm_compute. repeat split; reflexivity. Qed.

(** ** Two registrations whose handlers overlap *)

Lemma findUser_false w (P : UserId -> User -> bool) :
  (forall id u, users w !! id = Some u -> P id u = false) ->
  findUser w P = false.
Proof.
  intros H. unfold findUser. apply not_true_is_false. intros Hex.
  apply existsb_exists in Hex as ([id u] & Hin & HP). simpl in HP.
  apply list_elem_of_In, elem_of_map_to_list in Hin.
  rewrite (H id u Hin) in HP. discriminate.
Qed.

Lemma findUser_empty w (P : UserId -> User -> bool) :
  users w = ∅ -> findUser w P = false.
Proof.
  intros Hw. apply findUser_false. intros id u.
  by rewrite Hw, lookup_empty.
Qed.

(** [register] is the handler resumed four times with nothing in
    between. *)
Lemma register_uninterrupted w name mail pass :
  registerRun 4 w (registerStart name mail pass)
  = (fst (register w name mail pass), Sent (snd (register w name mail pass))).
Proof.
  unfold registerStart, register.
  destruct (bool_decide (name = "") || bool_decide (mail = "")
            || bool_decide (pass = "")); [reflexivity|].
  simpl. destruct (findUser w _); [reflexivity|].
  simpl. destruct (createUser w name mail pass _) as [[[w1 id] u]|];
    reflexivity.
Qed.

Lemma registerRun_counted w name mail pass :
  users w = ∅ ->
  registerRun 2 w (registerStart name mail pass)
  = (w, snd (registerRun 2 w (registerStart name mail pass)))
  /\ counted (snd (registerRun 2 w (registerStart name mail pass))).
Proof.
  intros Hw. unfold registerStart.
  destruct (_ || _); [done|]. simpl.
  rewrite (findUser_empty w _ Hw). simpl.
  by rewrite Hw, map_size_empty.
Qed.

Lemma registerResume_counted w k :
  counted k -> allHeadAdmins w ->
  allHeadAdmins (fst (registerResume w k))
  /\ counted (snd (registerResume w k)).
Proof.
  destruct k as [| |name mail pass r|id u r|res]; simpl; try done.
  intros -> Hall. unfold createUser.
  destruct (_ && _); simpl; [|done]. split; [|done].
  intros id u Hu. simpl in Hu.
  apply lookup_insert_Some in Hu as [[_ <-]|[_ Hu]]; [done|].
  by apply (Hall id u).
Qed.

Lemma resume_settled s t : settled s -> settled (resume s t).
Proof.
  destruct s as [[w a] b]. intros (Hw & Ha & Hb). simpl in *.
  destruct t; simpl.
  - destruct (registerResume_counted w a Ha Hw) as [Hw' Ha'].
    destruct (registerResume w a) as [w1 a1]. by repeat split.
  - destruct (registerResume_counted w b Hb Hw) as [Hw' Hb'].
    destruct (registerResume w b) as [w1 b1]. by repeat split.
Qed.

Lemma foldl_resume_settled turns : forall s,
  settled s -> settled (foldl resume s turns).
Proof.
  induction turns as [|t turns IH]; intros s Hs; simpl; [done|].
  by apply IH, resume_settled.
Qed.

(** Once both handlers have counted the accounts of an empty
    collection, every account that is created, in whatever order the
    handlers go on, is a head admin. *)
Lemma overlap_after_count (w : World) (n1 m1 p1 n2 m2 p2 : string)
  (turns : list Turn) :
  users w = ∅ ->
  allHeadAdmins
    (fst (fst (overlap w (registerStart n1 m1 p1) (registerStart n2 m2 p2)
                 ([First; First; Second; Second] ++ turns)%list))).
Proof.
  intros Hw.
  destruct (registerRun_counted w n1 m1 p1 Hw) as [Ha Hca].
  destruct (registerRun_counted w n2 m2 p2 Hw) as [Hb Hcb].
  unfold overlap. rewrite foldl_app.
  apply foldl_resume_settled.
  simpl foldl. unfold resume. simpl in Ha, Hb, Hca, Hcb.
  destruct (registerResume w (registerStart n1 m1 p1)) as [wa ka].
  destruct (registerResume wa ka) as [wa' ka'].
  injection Ha as ->. simpl in Hca.
  destruct (registerResume w (registerStart n2 m2 p2)) as [wb kb].
  destruct (registerResume wb kb) as [wb' kb'].
  injection Hb as ->. simpl in Hcb.
  split; [|by split]. intros id u Hu. simpl in Hu.
  by rewrite Hw, lookup_empty in Hu.
Qed.

(** C10.  Two registrations reach an empty database and the handler of
    the second starts before the first has created its account.  Both
    handlers find no account and count none, so whatever the two inputs
    and however the handlers go on, every account created is a head
    admin.  With two inputs that are both accepted, dave's account is
    stored first, erin's is created while it exists, and both are head
    admins and both callers are told so: two accounts obtain head_admin
    through registration. *)
Theorem overlapping_first_registrations :
  (forall (w : World) (n1 m1 p1 n2 m2 p2 : string) (turns : list Turn),
     users w = ∅ ->
     allHeadAdmins
       (fst (fst (overlap w (registerStart n1 m1 p1)
                          (registerStart n2 m2 p2)
                          ([First; First; Second; Second] ++ turns)%list))))
  /\ let dave := registerStart "dave" "dave@farm.io" "hunter22" in
     let erin := registerStart "erin" "erin@farm.io" "hunter23" in
     let '(w1, _, _) :=
       overlap emptyWorld dave erin
               [First; First; Second; Second; First; First] in
     let '(w2, a, b) :=
       overlap emptyWorld dave erin
               [First; First; Second; Second; First; First; Second; Second] in
     size (users w1) = 1
     /\ size (users w2) = 2
     /\ role <$> users w2 !! 0 = Some head_admin
     /\ role <$> users w2 !! 1 = Some head_admin
     /\ a = Sent (sendTokenResponse
                    0 (mkUser "dave" "dave@farm.io" (bcrypt "hunter22")
                              head_admin active "light" None false None)
                    201
                    "Account created successfully. You are the Head Admin!")
     /\ b = Sent (sendTokenResponse
                    1 (mkUser "erin" "erin@farm.io" (bcrypt "hunter23")
                              head_admin active "light" None false None)
                    201
                    "Account created successfully. You are the Head Admin!")
     /\ activity w2
        = [mkLog 0 "dave" "user_created" (RoleDetails head_admin);
           mkLog 1 "erin" "user_created" (RoleDetails head_admin)].
Proof.
  split.
  - intros w n1 m1 p1 n2 m2 p2 turns Hw. by apply overlap_after_count.
  - vm_compute. repeat split; reflexivity.
Qed.

Lemma overlapping_first_registrations_witness :
  allHeadAdmins
    (fst (fst (overlap emptyWorld
                 (registerStart "dave" "dave@farm.io" "hunter22")
                 (registerStart "erin" "erin@farm.io" "hunter23")
                 [First; First; Second; Second; Second; Second;
                  First; First]))).
Proof.
  exact (proj1 overlapping_first_registrations emptyWorld
           "dave" "dave@farm.io" "hunter22" "erin" "erin@farm.io" "hunter23"
           [Second; Second; First; First] eq_refl).
Defined.

(* ================================================================== *)
(** * Further properties *)
(* ================================================================== *)

(** ** Who gets past the middleware *)

Lemma refused_by_protect e w q res :
  isPublic (route q) = false ->
  protect w (token q) = Reply res ->
  handle e w q = (w, res).
Proof.
  intros Hpub Hp. unfold handle. rewrite Hp.
  destruct (route q); try discriminate Hpub; reflexivity.
Qed.

(** X1.  A request with no usable token, or whose token names an
    account that is not stored, is answered 401 and changes nothing, on
    each of these routes: the caller's own account and the password
    change of the auth router, the logout, the thresholds read and
    write, the actuator command and the return to automatic control,
    the three settings routes, and the delete, ban, restrict, promote
    and demote of the admin router. *)
Theorem unauthenticated_refused (e : Env) (w : World) (q : Request) :
  isPublic (route q) = false ->
  (token q = None ->
   handle e w q = (w, unauthorized)
   /\ handleLogout w None = (w, unauthorized))
  /\ (forall id, users w !! id = None ->
      (token q = Some id -> handle e w q = (w, userGone))
      /\ handleLogout w (Some id) = (w, userGone)).
Proof.
  intros Hpub. split.
  - intros Ht. split; [|done]. apply refused_by_protect; [done|].
    by rewrite Ht.
  - intros id Hid. split.
    + intros Ht. apply refused_by_protect; [done|].
      rewrite Ht. unfold protect. by rewrite Hid.
    + unfold handleLogout, protect. by rewrite Hid.
Qed.

Lemma unauthenticated_refused_witness :
  handle piUp (farm active) (mkRequest (Some 7) "" (PUT_settings_theme "dark"))
  = (farm active, userGone).
Proof.
  exact (proj1 (proj2 (unauthenticated_refused piUp (farm active)
                         (mkRequest (Some 7) "" (PUT_settings_theme "dark"))
                         eq_refl) 7 eq_refl) eq_refl).
Defined.

(** X2.  A banned account is answered 403 by every route behind
    [protect], reads included, and changes nothing; its socket handshake
    is refused. *)
Theorem banned_locked_out (e : Env) (w : World) (q : Request) (id : UserId)
  (u : User) :
  users w !! id = Some u ->
  status u = banned ->
  (token q = Some id -> isPublic (route q) = false ->
   handle e w q = (w, accountBanned))
  /\ (forall sid, ioUse w (Some id) sid = None)
  /\ (forall sid, step w (Handshake (Some id) sid) = (w, None)).
Proof.
  intros Hu Hs.
  assert (Hio : forall sid, ioUse w (Some id) sid = None).
  { intros sid. unfold ioUse. by rewrite Hu, Hs. }
  split; [|split; [exact Hio|]].
  - intros Ht Hpub. apply refused_by_protect; [done|].
    rewrite Ht, (protect_known _ _ _ Hu), Hs. reflexivity.
  - intros sid. unfold step. by rewrite Hio.
Qed.

Lemma banned_locked_out_witness :
  handle piUp (farm banned) (as_ 1 GET_thresholds)
  = (farm banned, accountBanned).
Proof.
  apply (banned_locked_out piUp (farm banned) (as_ 1 GET_thresholds) 1
           (bob banned)); reflexivity.
Defined.

(** X3.  The routes of the admin router change nothing and answer 403
    to a caller of role user; promote and demote do the same to a caller
    of role admin. *)
Theorem admin_routes_need_role (e : Env) (w : World) (q : Request)
  (id : UserId) (u : User) :
  token q = Some id ->
  users w !! id = Some u ->
  (role u = user -> isAdminRoute (route q) = true ->
   fst (handle e w q) = w /\ statusCode (snd (handle e w q)) = 403)
  /\ (role u = admin -> isHeadAdminRoute (route q) = true ->
      fst (handle e w q) = w /\ statusCode (snd (handle e w q)) = 403).
Proof.
  intros Ht Hu.
  split; intros Hro Hr; unfold handle;
    rewrite Ht, (protect_known _ _ _ Hu); case_bool_decide;
    destruct (route q); try discriminate Hr;
    unfold bind, adminOnly, headAdminOnly, isAdmin, isHeadAdmin;
    simpl req_user; repeat (rewrite Hro; simpl); auto.
Qed.

Lemma admin_routes_need_role_witness :
  fst (handle piUp (farm active) (as_ 1 (DELETE_admin_users 2)))
  = farm active
  /\ statusCode (snd (handle piUp (farm active)
                             (as_ 1 (DELETE_admin_users 2)))) = 403.
Proof.
  exact (proj1 (admin_routes_need_role piUp (farm active)
                  (as_ 1 (DELETE_admin_users 2)) 1 (bob active)
                  eq_refl eq_refl) eq_refl eq_refl).
Defined.

(** ** Actuator commands *)

(** X4.  Whatever the body's [pwm] is (a number, a string, [null], a
    boolean, or nothing), the [pwm] of the relayed command is absent,
    [NaN] or an integer of 0..255; it is [NaN] exactly when the actuator
    takes a pwm and [parseInt] finds no number in the value, and absent
    exactly when the body has none or the actuator takes none. *)
Theorem relayed_pwm_sendable (actuator : string) (pwm : option Js.Value) :
  pwmSendable (commandPwm actuator pwm)
  /\ (commandPwm actuator pwm = Some Js.NaN
      <-> pwmCapable actuator = true
          /\ exists v, pwm = Some v /\ Js.parseInt v = Js.NaN)
  /\ (commandPwm actuator pwm = None
      <-> pwm = None \/ pwmCapable actuator = false).
Proof.
  unfold commandPwm, pwmCapable, pwmSendable.
  destruct pwm as [v|]; [|split; [done|split; split; try done; auto]].
  2:{ intros (_ & v & [=] & _). }
  destruct (_ || _); simpl.
  - destruct (Js.parseInt v) as [|z] eqn:Hp; simpl.
    + split; [done|]. split; split; try done; eauto.
      intros [[=]|[=]].
    + split; [lia|]. split; split; try done.
      * intros (_ & v' & [= <-] & Hn). congruence.
      * intros [[=]|[=]].
  - split; [done|]. split; split; try done; auto.
    intros ([=] & _).
Qed.

(** X5.  An actuator command whose actuator is missing or not one of
    the six, or whose state is not a boolean, is answered 400 and
    changes nothing: no call to the Pi, no log entry, no broadcast. *)
Theorem invalid_command_rejected (e : Env) (w : World) (id : UserId)
  (u : User) (actuator : string) (state pwm : option Js.Value) :
  users w !! id = Some u ->
  status u = active ->
  includes validActuators actuator = false
  \/ (forall b, state <> Some (Js.Bool b)) ->
  fst (handle e w (as_ id (POST_manual_control actuator state pwm))) = w
  /\ statusCode (snd (handle e w (as_ id (POST_manual_control actuator state
                                            pwm)))) = 400.
Proof.
  intros Hu Hs Hbad. unfold as_, handle. simpl token; simpl route.
  rewrite (protect_active _ _ _ Hu Hs). simpl. unfold control.
  destruct (bool_decide (actuator = "") || negb (includes _ _)) eqn:Ha;
    [done|].
  destruct Hbad as [Hi|Hst].
  - rewrite Hi in Ha. by rewrite orb_true_r in Ha.
  - destruct state as [[| b | |]|]; try done. by destruct (Hst b).
Qed.

Lemma invalid_command_rejected_witness :
  fst (handle piUp (farm active)
              (as_ 1 (POST_manual_control "heater" (Some (Js.Bool true))
                                          None)))
  = farm active.
Proof.
  apply (invalid_command_rejected piUp (farm active) 1 (bob active) "heater"
           (Some (Js.Bool true)) None eq_refl eq_refl).
  left. reflexivity.
Defined.

Lemma relayed_pwm_sendable_witness :
  commandPwm "fan_exhaust" (Some (Js.Str "fast")) = Some Js.NaN.
Proof.
  apply (proj1 (proj2 (relayed_pwm_sendable "fan_exhaust"
                         (Some (Js.Str "fast"))))).
  split; [reflexivity|]. exists (Js.Str "fast"). split; reflexivity.
Defined.

(** ** Alerts: a batch is taken whole or not at all *)

(** X6.  An alerts request is refused, and then stores and broadcasts
    nothing, when the API key is missing (401) or wrong (403), when the
    body has no alerts array (400), and when one alert of the batch
    fails the schema (500), whatever the other alerts of the batch are. *)
Theorem alerts_all_or_nothing (e : Env) (w : World) (tok : option UserId)
  (key : string) (body : option (list AlertInput)) :
  let out := handle e w (mkRequest tok key (POST_pi_alerts body)) in
  (key = "" -> out = (w, fail 401 "API key required"))
  /\ (key <> "" -> key <> PI_API_KEY e ->
      out = (w, fail 403 "Invalid API key"))
  /\ (key <> "" -> key = PI_API_KEY e -> body = None ->
      out = (w, fail 400 "Alerts array required"))
  /\ (forall l a, key <> "" -> key = PI_API_KEY e -> body = Some l ->
      a ∈ l -> validAlert (toAlert e a) = false ->
      out = (w, fail 500 "Failed to save alerts")).
Proof.
  intros out. subst out. unfold handle. simpl apiKey; simpl route.
  unfold piAuth. repeat split.
  - intros ->. reflexivity.
  - intros Hk Hne. rewrite !bool_decide_eq_false_2 by done. reflexivity.
  - intros Hk He ->. rewrite bool_decide_eq_false_2 by done.
    rewrite bool_decide_eq_true_2 by done. reflexivity.
  - intros l a Hk He -> Hin Hbad. rewrite bool_decide_eq_false_2 by done.
    rewrite bool_decide_eq_true_2 by done. simpl. unfold postAlerts.
    assert (Hall : forallb validAlert (map (toAlert e) l) = false).
    { apply not_true_is_false. intros Hall.
      rewrite forallb_forall in Hall.
      rewrite (Hall (toAlert e a)) in Hbad; [discriminate|].
      apply in_map. by apply list_elem_of_In. }
    by rewrite Hall.
Qed.

Lemma alerts_all_or_nothing_witness :
  handle piUp emptyWorld
         (mkRequest None "key"
            (POST_pi_alerts
               (Some [overheating; mkAlertInput "FATAL" "boom" None None])))
  = (emptyWorld, fail 500 "Failed to save alerts").
Proof.
  destruct (alerts_all_or_nothing piUp emptyWorld None "key"
              (Some [overheating; mkAlertInput "FATAL" "boom" None None]))
    as (_ & _ & _ & H).
  apply (H [overheating; mkAlertInput "FATAL" "boom" None None]
           (mkAlertInput "FATAL" "boom" None None));
    try reflexivity; try discriminate.
  apply elem_of_cons. right. apply elem_of_cons. by left.
Defined.

(** ** Threshold writes: what is relayed, logged and broadcast *)

Lemma foldl_applyKey_changed (updates : gmap string Z) (keys : list string) :
  forall (acc : gmap string Z * gmap string Z) (k : string),
    snd (foldl (applyKey updates) acc keys) !! k =
      match updates !! k with
      | Some v => if bool_decide (k ∈ keys) then Some v else snd acc !! k
      | None => snd acc !! k
      end.
Proof.
  induction keys as [|key keys IH]; intros acc k; simpl.
  - by destruct (updates !! k).
  - rewrite IH. destruct (updates !! k) as [v|] eqn:Hk.
    + destruct (decide (k ∈ keys)) as [Hin|Hnin].
      * rewrite !bool_decide_eq_true_2;
          [done | rewrite elem_of_cons; tauto | done].
      * rewrite (bool_decide_eq_false_2 (k ∈ keys)) by done.
        unfold applyKey. destruct (decide (k = key)) as [->|Hne].
        -- rewrite Hk. simpl. rewrite lookup_insert_eq.
           rewrite bool_decide_eq_true_2; [done|].
           rewrite elem_of_cons; tauto.
        -- rewrite (bool_decide_eq_false_2 (k ∈ key :: keys)).
           2:{ rewrite elem_of_cons. tauto. }
           destruct (updates !! key); simpl; [|done].
           by rewrite lookup_insert_ne.
    + unfold applyKey. destruct (updates !! key) eqn:Hkey; simpl; [|done].
      rewrite lookup_insert_ne; [done | congruence].
Qed.

Lemma applyUpdates_changed updates sp :
  isChanged updates (snd (applyUpdates updates sp)).
Proof.
  intros k. unfold applyUpdates. rewrite foldl_applyKey_changed. simpl.
  rewrite lookup_empty. destruct (updates !! k); by case_bool_decide.
Qed.

Lemma put_thresholds_active e w id u updates :
  users w !! id = Some u -> status u = active ->
  handle e w (as_ id (PUT_thresholds updates)) =
    putThresholds e w (mkReq id u false) updates.
Proof.
  intros Hu Hs. unfold as_, handle. simpl token; simpl route.
  by rewrite (protect_active _ _ _ Hu Hs).
Qed.

(** X7.  A threshold write by an active caller, with a body whose values
    are integers, makes exactly one call to the Pi, one log entry and
    one broadcast, whether the call succeeds or not.  The call and the
    broadcast carry the entries of the body under the nine valid keys; a
    key of the body that is not a threshold never reaches the Pi.  The
    log entry carries the same entries as its details, and no details
    when there are none: a body that names no threshold is still
    relayed and broadcast, and logged without details. *)
Theorem threshold_write_notifies (e : Env) (w : World) (id : UserId)
  (u : User) (updates : gmap string Z) :
  users w !! id = Some u ->
  status u = active ->
  let w' := fst (handle e w (as_ id (PUT_thresholds updates))) in
  exists changed,
    isChanged updates changed
    /\ relayed w' = (relayed w ++ [RelayThresholds changed])%list
    /\ activity w' =
         (activity w ++
          [mkLog id (username u) "threshold_changed"
                 (if bool_decide (changed = ∅) then NoDetails
                  else ChangedDetails changed)])%list
    /\ outbox w' =
         (outbox w ++
          [mkEmit ToAll "threshold_update"
                  (ThresholdUpdate changed (username u))])%list.
Proof.
  intros Hu Hs w'. subst w'. rewrite (put_thresholds_active _ _ _ _ _ Hu Hs).
  exists (snd (applyUpdates updates (setpoints (snd (getCurrent w))))).
  split; [apply applyUpdates_changed|].
  unfold putThresholds, getCurrent.
  destruct (thresholds w) as [t|]; simpl;
    destruct (applyUpdates updates _) as [sp changed]; simpl;
    destruct (pi e); simpl; done.
Qed.

Lemma threshold_write_notifies_witness :
  (exists changed,
     changed !! "soil1" = Some 55%Z /\ changed !! "volume" = None
     /\ relayed (fst (handle piDown (farm active)
                             (as_ 1 (PUT_thresholds
                                       (<["volume" := 11%Z]>
                                          {["soil1" := 55%Z]})))))
        = [RelayThresholds changed])
  /\ activity (fst (handle piDown (farm active)
                           (as_ 1 (PUT_thresholds {["volume" := 11%Z]}))))
     = [mkLog 1 "bob" "threshold_changed" NoDetails].
Proof.
  split.
  - destruct (threshold_write_notifies piDown (farm active) 1 (bob active)
                (<["volume" := 11%Z]> {["soil1" := 55%Z]}) eq_refl eq_refl)
      as (changed & Hc & Hr & _).
    exists changed. split; [|split; [|exact Hr]].
    + rewrite (Hc "soil1"). reflexivity.
    + rewrite (Hc "volume"). reflexivity.
  - destruct (threshold_write_notifies piDown (farm active) 1 (bob active)
                {["volume" := 11%Z]} eq_refl eq_refl)
      as (changed & Hc & _ & Ha & _).
    assert (changed = ∅) as ->.
    { apply map_eq. intros k. rewrite (Hc k), lookup_empty.
      destruct (bool_decide (k ∈ validKeys)) eqn:Hk; [|done].
      apply lookup_singleton_ne. intros <-. by vm_compute in Hk. }
    exact Ha.
Defined.

(** X8.  After a threshold write by an active caller the stored
    document names the caller as [lastUpdatedBy], also when the body
    changed no field; when the call to the Pi succeeded its
    [lastSyncedWithArduino] is the time of the request. *)
Theorem threshold_write_stamps (e : Env) (w : World) (id : UserId)
  (u : User) (updates : gmap string Z) :
  users w !! id = Some u ->
  status u = active ->
  let w' := fst (handle e w (as_ id (PUT_thresholds updates))) in
  exists t',
    thresholds w' = Some t'
    /\ lastUpdatedBy t' = Some id
    /\ (forall d, pi e = Some d -> lastSyncedWithArduino t' = Some (now e))
    /\ data (snd (handle e w (as_ id (PUT_thresholds updates))))
       = ThresholdData t'.
Proof.
  intros Hu Hs w'. subst w'. rewrite (put_thresholds_active _ _ _ _ _ Hu Hs).
  rewrite putThresholds_stored.
  destruct (putThresholds_response e w (mkReq id u false) updates)
    as [_ Hd].
  eexists. split; [reflexivity|]. simpl. split; [done|]. split; [|done].
  intros d Hd'. by rewrite Hd'.
Qed.

Lemma threshold_write_stamps_witness :
  exists t',
    thresholds (fst (handle piUp (farm active) (as_ 1 (PUT_thresholds ∅))))
    = Some t'
    /\ lastUpdatedBy t' = Some 1
    /\ lastSyncedWithArduino t' = Some 1000%Z.
Proof.
  destruct (threshold_write_stamps piUp (farm active) 1 (bob active) ∅
              eq_refl eq_refl) as (t' & Ht & Hby & Hsync & _).
  exists t'. split; [exact Ht|]. split; [exact Hby|].
  exact (Hsync "ok" eq_refl).
Defined.

(** X9.  Reading the thresholds creates the singleton with the schema
    defaults when the collection is empty and returns the stored
    document otherwise; it changes nothing else, and a second read
    returns the same document and leaves the store as the first read
    left it. *)
Theorem thresholds_read_find_or_create (e : Env) (w : World) (id : UserId)
  (u : User) :
  users w !! id = Some u ->
  status u <> banned ->
  let out := handle e w (as_ id GET_thresholds) in
  let t := match thresholds w with
           | Some t0 => t0
           | None => mkThreshold thresholdDefaults None None
           end in
  snd out = ok 200 None (ThresholdData t)
  /\ fst out = setThresholds w t
  /\ (forall t0, thresholds w = Some t0 -> fst out = w)
  /\ forall e', handle e' (fst out) (as_ id GET_thresholds) = out.
Proof.
  intros Hu Hs out t.
  assert (Hout : out = (setThresholds w t, ok 200 None (ThresholdData t))).
  { subst out t. unfold as_, handle. simpl token; simpl route.
    rewrite (protect_known _ _ _ Hu), bool_decide_eq_false_2 by done.
    simpl. unfold getThresholds, getCurrent.
    destruct (thresholds w) as [t0|] eqn:Ht; [|done].
    destruct w; simpl in *. by rewrite Ht. }
  rewrite Hout. simpl. repeat split.
  - intros t0 Ht. subst t. rewrite Ht. destruct w; simpl in *. by rewrite Ht.
  - intros e'. by apply (get_thresholds_stored e' _ id u).
Qed.

Lemma thresholds_read_find_or_create_witness :
  snd (handle piUp (farm restricted) (as_ 1 GET_thresholds))
  = ok 200 None (ThresholdData (mkThreshold thresholdDefaults None None)).
Proof.
  apply (thresholds_read_find_or_create piUp (farm restricted) 1
           (bob restricted) eq_refl).
  discriminate.
Defined.

(** ** Admin operations and what follows them *)

Section AdminCaller.
Variables (e : Env) (w : World) (c : UserId) (cu : User).
Hypothesis Hcaller : users w !! c = Some cu.
Hypothesis Hnotbanned : status cu <> banned.
Hypothesis Hadmin : isAdmin cu = true.

Let r0 := mkReq c cu (bool_decide (status cu = restricted)).

Lemma admin_ban_request t b :
  handle e w (as_ c (PUT_admin_users_ban t b)) = ban w r0 t b.
Proof.
  unfold as_, handle. simpl token; simpl route.
  by rewrite (protect_admin _ _ _ Hcaller Hnotbanned Hadmin).
Qed.

Lemma admin_restrict_request t b :
  handle e w (as_ c (PUT_admin_users_restrict t b)) = restrict w r0 t b.
Proof.
  unfold as_, handle. simpl token; simpl route.
  by rewrite (protect_admin _ _ _ Hcaller Hnotbanned Hadmin).
Qed.

Lemma admin_delete_request t :
  handle e w (as_ c (DELETE_admin_users t)) = deleteUser w r0 t.
Proof.
  unfold as_, handle. simpl token; simpl route.
  by rewrite (protect_admin _ _ _ Hcaller Hnotbanned Hadmin).
Qed.

Lemma head_promote_request t :
  role cu = head_admin ->
  handle e w (as_ c (PUT_admin_users_promote t)) = promote w r0 t.
Proof.
  intros Hh. unfold as_, handle. simpl token; simpl route.
  rewrite (protect_admin _ _ _ Hcaller Hnotbanned Hadmin). simpl.
  unfold headAdminOnly, isHeadAdmin. simpl. by rewrite Hh.
Qed.

Lemma head_demote_request t :
  role cu = head_admin ->
  handle e w (as_ c (PUT_admin_users_demote t)) = demote w r0 t.
Proof.
  intros Hh. unfold as_, handle. simpl token; simpl route.
  rewrite (protect_admin _ _ _ Hcaller Hnotbanned Hadmin). simpl.
  unfold headAdminOnly, isHeadAdmin. simpl. by rewrite Hh.
Qed.

End AdminCaller.

Lemma ban_users w r t tu b :
  users w !! t = Some tu -> role tu = user ->
  users (fst (ban w r t b))
  = <[t := withStatus tu (if b then banned else active)]> (users w).
Proof.
  intros Ht Hr. unfold ban. rewrite Ht, Hr. simpl.
  destruct (b && isOnline _); [|done].
  destruct (socketId _) as [sid|]; [|done].
  by destruct (bool_decide (sid = "")).
Qed.

Lemma restrict_users w r t tu b :
  users w !! t = Some tu -> role tu = user ->
  users (fst (restrict w r t b))
  = <[t := withStatus tu (if b then restricted else active)]> (users w).
Proof. intros Ht Hr. unfold restrict. by rewrite Ht, Hr. Qed.

Lemma withRole_same u : withRole u (role u) = u.
Proof. by destruct u. Qed.

Lemma withStatus_same u : withStatus u (status u) = u.
Proof. by destruct u. Qed.

(** X10.  A head admin promotes an account of role user and then
    demotes it: the account is an admin in between, the user collection
    ends as it started, and the log holds the two operations. *)
Theorem promote_then_demote (e : Env) (w : World) (c t : UserId)
  (cu tu : User) :
  users w !! c = Some cu ->
  status cu <> banned ->
  role cu = head_admin ->
  users w !! t = Some tu ->
  role tu = user ->
  let w1 := fst (handle e w (as_ c (PUT_admin_users_promote t))) in
  let w2 := fst (handle e w1 (as_ c (PUT_admin_users_demote t))) in
  role <$> users w1 !! t = Some admin
  /\ users w2 = users w
  /\ activity w2 =
       (activity w ++
        [mkLog c (username cu) "user_promoted"
               (PromotedDetails (username tu));
         mkLog c (username cu) "user_demoted"
               (DemotedDetails (username tu))])%list.
Proof.
  intros Hc Hnb Hh Ht Hr w1 w2.
  assert (Ha : isAdmin cu = true).
  { unfold isAdmin. rewrite Hh. reflexivity. }
  assert (Hne : c <> t).
  { intros ->. rewrite Hc in Ht. injection Ht as ->. congruence. }
  assert (Hw1 : w1 = logActivity
                       (setUsers w (<[t := withRole tu admin]> (users w)))
                       (mkLog c (username cu) "user_promoted"
                              (PromotedDetails (username tu)))).
  { subst w1. rewrite (head_promote_request e w c cu Hc Hnb Ha t Hh).
    unfold promote. rewrite Ht, Hr. reflexivity. }
  assert (Hc1 : users w1 !! c = Some cu).
  { rewrite Hw1. simpl. by rewrite lookup_insert_ne. }
  assert (Ht1 : users w1 !! t = Some (withRole tu admin)).
  { rewrite Hw1. simpl. by rewrite lookup_insert_eq. }
  split; [by rewrite Ht1|].
  subst w2. rewrite (head_demote_request e w1 c cu Hc1 Hnb Ha t Hh).
  unfold demote. rewrite Ht1. simpl. rewrite Hw1. simpl.
  split; [|by rewrite <- app_assoc].
  rewrite insert_insert_eq. apply insert_id.
  rewrite Ht. f_equal. rewrite <- Hr. by destruct tu.
Qed.

Lemma promote_then_demote_witness :
  users (fst (handle piUp
                (fst (handle piUp (farm active)
                             (as_ 0 (PUT_admin_users_promote 1))))
                (as_ 0 (PUT_admin_users_demote 1))))
  = users (farm active).
Proof.
  apply (promote_then_demote piUp (farm active) 0 1 alice (bob active));
    try reflexivity.
  discriminate.
Defined.

(** X11.  Ban and restrict overwrite the status of an account of role
    user whatever it was: after a ban request it is banned or active,
    after a restrict request restricted or active, as the body says.
    So restricting or unrestricting a banned account lifts the ban (its
    next request passes [protect]), and unbanning a restricted account
    lifts the restriction. *)
Theorem status_is_overwritten (e : Env) (w : World) (c t : UserId)
  (cu tu : User) (b : bool) :
  users w !! c = Some cu ->
  status cu <> banned ->
  isAdmin cu = true ->
  users w !! t = Some tu ->
  role tu = user ->
  let wb := fst (handle e w (as_ c (PUT_admin_users_ban t b))) in
  let wr := fst (handle e w (as_ c (PUT_admin_users_restrict t b))) in
  users wb !! t = Some (withStatus tu (if b then banned else active))
  /\ users wr !! t = Some (withStatus tu (if b then restricted else active))
  /\ (forall e', statusCode (snd (handle e' wr (as_ t GET_auth_me))) = 200).
Proof.
  intros Hc Hnb Ha Ht Hr wb wr.
  assert (Hwb : users wb !! t
                = Some (withStatus tu (if b then banned else active))).
  { subst wb. rewrite (admin_ban_request e w c cu Hc Hnb Ha t b).
    rewrite (ban_users _ _ _ _ _ Ht Hr). apply lookup_insert_eq. }
  assert (Hwr : users wr !! t
                = Some (withStatus tu (if b then restricted else active))).
  { subst wr. rewrite (admin_restrict_request e w c cu Hc Hnb Ha t b).
    rewrite (restrict_users _ _ _ _ _ Ht Hr). apply lookup_insert_eq. }
  split; [exact Hwb|]. split; [exact Hwr|].
  intros e'. unfold as_, handle. simpl token; simpl route.
  rewrite (protect_known _ _ _ Hwr). by destruct b.
Qed.

Lemma status_is_overwritten_witness :
  statusCode (snd (handle piUp (farm banned) (as_ 1 GET_auth_me))) = 403
  /\ statusCode
       (snd (handle piUp
               (fst (handle piUp (farm banned)
                            (as_ 2 (PUT_admin_users_restrict 1 true))))
               (as_ 1 GET_auth_me))) = 200.
Proof.
  split; [reflexivity|].
  destruct (status_is_overwritten piUp (farm banned) 2 1 carol (bob banned)
              true eq_refl ltac:(discriminate) eq_refl eq_refl eq_refl)
    as (_ & _ & H).
  exact (H piUp).
Defined.

(** X12.  Once an admin has banned an account of role user, every
    request of that account to a route behind [protect] is answered 403
    and changes nothing, and its socket handshake is refused. *)
Theorem ban_takes_effect (e : Env) (w : World) (c t : UserId)
  (cu tu : User) :
  users w !! c = Some cu ->
  status cu <> banned ->
  isAdmin cu = true ->
  users w !! t = Some tu ->
  role tu = user ->
  let w' := fst (handle e w (as_ c (PUT_admin_users_ban t true))) in
  (forall e' q, token q = Some t -> isPublic (route q) = false ->
     handle e' w' q = (w', accountBanned))
  /\ (forall sid, ioUse w' (Some t) sid = None).
Proof.
  intros Hc Hnb Ha Ht Hr w'.
  assert (Hw : users w' !! t = Some (withStatus tu banned)).
  { subst w'. rewrite (admin_ban_request e w c cu Hc Hnb Ha t true).
    rewrite (ban_users _ _ _ _ _ Ht Hr). apply lookup_insert_eq. }
  split.
  - intros e' q Hq Hpub. apply refused_by_protect; [done|].
    rewrite Hq, (protect_known _ _ _ Hw). reflexivity.
  - intros sid. unfold ioUse. by rewrite Hw.
Qed.

Lemma ban_takes_effect_witness :
  ioUse (fst (handle piUp (farm active) (as_ 2 (PUT_admin_users_ban 1 true))))
        (Some 1) "B8" = None.
Proof.
  apply (ban_takes_effect piUp (farm active) 2 1 carol (bob active));
    try reflexivity.
  discriminate.
Defined.

(** X13.  Once an admin has restricted an account of role user, the
    writes behind [allowWrite] by that account are answered 403 and
    change nothing; once the restriction is lifted its threshold write
    is carried out. *)
Theorem restriction_takes_effect (e : Env) (w : World) (c t : UserId)
  (cu tu : User) :
  users w !! c = Some cu ->
  status cu <> banned ->
  isAdmin cu = true ->
  users w !! t = Some tu ->
  role tu = user ->
  let w1 := fst (handle e w (as_ c (PUT_admin_users_restrict t true))) in
  let w2 := fst (handle e w (as_ c (PUT_admin_users_restrict t false))) in
  (forall e' r, gatedWrite r = true ->
     handle e' w1 (as_ t r) = (w1, restrictedReply))
  /\ (forall e' updates,
        handle e' w2 (as_ t (PUT_thresholds updates)) =
          putThresholds e' w2 (mkReq t (withStatus tu active) false) updates).
Proof.
  intros Hc Hnb Ha Ht Hr w1 w2. split.
  - intros e' r Hg.
    assert (Hw : users w1 !! t = Some (withStatus tu restricted)).
    { subst w1. rewrite (admin_restrict_request e w c cu Hc Hnb Ha t true).
      rewrite (restrict_users _ _ _ _ _ Ht Hr). apply lookup_insert_eq. }
    unfold as_, handle. simpl token; simpl route.
    rewrite (protect_restricted _ _ _ Hw eq_refl).
    destruct r; try discriminate Hg; reflexivity.
  - intros e' updates.
    assert (Hw : users w2 !! t = Some (withStatus tu active)).
    { subst w2. rewrite (admin_restrict_request e w c cu Hc Hnb Ha t false).
      rewrite (restrict_users _ _ _ _ _ Ht Hr). apply lookup_insert_eq. }
    by apply put_thresholds_active.
Qed.

Lemma restriction_takes_effect_witness :
  handle piUp
    (fst (handle piUp (farm active)
                 (as_ 2 (PUT_admin_users_restrict 1 true))))
    (as_ 1 POST_manual_auto)
  = (fst (handle piUp (farm active)
                 (as_ 2 (PUT_admin_users_restrict 1 true))),
     restrictedReply).
Proof.
  apply (restriction_takes_effect piUp (farm active) 2 1 carol (bob active));
    try reflexivity.
  discriminate.
Defined.

(** X14.  An admin deletes an account of role user (a head admin, also
    one of role admin): the account is gone and every other account is
    as it was; a request with the deleted account's token to a route
    behind [protect] is answered 401 and changes nothing, and its socket
    handshake is refused. *)
Theorem deleted_account_is_gone (e : Env) (w : World) (c t : UserId)
  (cu tu : User) :
  users w !! c = Some cu ->
  status cu <> banned ->
  isAdmin cu = true ->
  users w !! t = Some tu ->
  role tu = user \/ (role tu = admin /\ role cu = head_admin) ->
  let w' := fst (handle e w (as_ c (DELETE_admin_users t))) in
  users w' = delete t (users w)
  /\ (forall e' q, token q = Some t -> isPublic (route q) = false ->
        handle e' w' q = (w', userGone))
  /\ (forall sid, ioUse w' (Some t) sid = None).
Proof.
  intros Hc Hnb Ha Ht Hr w'.
  assert (Hw : users w' = delete t (users w)).
  { subst w'. rewrite (admin_delete_request e w c cu Hc Hnb Ha t).
    unfold deleteUser. rewrite Ht.
    destruct Hr as [Hr|[Hr Hh]]; rewrite Hr; simpl; [done|].
    rewrite Hh. reflexivity. }
  assert (Hgone : users w' !! t = None).
  { rewrite Hw. apply lookup_delete_eq. }
  split; [exact Hw|]. split.
  - intros e' q Hq Hpub. apply refused_by_protect; [done|].
    rewrite Hq. unfold protect. by rewrite Hgone.
  - intros sid. unfold ioUse. by rewrite Hgone.
Qed.

Lemma deleted_account_is_gone_witness :
  users (fst (handle piUp (farm active) (as_ 2 (DELETE_admin_users 1))))
  = delete 1 (users (farm active)).
Proof.
  apply (deleted_account_is_gone piUp (farm active) 2 1 carol (bob active));
    try reflexivity; [discriminate | by left].
Defined.

(** ** Presence *)




(** ** Login and logout *)

(** X16.  [findOne] looks for an account whose username is the name
    given with the white space around it removed, or whose email is
    that name in lower case.  A login with both fields given succeeds
    exactly when [findOne] returned an account that is not banned and
    whose stored hash bcrypt matches with the password given; it then
    marks the account online, stamps [lastLogin] with the time of the
    request, logs the login and hands out a token that [protect]
    accepts.  Every other login changes nothing; a banned account is
    answered 403 even with the right password. *)
Theorem login_outcomes (e : Env) (w : World) (name pass : string)
  (found : option UserId) :
  name <> "" ->
  pass <> "" ->
  findOneAnswer w (matchesLogin name) found ->
  let out := login e w name pass found in
  (statusCode (snd out) = 200 <->
   exists id u, found = Some id /\ users w !! id = Some u
                /\ status u <> banned /\ comparePassword u pass = true)
  /\ (statusCode (snd out) <> 200 -> fst out = w)
  /\ (forall id u, found = Some id -> users w !! id = Some u ->
        status u = banned -> snd out = fail 403
          "Your account has been banned. Contact an administrator.")
  /\ (forall id u, found = Some id -> users w !! id = Some u ->
        status u <> banned -> comparePassword u pass = true ->
        exists u',
          users (fst out) = <[id := u']> (users w)
          /\ isOnline u' = true /\ lastLogin u' = Some (now e)
          /\ socketId u' = socketId u
          /\ data (snd out) = TokenData id (toSafeObject id u')
          /\ protect (fst out) (Some id)
             = Continue (mkReq id u' (bool_decide (status u = restricted)))).
Proof.
  intros Hn Hp Hfound out. subst out. unfold login.
  rewrite !bool_decide_eq_false_2 by done. simpl.
  destruct found as [id|]; simpl.
  2:{ repeat split; try done. intros (? & ? & [=] & _). }
  destruct Hfound as (u & Hu & _). rewrite Hu.
  destruct (bool_decide (status u = banned)) eqn:Hb; simpl.
  { apply bool_decide_eq_true in Hb. repeat split; try done.
    - intros (id' & u' & [= <-] & Hu' & Hs & _). congruence.
    - intros id' u' [= <-] Hu' Hs. congruence. }
  apply bool_decide_eq_false in Hb.
  destruct (comparePassword u pass) eqn:Hc; simpl.
  - repeat split; try done.
    + intros _. by exists id, u.
    + intros id' u' [= <-] Hu' Hs. rewrite Hu in Hu'. injection Hu' as <-.
      congruence.
    + intros id' u' [= <-] Hu' Hs Hc'. rewrite Hu in Hu'.
      injection Hu' as <-. eexists. split; [reflexivity|].
      repeat split. unfold protect. simpl. rewrite lookup_insert_eq.
      simpl. by rewrite bool_decide_eq_false_2.
  - repeat split; try done.
    + intros (id' & u' & [= <-] & Hu' & _ & Hc'). rewrite Hu in Hu'.
      injection Hu' as <-. congruence.
    + intros id' u' [= <-] Hu' Hs. congruence.
    + intros id' u' [= <-] Hu' Hs Hc'. rewrite Hu in Hu'.
      injection Hu' as <-. congruence.
Qed.

Lemma login_outcomes_witness :
  statusCode (snd (login piUp (farm active) " Bob@Farm.io " "secret2"
                         (Some 1)))
  = 200.
Proof.
  destruct (login_outcomes piUp (farm active) " Bob@Farm.io " "secret2"
              (Some 1) ltac:(discriminate) ltac:(discriminate))
    as [H _].
  - exists (bob active). split; reflexivity.
  - apply H. exists 1, (bob active). repeat split. discriminate.
Defined.

Lemma handleLogout_known w id u :
  users w !! id = Some u -> status u <> banned ->
  handleLogout w (Some id) =
    logout w (mkReq id u (bool_decide (status u = restricted))).
Proof.
  intros Hu Hs. unfold handleLogout.
  rewrite (protect_known _ _ _ Hu), bool_decide_eq_false_2 by done.
  reflexivity.
Qed.

(** X17.  A logout, which a restricted account may do as well, marks
    the account offline, forgets its recorded connection and logs the
    logout, touching no other account; when an admin then bans the
    account no force_disconnect is emitted, whatever connection it had
    recorded. *)
Theorem logout_forgets_connection (e : Env) (w : World) (c t : UserId)
  (cu tu : User) :
  users w !! t = Some tu ->
  status tu <> banned ->
  role tu = user ->
  users w !! c = Some cu ->
  status cu <> banned ->
  isAdmin cu = true ->
  let w1 := fst (handleLogout w (Some t)) in
  let w2 := fst (handle e w1 (as_ c (PUT_admin_users_ban t true))) in
  users w1 = <[t := setPresence false None tu]> (users w)
  /\ activity w1 =
       (activity w ++ [mkLog t (username tu) "logout" NoDetails])%list
  /\ outbox w1 = outbox w
  /\ outbox w2 = outbox w
  /\ status <$> users w2 !! t = Some banned.
Proof.
  intros Ht Hs Hr Hc Hnb Ha w1 w2.
  assert (Hw1 : w1 = fst (logout w (mkReq t tu
                                      (bool_decide (status tu = restricted))))).
  { subst w1. by rewrite (handleLogout_known _ _ _ Ht Hs). }
  assert (Hne : c <> t).
  { intros ->. rewrite Hc in Ht. injection Ht as ->.
    unfold isAdmin in Ha. rewrite Hr in Ha. discriminate. }
  assert (Hc1 : users w1 !! c = Some cu).
  { rewrite Hw1. simpl. by rewrite lookup_insert_ne. }
  assert (Ht1 : users w1 !! t = Some (setPresence false None tu)).
  { rewrite Hw1. simpl. by rewrite lookup_insert_eq. }
  split; [by rewrite Hw1|]. split; [by rewrite Hw1|].
  split; [by rewrite Hw1|].
  subst w2. rewrite (admin_ban_request e w1 c cu Hc1 Hnb Ha t true).
  unfold ban. rewrite Ht1. simpl. rewrite Hr. simpl.
  split; [by rewrite Hw1|]. by rewrite lookup_insert_eq.
Qed.

Lemma logout_forgets_connection_witness :
  outbox (fst (handle piUp (fst (handleLogout farmBobOnline (Some 1)))
                      (as_ 2 (PUT_admin_users_ban 1 true))))
  = [].
Proof.
  destruct (logout_forgets_connection piUp farmBobOnline 2 1 carol
              (setPresence true (Some "B7") (bob active))
              eq_refl ltac:(discriminate) eq_refl eq_refl
              ltac:(discriminate) eq_refl)
    as (_ & _ & _ & H & _).
  exact H.
Defined.

(** ** Registration and passwords *)

Lemma comparePassword_bcrypt u p q :
  password u = bcrypt p ->
  (comparePassword u q = true <-> bcryptKey q = bcryptKey p).
Proof.
  intros H. unfold comparePassword. rewrite H. apply bool_decide_eq_true.
Qed.

Lemma keyStream_app data p r n :
  keyStream (String.length p + n) data (p ++ r) = p ++ keyStream n data r.
Proof. induction p as [|c p IH]; simpl; [done|]. by rewrite IH. Qed.

Lemma bcryptKey_short p :
  (String.length p <? 72)%nat = true ->
  exists t, bcryptKey p = p ++ String Ascii.zero t.
Proof.
  intros H. apply Nat.ltb_lt in H. unfold bcryptKey.
  generalize (p ++ String Ascii.zero "") at 1. intros data.
  replace 72 with (String.length p + S (71 - String.length p)) by lia.
  rewrite keyStream_app. simpl. eauto.
Qed.

Lemma zeroFree_cut p q t t' :
  zeroFree p = true -> zeroFree q = true ->
  p ++ String Ascii.zero t = q ++ String Ascii.zero t' -> p = q.
Proof.
  revert q. induction p as [|c p IH]; intros [|d q]; simpl; try done.
  - intros _ Hq [= <- _]. by rewrite bool_decide_eq_true_2 in Hq.
  - intros Hp _ [= -> _]. by rewrite bool_decide_eq_true_2 in Hp.
  - intros Hp Hq [= <- H].
    apply andb_true_iff in Hp as [_ Hp]. apply andb_true_iff in Hq as [_ Hq].
    f_equal. by apply IH.
Qed.

(** Passwords that bcrypt reads whole have different keys. *)
Lemma bcryptKey_inj p q :
  readWhole p = true -> readWhole q = true ->
  bcryptKey p = bcryptKey q -> p = q.
Proof.
  unfold readWhole. intros Hp Hq H.
  apply andb_true_iff in Hp as [Hlp Hzp].
  apply andb_true_iff in Hq as [Hlq Hzq].
  destruct (bcryptKey_short p Hlp) as [t Ht].
  destruct (bcryptKey_short q Hlq) as [t' Ht'].
  rewrite Ht, Ht' in H. by apply (zeroFree_cut p q t t').
Qed.

Lemma comparePassword_readWhole u p q :
  password u = bcrypt p -> readWhole q = true -> readWhole p = true ->
  comparePassword u q = true -> q = p.
Proof.
  intros H Hq Hp Hc. apply (comparePassword_bcrypt u p q H) in Hc.
  by apply bcryptKey_inj.
Qed.

(** Beyond its 72nd byte a password is not read, and a zero byte closes
    it.  [password72] is 72 bytes long. *)
Lemma bcryptKey_blind_spots :
  let password72 :=
    "0123456789012345678901234567890123456789012345678901234567890123456789AB"
  in
  bcryptKey (password72 ++ "x") = bcryptKey (password72 ++ "y")
  /\ bcryptKey "ab" = bcryptKey ("ab" ++ String Ascii.zero "ab")
  /\ bcryptKey "secret1" <> bcryptKey "secret2".
Proof. repeat split. by vm_compute. Qed.

Lemma validUsername_nonempty s : validUsername s = true -> s <> "".
Proof. intros H ->. discriminate H. Qed.

Lemma registrable_valid w name mail pass :
  registrable w name mail pass = true ->
  validUsername (Js.trim name) = true /\ pass <> "".
Proof.
  unfold registrable. intros H.
  repeat (apply andb_true_iff in H as [H ?]).
  split; [done|]. intros ->.
  match goal with
  | Hp : negb (bool_decide ("" = "")) = true |- _ => discriminate Hp
  end.
Qed.

Lemma duplicateKey_false w self f v :
  duplicateKey w self f v = false ->
  forall id u, users w !! id = Some u -> Some id <> self -> f u <> v.
Proof.
  unfold duplicateKey, findUser. intros H id u Hu Hself Hf.
  assert (Hex : existsb
                  (fun kv : UserId * User =>
                     negb (bool_decide (Some (fst kv) = self))
                     && bool_decide (f (snd kv) = v))
                  (map_to_list (users w)) = true).
  { apply existsb_exists. exists (id, u). split.
    - apply list_elem_of_In. by apply elem_of_map_to_list.
    - simpl. rewrite bool_decide_eq_false_2 by done.
      by rewrite bool_decide_eq_true_2. }
  congruence.
Qed.

Lemma registrable_unique w name mail pass :
  registrable w name mail pass = true ->
  duplicateKey w None username (Js.trim name) = false
  /\ duplicateKey w None email (Js.toLowerCase (Js.trim mail)) = false.
Proof.
  unfold registrable. intros H.
  repeat (apply andb_true_iff in H as [H ?]).
  split; by apply negb_true_iff.
Qed.

(** X18.  After an accepted registration the account stored under the
    new id is active and offline and the token handed out reads it back
    through [protect].  The passwords that match the stored hash are
    those bcrypt cannot tell from the one registered: those with the
    same key; among the passwords bcrypt reads whole, of fewer than 72
    bytes and none of them zero, that is the registered one alone.  If no account stored before has the name
    registered with as its email, [findOne] can only answer a login
    under that name with the new account, and the login with the
    registered password succeeds.  The creation is logged with the role
    given. *)
Theorem registration_round_trip (e : Env) (w : World)
  (name mail pass : string) :
  registrable w name mail pass = true ->
  let w' := fst (handle e w (registerRequest name mail pass)) in
  let id := nextId w in
  let u := registeredUser w name mail pass in
  users w' !! id = Some u
  /\ (forall p, comparePassword u p = true <-> bcryptKey p = bcryptKey pass)
  /\ (forall p, readWhole p = true -> readWhole pass = true ->
                comparePassword u p = true -> p = pass)
  /\ status u = active /\ isOnline u = false
  /\ (forall e', handle e' w' (as_ id GET_auth_me) =
                 (w', ok 200 None (UserData (toSafeObject id u))))
  /\ ((forall j v, users w !! j = Some v ->
                   email v <> Js.toLowerCase (Js.trim name)) ->
      findOneAnswer w' (matchesLogin name) (Some id)
      /\ forall e' found,
           findOneAnswer w' (matchesLogin name) found ->
           found = Some id
           /\ statusCode (snd (login e' w' name pass found)) = 200)
  /\ activity w' =
       (activity w ++
        [mkLog id (username u) "user_created" (RoleDetails (role u))])%list.
Proof.
  intros Hok w' id u.
  assert (Hw : w' = fst (register w name mail pass)) by reflexivity.
  destruct (register_accepted _ _ _ _ Hok) as (Hus & _ & _).
  rewrite <- Hw in Hus. fold u id in Hus.
  assert (Hu : users w' !! id = Some u).
  { rewrite Hus. apply lookup_insert_eq. }
  assert (Hpw : forall p,
             comparePassword u p = true <-> bcryptKey p = bcryptKey pass).
  { intros p. by apply comparePassword_bcrypt. }
  destruct (registrable_valid _ _ _ _ Hok) as [Hvn Hpe].
  assert (Hname : name <> "").
  { intros ->. by apply (validUsername_nonempty _ Hvn). }
  assert (Hmatch : matchesLogin name u = true).
  { unfold matchesLogin. by rewrite bool_decide_eq_true_2. }
  split; [exact Hu|]. split; [exact Hpw|]. split.
  { intros p Hp Hpass Hc. by apply (comparePassword_readWhole u pass p). }
  split; [done|]. split; [done|]. split; [|split].
  - intros e'. unfold as_, handle. simpl token; simpl route.
    by rewrite (protect_active _ _ _ Hu eq_refl).
  - intros Hmail. split; [by exists u|].
    intros e' found Hfound.
    assert (Hid : found = Some id).
    { destruct found as [j|]; simpl in Hfound.
      - destruct Hfound as (v & Hv & Hmv).
        destruct (decide (j = id)) as [->|Hne]; [done|].
        rewrite Hus, lookup_insert_ne in Hv by done.
        unfold matchesLogin in Hmv. apply orb_true_iff in Hmv as [Hmv|Hmv];
          apply bool_decide_eq_true in Hmv.
        + destruct (registrable_unique _ _ _ _ Hok) as [Hdup _].
          by destruct (duplicateKey_false _ _ _ _ Hdup j v Hv).
        + by destruct (Hmail j v Hv).
      - by rewrite (Hfound id u Hu) in Hmatch. }
    split; [exact Hid|]. rewrite Hid. unfold login. rewrite Hu.
    rewrite !bool_decide_eq_false_2 by done. simpl.
    rewrite (proj2 (Hpw pass) eq_refl). reflexivity.
  - rewrite Hw. unfold register, createUser.
    revert Hok. unfold registrable.
    destruct (bool_decide (name = "")), (bool_decide (mail = "")),
      (bool_decide (pass = "")); simpl; try discriminate.
    destruct (findUser w (fun _ u => _ || _)); simpl; try discriminate.
    destruct (validUsername _), (validEmail _), (validPassword _); simpl;
      try discriminate.
    destruct (duplicateKey w None username _); simpl; try discriminate.
    destruct (duplicateKey w None email _); simpl; try discriminate.
    done.
Qed.

Lemma registration_round_trip_witness :
  handle piDown
         (fst (handle piUp emptyWorld
                      (registerRequest " dave " "Dave@Farm.io" "hunter22")))
         (as_ 0 GET_auth_me)
  = (fst (handle piUp emptyWorld
                 (registerRequest " dave " "Dave@Farm.io" "hunter22")),
     ok 200 None
        (UserData (mkSafe 0 "dave" "dave@farm.io" head_admin active "light"
                          false None)))
  /\ statusCode
       (snd (login piDown
                   (fst (handle piUp emptyWorld
                           (registerRequest " dave " "Dave@Farm.io"
                                            "hunter22")))
                   " dave " "hunter22" (Some 0)))
     = 200.
Proof.
  destruct (registration_round_trip piUp emptyWorld " dave " "Dave@Farm.io"
              "hunter22" eq_refl) as (_ & _ & _ & _ & _ & Hme & Hlogin & _).
  split; [exact (Hme piDown)|].
  destruct Hlogin as [Hfound Hall]; [by intros j v|].
  by destruct (Hall piDown (Some 0) Hfound).
Defined.

Lemma changePassword_stored w r u current new :
  users w !! req_id r = Some u ->
  current <> "" -> new <> "" ->
  comparePassword u current = true -> validPassword new = true ->
  changePassword w r current new =
    (logActivity
       (setUsers w (<[req_id r := mkUser (username u) (email u) (bcrypt new)
                                         (role u) (status u) (theme u)
                                         (lastLogin u) (isOnline u)
                                         (socketId u)]> (users w)))
       (mkLog (req_id r) (username u) "password_changed" NoDetails),
     ok 200 (Some "Password changed successfully") NoData).
Proof.
  intros Hu Hc Hn Hcmp Hv. unfold changePassword.
  rewrite !bool_decide_eq_false_2 by done. simpl orb. cbv iota.
  rewrite Hu, Hcmp, Hv. reflexivity.
Qed.

Lemma changePassword_refused w r u current new :
  users w !! req_id r = Some u ->
  current <> "" -> new <> "" ->
  (comparePassword u current = false ->
   changePassword w r current new
   = (w, fail 401 "Current password is incorrect"))
  /\ (comparePassword u current = true -> validPassword new = false ->
      changePassword w r current new = (w, fail 500 "Server error")).
Proof.
  intros Hu Hc Hn. unfold changePassword.
  rewrite !bool_decide_eq_false_2 by done. simpl orb. cbv iota.
  rewrite Hu. split.
  - by intros ->.
  - by intros -> ->.
Qed.

(** X19.  A password change by an active caller with both fields given:
    a current password that does not match is answered 401 and a new
    password of fewer than six UTF-16 units 500, both changing nothing;
    otherwise the account keeps its name, email, role and status, and
    afterwards the passwords that match are those with the key of the
    new one: among the passwords bcrypt reads whole, of fewer than 72
    bytes and none of them zero, the new one alone. *)
Theorem password_change_round_trip (e : Env) (w : World) (id : UserId)
  (u : User) (current new : string) :
  users w !! id = Some u ->
  status u = active ->
  current <> "" ->
  new <> "" ->
  let out := handle e w (as_ id (PUT_auth_change_password current new)) in
  (comparePassword u current = false ->
   out = (w, fail 401 "Current password is incorrect"))
  /\ (comparePassword u current = true -> validPassword new = false ->
      out = (w, fail 500 "Server error"))
  /\ (comparePassword u current = true -> validPassword new = true ->
      exists u',
        users (fst out) = <[id := u']> (users w)
        /\ (forall p, comparePassword u' p = true <->
                      bcryptKey p = bcryptKey new)
        /\ (forall p, readWhole p = true -> readWhole new = true ->
                      comparePassword u' p = true -> p = new)
        /\ username u' = username u /\ email u' = email u
        /\ role u' = role u /\ status u' = status u
        /\ statusCode (snd out) = 200).
Proof.
  intros Hu Hs Hc Hn out.
  assert (Hout : out = changePassword w (mkReq id u false) current new).
  { subst out. unfold as_, handle. simpl token; simpl route.
    by rewrite (protect_active _ _ _ Hu Hs). }
  rewrite Hout. clear Hout out.
  destruct (changePassword_refused w (mkReq id u false) u current new
              Hu Hc Hn) as [H401 H500].
  split; [exact H401|]. split; [exact H500|].
  intros Hcmp Hv.
  rewrite (changePassword_stored w (mkReq id u false) u current new
             Hu Hc Hn Hcmp Hv).
  set (u' := mkUser (username u) (email u) (bcrypt new) (role u) (status u)
                    (theme u) (lastLogin u) (isOnline u) (socketId u)).
  assert (Hpw : password u' = bcrypt new) by reflexivity.
  exists u'. split; [reflexivity|].
  split; [intros p; by apply comparePassword_bcrypt|].
  split; [|done]. intros p Hp Hnew Hcmp'.
  by apply (comparePassword_readWhole u' new p Hpw).
Qed.

Lemma password_change_round_trip_witness :
  exists u',
    users (fst (handle piUp (farm active)
                  (as_ 1 (PUT_auth_change_password "secret2" "s3cret!"))))
    !! 1 = Some u'
    /\ comparePassword u' "s3cret!" = true
    /\ comparePassword u' "secret2" = false.
Proof.
  destruct (password_change_round_trip piUp (farm active) 1 (bob active)
              "secret2" "s3cret!" eq_refl eq_refl ltac:(discriminate)
              ltac:(discriminate)) as (_ & _ & H).
  destruct (H eq_refl eq_refl) as (u' & Hus & Hpw & _).
  exists u'. split; [by rewrite Hus, lookup_insert_eq|].
  split.
  - apply Hpw. reflexivity.
  - apply not_true_is_false. intros Hold. apply Hpw in Hold.
    by vm_compute in Hold.
Defined.

(** ** CORS origins *)

Lemma split_no_sep sep s : occurs sep s = false -> split sep s = [s].
Proof.
  induction s as [|c r IH]; simpl; [done|].
  intros H. apply orb_false_iff in H as [Hc Hr].
  rewrite Hc. by rewrite (IH Hr).
Qed.

Lemma split_app_sep sep x r :
  occurs sep x = false ->
  split sep (x ++ String sep r) = x :: split sep r.
Proof.
  induction x as [|c x IH]; simpl.
  - intros _. by rewrite bool_decide_eq_true_2.
  - intros H. apply orb_false_iff in H as [Hc Hx].
    rewrite Hc. by rewrite (IH Hx).
Qed.

(** Splitting undoes joining, for pieces that do not hold the
    separator. *)
Lemma split_concat sep (es : list string) :
  es <> [] ->
  Forall (fun x => occurs sep x = false) es ->
  split sep (String.concat (String sep "") es) = es.
Proof.
  induction es as [|x es IH]; [done|]. intros _ Hall.
  apply Forall_cons in Hall as [Hx Hes].
  destruct es as [|y es].
  - by apply split_no_sep.
  - change (String.concat (String sep "") (x :: y :: es))
      with (x ++ String sep (String.concat (String sep "") (y :: es))).
    rewrite (split_app_sep sep x _ Hx). f_equal. by apply IH.
Qed.

(** X20.  A request with no Origin header is always allowed.  With
    CORS_ORIGINS unset or empty every request with an Origin is
    refused.  With CORS_ORIGINS a comma-separated list, an Origin is
    allowed exactly when it is one of the entries with the white space
    around it removed. *)
Theorem cors_origin_allowed (es : list string) (o : string) :
  o <> "" ->
  (forall allowed, originFn allowed None = inr true)
  /\ originFn (allowedOrigins None) (Some o)
     = inl ("CORS: origin " ++ o ++ " not allowed")
  /\ originFn (allowedOrigins (Some "")) (Some o)
     = inl ("CORS: origin " ++ o ++ " not allowed")
  /\ (es <> [] ->
      Forall (fun x => occurs ","%char x = false) es ->
      String.concat "," es <> "" ->
      (originFn (allowedOrigins (Some (String.concat "," es))) (Some o)
       = inr true
       <-> o ∈ map Js.trim es)).
Proof.
  intros Ho. split; [done|].
  unfold originFn. rewrite bool_decide_eq_false_2 by done.
  split; [done|]. split; [done|].
  intros Hes Hall Hne. unfold allowedOrigins.
  rewrite bool_decide_eq_false_2 by done.
  rewrite (split_concat ","%char es Hes Hall).
  destruct (includes (map Js.trim es) o) eqn:Hi.
  - split; [|done]. intros _. apply includes_true in Hi.
    by apply list_elem_of_In.
  - split; [discriminate|]. intros Hin. apply list_elem_of_In in Hin.
    apply includes_true in Hin. congruence.
Qed.

Lemma cors_origin_allowed_witness :
  originFn (allowedOrigins (Some "https://farm.io , http://localhost:3000"))
           (Some "http://localhost:3000")
  = inr true.
Proof.
  destruct (cors_origin_allowed ["https://farm.io "; " http://localhost:3000"]
              "http://localhost:3000" ltac:(discriminate))
    as (_ & _ & _ & H).
  apply H; try discriminate.
  - repeat constructor.
  - apply elem_of_cons. right. apply elem_of_cons. by left.
Defined.

(** ** What any event may do to the accounts *)

Lemma foldl_broadcastAlert_rest (l : list SystemAlert) :
  forall w,
    nextId (foldl broadcastAlert w l) = nextId w
    /\ activity (foldl broadcastAlert w l) = activity w
    /\ relayed (foldl broadcastAlert w l) = relayed w.
Proof.
  induction l as [|a l IH]; intros w; simpl; [done|].
  destruct (IH (broadcastAlert w a)) as (-> & -> & ->).
  unfold broadcastAlert. by destruct (_ || _).
Qed.

Lemma putThresholds_nextId e w r updates :
  nextId (fst (putThresholds e w r updates)) = nextId w.
Proof.
  unfold putThresholds, getCurrent.
  destruct (thresholds w); simpl;
    destruct (applyUpdates _ _); simpl; by destruct (pi e).
Qed.

Lemma register_nextId w name mail pass :
  registrable w name mail pass = true ->
  nextId (fst (register w name mail pass)) = S (nextId w).
Proof.
  unfold registrable, register, createUser.
  destruct (bool_decide (name = "")), (bool_decide (mail = "")),
    (bool_decide (pass = "")); simpl; try discriminate.
  destruct (findUser w (fun _ u => _ || _)); simpl; try discriminate.
  destruct (validUsername _), (validEmail _), (validPassword _); simpl;
    try discriminate.
  destruct (duplicateKey w None username _); simpl; try discriminate.
  destruct (duplicateKey w None email _); simpl; try discriminate.
  done.
Qed.

Lemma edited_refl_logins w k u v :
  role v = role u -> email v = email u -> username v = username u ->
  edited w k u v.
Proof. unfold edited. auto. Qed.

Ltac accounts_kept :=
  repeat (simpl;
          first [ by apply accountsKept
                | match goal with
                  | |- context [match ?x with _ => _ end] => destruct x
                  end ]).

Lemma register_accounts w name mail pass :
  accountsStep w (fst (register w name mail pass)).
Proof.
  destruct (registrable w name mail pass) eqn:Hreg.
  - destruct (register_accepted _ _ _ _ Hreg) as (Hus & _).
    destruct (registrable_unique _ _ _ _ Hreg) as [Hn Hm].
    eapply accountCreated; [exact Hus| | | |]; try done.
    by apply register_nextId.
  - destruct (register_rejected _ _ _ _ Hreg) as [-> _].
    by apply accountsKept.
Qed.

Lemma changePassword_accounts w r c n :
  accountsStep w (fst (changePassword w r c n)).
Proof.
  unfold changePassword.
  destruct (_ || _); [by apply accountsKept|].
  destruct (users w !! req_id r) as [u|] eqn:Hu; [|by apply accountsKept].
  destruct (negb (comparePassword u c)); [by apply accountsKept|].
  destruct (negb (validPassword n)); [by apply accountsKept|].
  simpl. eapply (accountEdited _ _ (req_id r) u); [done| |done|done].
  by apply edited_refl_logins.
Qed.

Lemma putUsername_accounts w r n :
  users w !! req_id r = Some (req_user r) ->
  accountsStep w (fst (putUsername w r n)).
Proof.
  intros Hr. unfold putUsername.
  destruct (bool_decide (n = "")); [by apply accountsKept|].
  destruct (findUser w _); [by apply accountsKept|].
  destruct (validUsername (Js.trim n)) eqn:Hv; simpl;
    [|by apply accountsKept].
  destruct (duplicateKey w (Some (req_id r)) username (Js.trim n)) eqn:Hd;
    simpl; [by apply accountsKept|].
  eapply (accountEdited _ _ (req_id r) (req_user r)); [done| |done|done].
  unfold edited. simpl. auto.
Qed.

Lemma putTheme_accounts w r th :
  users w !! req_id r = Some (req_user r) ->
  accountsStep w (fst (putTheme w r th)).
Proof.
  intros Hr. unfold putTheme.
  destruct (negb (includes _ th)); [by apply accountsKept|].
  simpl. eapply (accountEdited _ _ (req_id r) (req_user r));
    [done| |done|done].
  by apply edited_refl_logins.
Qed.

Lemma deleteUser_accounts w r id :
  accountsStep w (fst (deleteUser w r id)).
Proof.
  unfold deleteUser.
  destruct (users w !! id) as [t|] eqn:Ht; [|by apply accountsKept].
  case_bool_decide as Hh; [by apply accountsKept|].
  destruct (_ && _); [by apply accountsKept|].
  simpl. by eapply (accountDeleted _ _ id t).
Qed.

Lemma ban_accounts w r id b : accountsStep w (fst (ban w r id b)).
Proof.
  unfold ban.
  destruct (users w !! id) as [u|] eqn:Hu; [|by apply accountsKept].
  destruct (_ || _); [by apply accountsKept|].
  eapply (accountEdited _ _ id u (withStatus u (if b then banned else active)));
    [done|by apply edited_refl_logins| |].
  - simpl. destruct (b && isOnline u); [|done].
    destruct (socketId u) as [sid|]; [|done].
    by destruct (bool_decide (sid = "")).
  - simpl. destruct (b && isOnline u); [|done].
    destruct (socketId u) as [sid|]; [|done].
    by destruct (bool_decide (sid = "")).
Qed.

Lemma restrict_accounts w r id b : accountsStep w (fst (restrict w r id b)).
Proof.
  unfold restrict.
  destruct (users w !! id) as [u|] eqn:Hu; [|by apply accountsKept].
  destruct (_ || _); [by apply accountsKept|].
  simpl. eapply (accountEdited _ _ id u); [done| |done|done].
  by apply edited_refl_logins.
Qed.

Lemma promote_accounts w r id : accountsStep w (fst (promote w r id)).
Proof.
  unfold promote.
  destruct (users w !! id) as [u|] eqn:Hu; [|by apply accountsKept].
  case_bool_decide as Ha; [by apply accountsKept|].
  case_bool_decide as Hh; [by apply accountsKept|].
  simpl. eapply (accountEdited _ _ id u); [done| |done|done].
  unfold edited. simpl. auto.
Qed.

Lemma demote_accounts w r id : accountsStep w (fst (demote w r id)).
Proof.
  unfold demote.
  destruct (users w !! id) as [u|] eqn:Hu; [|by apply accountsKept].
  case_bool_decide as Hh; [by apply accountsKept|].
  case_bool_decide as Hus; [by apply accountsKept|].
  simpl. eapply (accountEdited _ _ id u); [done| |done|done].
  unfold edited. simpl. auto.
Qed.

Lemma behind_accounts {A : Type} w (m : Next A) (h : A -> World * Response) :
  (forall a, m = Continue a -> accountsStep w (fst (h a))) ->
  accountsStep w (fst (behind w m h)).
Proof.
  intros H. destruct m as [res|a]; simpl; [by apply accountsKept|].
  by apply H.
Qed.

Lemma writer_continue w tok r :
  bind (protect w tok) allowWrite = Continue r ->
  users w !! req_id r = Some (req_user r).
Proof.
  intros H. apply bind_continue in H as (r0 & Hp & Ha).
  apply allowWrite_continue in Ha as ->. by apply (protect_continue _ _ _ Hp).
Qed.

Lemma handle_accounts e w q : accountsStep w (fst (handle e w q)).
Proof.
  unfold handle. destruct (route q).
  - apply register_accounts.
  - apply behind_accounts. intros r _. by apply accountsKept.
  - apply behind_accounts. intros r _. apply changePassword_accounts.
  - apply behind_accounts. intros r _. unfold getThresholds, getCurrent.
    destruct (thresholds w); by apply accountsKept.
  - apply behind_accounts. intros r _. apply accountsKept.
    + apply putThresholds_users.
    + apply putThresholds_nextId.
  - apply behind_accounts. intros r _. unfold control. accounts_kept.
  - apply behind_accounts. intros r _. unfold auto_. accounts_kept.
  - apply behind_accounts. intros r Hr. apply putUsername_accounts.
    by apply (writer_continue _ _ _ Hr).
  - apply behind_accounts. intros r Hr. apply putTheme_accounts.
    by apply (protect_continue _ _ _ Hr).
  - apply behind_accounts. intros r _. by apply accountsKept.
  - apply behind_accounts. intros r _. apply deleteUser_accounts.
  - apply behind_accounts. intros r _. apply ban_accounts.
  - apply behind_accounts. intros r _. apply restrict_accounts.
  - apply behind_accounts. intros r _. apply promote_accounts.
  - apply behind_accounts. intros r _. apply demote_accounts.
  - apply behind_accounts. intros [] _. unfold postAlerts.
    destruct body as [l|]; [|by apply accountsKept].
    destruct (forallb _ _); simpl; [|by apply accountsKept].
    apply accountsKept.
    + by rewrite foldl_broadcastAlert_users.
    + by rewrite (proj1 (foldl_broadcastAlert_rest _ _)).
Qed.

Lemma alter_accounts w w' id f :
  (forall u, role (f u) = role u /\ email (f u) = email u
             /\ username (f u) = username u) ->
  users w' = alter f id (users w) -> nextId w' = nextId w ->
  accountsStep w w'.
Proof.
  intros Hf Hus Hn. destruct (users w !! id) as [u|] eqn:Hu.
  - eapply (accountEdited _ _ id u (f u)); [done| | |done].
    + destruct (Hf u) as (? & ? & ?). by apply edited_refl_logins.
    + rewrite Hus. apply map_eq. intros k.
      destruct (decide (k = id)) as [->|Hne].
      * by rewrite lookup_alter_eq, lookup_insert_eq, Hu.
      * by rewrite lookup_alter_ne, lookup_insert_ne.
  - apply accountsKept; [|done]. rewrite Hus. apply map_eq. intros k.
    destruct (decide (k = id)) as [->|Hne].
    + by rewrite lookup_alter_eq, Hu.
    + by rewrite lookup_alter_ne.
Qed.

Lemma step_accounts w ev : accountsStep w (fst (step w ev)).
Proof.
  destruct ev as [e q|tok id|s]; simpl.
  - pose proof (handle_accounts e w q) as H.
    by destruct (handle e w q).
  - destruct (ioUse w tok id) as [s|]; simpl; [|by apply accountsKept].
    by eapply (alter_accounts w _ (sock_userId s)
                 (setPresence true (Some (sock_id s)))).
  - by eapply (alter_accounts w _ (sock_userId s) (setPresence false None)).
Qed.

(** An invariant of [step] holds all along a run. *)
Lemma run_invariant (P : World -> Prop) :
  (forall w ev, P w -> P (fst (step w ev))) ->
  forall evs w, P w -> P (fst (run w evs)).
Proof.
  intros Hstep. induction evs as [|ev evs IH]; intros w Hw; simpl; [done|].
  specialize (Hstep w ev Hw). destruct (step w ev) as [w1 res].
  specialize (IH w1 Hstep). by destruct (run w1 evs).
Qed.

Lemma accountsStep_fresh w w' :
  accountsStep w w' -> freshIds w ->
  freshIds w' /\ nextId w <= nextId w'.
Proof.
  unfold freshIds.
  intros [Hus Hn|k u v Hk _ Hus Hn|v Hus Hn _ _ _|k u Hk _ Hus Hn] Hf;
    rewrite Hn; (split; [|lia]); intros id x; rewrite Hus.
  - apply Hf.
  - destruct (decide (id = k)) as [->|Hne].
    + intros _. by apply (Hf k u).
    + rewrite lookup_insert_ne by done. apply Hf.
  - destruct (decide (id = nextId w)) as [->|Hne]; [lia|].
    rewrite lookup_insert_ne by done. intros Hx.
    specialize (Hf id x Hx). lia.
  - destruct (decide (id = k)) as [->|Hne].
    + by rewrite lookup_delete_eq.
    + rewrite lookup_delete_ne by done. apply Hf.
Qed.

(** Ids are never given twice: when every stored id is below the next
    id, this still holds after any event and the next id has not
    decreased; so an accepted registration adds an account and
    overwrites none, and every store reached from an empty database has
    the property. *)
Theorem ids_stay_fresh :
  (forall w ev, freshIds w ->
     freshIds (fst (step w ev)) /\ nextId w <= nextId (fst (step w ev)))
  /\ (forall e w name mail pass,
        freshIds w -> registrable w name mail pass = true ->
        users w !! nextId w = None
        /\ size (users (fst (handle e w (registerRequest name mail pass))))
           = S (size (users w)))
  /\ (forall w, reachable w -> freshIds w).
Proof.
  split; [|split].
  - intros w ev Hf. apply accountsStep_fresh; [apply step_accounts|done].
  - intros e w name mail pass Hf Hok.
    assert (Hnone : users w !! nextId w = None).
    { destruct (users w !! nextId w) as [u|] eqn:Hu; [|done].
      specialize (Hf _ _ Hu). lia. }
    split; [exact Hnone|].
    change (handle e w (registerRequest name mail pass))
      with (register w name mail pass).
    rewrite (proj1 (register_accepted _ _ _ _ Hok)).
    by apply map_size_insert_None.
  - intros w [evs ->]. apply run_invariant.
    + intros w0 ev Hf.
      by destruct (accountsStep_fresh _ _ (step_accounts w0 ev) Hf).
    + intros id u Hu. simpl in Hu. by rewrite lookup_empty in Hu.
Qed.

Lemma farm_fresh s : freshIds (farm s).
Proof.
  intros id u Hu. unfold farm in *. simpl in *.
  destruct (decide (id < 3)) as [|Hge]; [done|].
  rewrite !lookup_insert_ne in Hu by lia. by rewrite lookup_empty in Hu.
Qed.

Lemma ids_stay_fresh_witness :
  size (users (fst (handle piUp (farm active)
                           (registerRequest "dave" "dave@farm.io"
                                            "hunter22"))))
  = 4.
Proof.
  pose proof (proj1 (proj2 ids_stay_fresh)) as H.
  destruct (H piUp (farm active) "dave" "dave@farm.io" "hunter22"
              (farm_fresh active) eq_refl) as [_ Hsz].
  exact Hsz.
Defined.

(** Head admins before and after one event. *)
Lemma step_head_admins (w : World) (ev : Event) (id : UserId) :
  freshIds w ->
  let w' := fst (step w ev) in
  (forall u, users w !! id = Some u -> role u = head_admin ->
     exists v, users w' !! id = Some v /\ role v = head_admin)
  /\ (forall v, users w' !! id = Some v -> role v = head_admin ->
        (exists u, users w !! id = Some u /\ role u = head_admin)
        \/ (users w = ∅ /\ id = nextId w)).
Proof.
  intros Hf w'. pose proof (step_accounts w ev) as Hstep. fold w' in Hstep.
  destruct Hstep as [Hus Hn|k u0 v0 Hk (Hrole & _) Hus Hn
                    |v0 Hus Hn Hrole _ _|k u0 Hk Hnh Hus Hn];
    rewrite Hus; split.
  - eauto.
  - eauto.
  - intros u Hu Hr. destruct (decide (id = k)) as [->|Hne].
    + rewrite lookup_insert_eq. eexists. split; [done|].
      rewrite Hk in Hu. injection Hu as ->.
      destruct Hrole as [->|[? _]]; [done|contradiction].
    + rewrite lookup_insert_ne by done. eauto.
  - intros v. destruct (decide (id = k)) as [->|Hne].
    + rewrite lookup_insert_eq. intros [= <-] Hr. left. exists u0.
      split; [done|]. destruct Hrole as [<-|[_ ?]]; [done|contradiction].
    + rewrite lookup_insert_ne by done. eauto.
  - intros u Hu Hr. specialize (Hf _ _ Hu).
    rewrite lookup_insert_ne by lia. eauto.
  - intros v. destruct (decide (id = nextId w)) as [->|Hne].
    + rewrite lookup_insert_eq. intros [= <-] Hr. right.
      split; [|done]. destruct (decide (users w = ∅)) as [|Hne]; [done|].
      rewrite (firstUserRole_non_empty _ Hne) in Hrole. congruence.
    + rewrite lookup_insert_ne by done. eauto.
  - intros u Hu Hr. destruct (decide (id = k)) as [->|Hne].
    + rewrite Hk in Hu. injection Hu as ->. contradiction.
    + rewrite lookup_delete_ne by done. eauto.
  - intros v. destruct (decide (id = k)) as [->|Hne].
    + by rewrite lookup_delete_eq.
    + rewrite lookup_delete_ne by done. eauto.
Qed.



Lemma fromEmpty_step w ev : fromEmpty w -> fromEmpty (fst (step w ev)).
Proof.
  intros (Hf & Hz & Hh).
  destruct (accountsStep_fresh _ _ (step_accounts w ev) Hf) as [Hf' _].
  split; [exact Hf'|]. split.
  - intros He.
    assert (Hw : users w = ∅).
    { destruct (decide (users w = ∅)) as [|Hne]; [done|].
      by destruct (step_users w ev Hne). }
    pose proof (step_accounts w ev) as Hstep.
    destruct Hstep as [Hus Hn|k u0 v0 Hk _ Hus Hn
                      |v0 Hus Hn _ _ _|k u0 Hk _ Hus Hn].
    + rewrite Hn. by apply Hz.
    + rewrite Hw in Hk. by rewrite lookup_empty in Hk.
    + rewrite Hus in He. by apply insert_non_empty in He.
    + rewrite Hw in Hk. by rewrite lookup_empty in Hk.
  - intros id v Hv Hr.
    destruct (step_head_admins w ev id Hf) as [_ Hback].
    destruct (Hback v Hv Hr) as [(u & Hu & Hru)|[He ->]].
    + by apply (Hh id u).
    + by apply Hz.
Qed.

(** X22.  In every store reached from an empty database, whatever the
    requests, handshakes and disconnections were, at most one account is
    head admin, and it is the first one registered (id 0). *)
Theorem single_head_admin (w : World) :
  reachable w ->
  (forall id u, users w !! id = Some u -> role u = head_admin -> id = 0)
  /\ (forall i j ui uj,
        users w !! i = Some ui -> users w !! j = Some uj ->
        role ui = head_admin -> role uj = head_admin -> i = j).
Proof.
  intros [evs ->].
  assert (Hinv : fromEmpty (fst (run emptyWorld evs))).
  { apply run_invariant; [apply fromEmpty_step|].
    split; [|split]; try done;
      intros id u Hu; simpl in Hu; by rewrite lookup_empty in Hu. }
  destruct Hinv as (_ & _ & Hh). split; [exact Hh|].
  intros i j ui uj Hi Hj Hri Hrj.
  rewrite (Hh i ui Hi Hri), (Hh j uj Hj Hrj). reflexivity.
Qed.

Lemma single_head_admin_witness :
  reachable (fst (run emptyWorld threeEvents))
  /\ role <$> users (fst (run emptyWorld threeEvents)) !! 1 = Some admin
  /\ role <$> users (fst (run emptyWorld threeEvents)) !! 1 <> Some head_admin.
Proof.
  assert (Hr : reachable (fst (run emptyWorld threeEvents)))
    by (eexists; reflexivity).
  split; [exact Hr|]. split; [reflexivity|].
  destruct (users (fst (run emptyWorld threeEvents)) !! 1) as [u|] eqn:Hu;
    [|discriminate].
  simpl. intros [= Hrole].
  pose proof (proj1 (single_head_admin _ Hr) 1 u Hu Hrole) as H01.
  discriminate H01.
Defined.

Lemma accountsStep_unique w w' :
  accountsStep w w' -> freshIds w -> uniqueLogins w -> uniqueLogins w'.
Proof.
  unfold uniqueLogins.
  intros [Hus Hn|k u v Hk (_ & Hmail & Hname) Hus Hn
         |v Hus Hn _ Hdn Hdm|k u Hk _ Hus Hn] Hf Hun i j ui uj;
    rewrite Hus.
  - apply Hun.
  - assert (Hclash : forall x ux, x <> k -> users w !! x = Some ux ->
              username v = username ux \/ email v = email ux -> False).
    { intros x ux Hx Hux [He|He].
      - destruct Hname as [Hsame|Hdup].
        + apply Hx. apply (Hun x k ux u Hux Hk). left. congruence.
        + apply (duplicateKey_false _ _ _ _ Hdup x ux Hux); congruence.
      - apply Hx. apply (Hun x k ux u Hux Hk). right. congruence. }
    destruct (decide (i = k)) as [->|Hi]; destruct (decide (j = k)) as [->|Hj];
      try done.
    + rewrite lookup_insert_eq, lookup_insert_ne by done.
      intros [= <-] Huj Heq. destruct (Hclash j uj Hj Huj Heq).
    + rewrite lookup_insert_eq, lookup_insert_ne by done.
      intros Hui [= <-] Heq. destruct (Hclash i ui Hi Hui).
      destruct Heq; [left|right]; congruence.
    + rewrite !lookup_insert_ne by done. apply Hun.
  - assert (Hclash : forall x ux, users w !! x = Some ux ->
              username v = username ux \/ email v = email ux -> False).
    { intros x ux Hux [He|He].
      - apply (duplicateKey_false _ _ _ _ Hdn x ux Hux); congruence.
      - apply (duplicateKey_false _ _ _ _ Hdm x ux Hux); congruence. }
    destruct (decide (i = nextId w)) as [->|Hi];
      destruct (decide (j = nextId w)) as [->|Hj]; try done.
    + rewrite lookup_insert_eq, lookup_insert_ne by done.
      intros [= <-] Huj Heq. destruct (Hclash j uj Huj Heq).
    + rewrite lookup_insert_eq, lookup_insert_ne by done.
      intros Hui [= <-] Heq. destruct (Hclash i ui Hui).
      destruct Heq; [left|right]; congruence.
    + rewrite !lookup_insert_ne by done. apply Hun.
  - intros Hi Hj. apply lookup_delete_Some in Hi as [_ Hi].
    apply lookup_delete_Some in Hj as [_ Hj]. by apply (Hun i j ui uj).
Qed.

(** X23.  Usernames and emails stay unique, the unique indexes of the
    User schema being applied to every registration and username
    change: when ids are fresh and no two accounts share a username or
    an email, the same holds after any event; so it holds in every
    store reached from an empty database. *)
Theorem logins_stay_unique :
  (forall w ev, freshIds w -> uniqueLogins w ->
     uniqueLogins (fst (step w ev)))
  /\ (forall w, reachable w -> uniqueLogins w).
Proof.
  split.
  - intros w ev Hf Hun.
    by apply (accountsStep_unique w _ (step_accounts w ev)).
  - intros w [evs ->].
    apply (run_invariant (fun w => freshIds w /\ uniqueLogins w)).
    + intros w0 ev [Hf Hun]. split.
      * by destruct (accountsStep_fresh _ _ (step_accounts w0 ev) Hf).
      * by apply (accountsStep_unique w0 _ (step_accounts w0 ev)).
    + split.
      * intros id u Hu. simpl in Hu. by rewrite lookup_empty in Hu.
      * intros i j ui uj Hi. simpl in Hi. by rewrite lookup_empty in Hi.
Qed.

Lemma farm_unique s : uniqueLogins (farm s).
Proof.
  assert (Hcases : forall i u, users (farm s) !! i = Some u ->
            (i = 0 /\ u = alice) \/ (i = 1 /\ u = bob s)
            \/ (i = 2 /\ u = carol)).
  { intros i u. unfold farm. simpl.
    destruct (decide (i = 0)) as [->|H0];
      [rewrite lookup_insert_eq; intros [= <-]; auto|].
    rewrite lookup_insert_ne by done.
    destruct (decide (i = 1)) as [->|H1];
      [rewrite lookup_insert_eq; intros [= <-]; auto|].
    rewrite lookup_insert_ne by done.
    destruct (decide (i = 2)) as [->|H2];
      [rewrite lookup_insert_eq; intros [= <-]; auto|].
    rewrite lookup_insert_ne by done. by rewrite lookup_empty. }
  intros i j ui uj Hi Hj Heq.
  destruct (Hcases i ui Hi) as [[-> ->]|[[-> ->]|[-> ->]]];
    destruct (Hcases j uj Hj) as [[-> ->]|[[-> ->]|[-> ->]]];
    try done; destruct Heq as [Heq|Heq]; discriminate Heq.
Qed.

Lemma logins_stay_unique_witness :
  username <$> users (fst (step (farm active)
                             (Http piUp (as_ 1 (PUT_settings_username
                                                  "bobby"))))) !! 1
  = Some "bobby"
  /\ uniqueLogins
       (fst (step (farm active)
                  (Http piUp (as_ 1 (PUT_settings_username "bobby"))))).
Proof.
  split; [reflexivity|].
  apply (proj1 logins_stay_unique (farm active)
           (Http piUp (as_ 1 (PUT_settings_username "bobby")))
           (farm_fresh active) (farm_unique active)).
Defined.

(** ** Settings *)

Lemma get_settings_known e w id u :
  users w !! id = Some u -> status u <> banned ->
  handle e w (as_ id GET_settings) = (w, ok 200 None (settingsOf u)).
Proof.
  intros Hu Hs. unfold as_, handle. simpl token; simpl route.
  rewrite (protect_known _ _ _ Hu), bool_decide_eq_false_2 by done.
  reflexivity.
Qed.

(** X25.  Settings are read back as stored.  An active caller who sends
    a username that, with the white space around it removed, has 3 to
    30 UTF-16 units and is the username of no other account, gets the
    trimmed username stored, nothing else of the account and no other
    account changed, and the change logged under the action
    password_changed with the old name and the name as sent.  Any
    caller who is not banned, restricted included, who sends one of the
    three themes gets that theme stored and nothing else changed.  In
    both cases the settings read that follows shows the stored value. *)
Theorem settings_round_trip (e : Env) (w : World) (id : UserId) (u : User) :
  users w !! id = Some u ->
  status u <> banned ->
  (forall n,
     status u = active -> validUsername (Js.trim n) = true ->
     (forall j uj, users w !! j = Some uj -> j <> id ->
                   username uj <> Js.trim n) ->
     let w' := fst (handle e w (as_ id (PUT_settings_username n))) in
     users w' = <[id := withUsername u (Js.trim n)]> (users w)
     /\ activity w' =
          (activity w ++
           [mkLog id n "password_changed"
                  (UsernameDetails (username u) n)])%list
     /\ forall e', handle e' w' (as_ id GET_settings)
                   = (w', ok 200 None
                            (settingsOf (withUsername u (Js.trim n)))))
  /\ (forall th,
        includes ["light"; "dark"; "auto"] th = true ->
        let w' := fst (handle e w (as_ id (PUT_settings_theme th))) in
        users w' = <[id := withTheme u th]> (users w)
        /\ activity w' = activity w
        /\ forall e', handle e' w' (as_ id GET_settings)
                      = (w', ok 200 None (settingsOf (withTheme u th)))).
Proof.
  intros Hu Hs. split.
  - intros n Ha Hvalid Hfree w'.
    assert (Hne : n <> "") by (by intros ->).
    assert (Hw : w' = logActivity
                        (setUsers w (<[id := withUsername u (Js.trim n)]>
                                       (users w)))
                        (mkLog id n "password_changed"
                               (UsernameDetails (username u) n))).
    { subst w'. unfold as_, handle. simpl token; simpl route.
      rewrite (protect_active _ _ _ Hu Ha). simpl. unfold putUsername.
      rewrite bool_decide_eq_false_2 by done. simpl req_id; simpl req_user.
      rewrite findUser_false.
      2:{ intros j uj Huj. destruct (decide (j = id)) as [->|Hj].
          - rewrite (bool_decide_eq_true_2 (id = id)) by done.
            apply andb_false_r.
          - rewrite (bool_decide_eq_false_2 (username uj = Js.trim n));
              [done|]. by apply (Hfree j uj). }
      rewrite Hvalid. unfold duplicateKey. rewrite findUser_false.
      2:{ intros j uj Huj. destruct (decide (j = id)) as [->|Hj].
          - by rewrite (bool_decide_eq_true_2 (Some id = Some id)).
          - rewrite (bool_decide_eq_false_2 (username uj = Js.trim n));
              [apply andb_false_r|]. by apply (Hfree j uj). }
      reflexivity. }
    rewrite Hw. simpl. repeat split.
    intros e'. apply get_settings_known; [|done].
    simpl. apply lookup_insert_eq.
  - intros th Hth w'.
    assert (Hw : w' = setUsers w (<[id := withTheme u th]> (users w))).
    { subst w'. unfold as_, handle. simpl token; simpl route.
      rewrite (protect_known _ _ _ Hu), bool_decide_eq_false_2 by done.
      simpl. unfold putTheme. by rewrite Hth. }
    rewrite Hw. simpl. repeat split.
    intros e'. apply get_settings_known; [|done].
    simpl. apply lookup_insert_eq.
Qed.

Lemma settings_round_trip_witness :
  snd (handle piDown
         (fst (handle piUp (farm restricted) (as_ 1 (PUT_settings_theme "auto"))))
         (as_ 1 GET_settings))
  = ok 200 None (SettingsData "bob" "bob@farm.io" "auto" user restricted)
  /\ snd (handle piDown
            (fst (handle piUp (farm active)
                         (as_ 1 (PUT_settings_username " bobby "))))
            (as_ 1 GET_settings))
     = ok 200 None (SettingsData "bobby" "bob@farm.io" "light" user active).
Proof.
  split.
  - destruct (settings_round_trip piUp (farm restricted) 1 (bob restricted)
                eq_refl ltac:(discriminate)) as [_ H].
    destruct (H "auto" eq_refl) as (_ & _ & Hget).
    by rewrite (Hget piDown).
  - destruct (settings_round_trip piUp (farm active) 1 (bob active)
                eq_refl ltac:(discriminate)) as [H _].
    destruct (H " bobby " eq_refl eq_refl) as (_ & _ & Hget).
    + intros j uj Huj Hj.
      destruct (decide (j = 0)) as [->|H0];
        [by injection Huj as <-|].
      destruct (decide (j = 2)) as [->|H2];
        [by injection Huj as <-|].
      unfold farm in Huj. simpl in Huj.
      by rewrite !lookup_insert_ne, lookup_empty in Huj.
    + by rewrite (Hget piDown).
Defined.
